(** * airix: process lifecycle and per-process address spaces

    A shallow embedding of [src/kernel/process.c]: the PID allocator, the
    process record pool, the address-space builder (exec), cloner (fork) and
    reclaimer (destroy), together with the properties the specification
    states about them.

    The file has three parts: the embedding of the code, the vocabulary of
    the specification (owned frames, well-formed states, call sequences), and
    the lemmas and theorems. *)

From stdpp Require Import base gmap list.
From Stdlib Require Import ZArith Lia.

Local Open Scope Z_scope.

(** * Part I: the code *)

(** ** Constants of the headers

    [process.c] takes these from [kernel/process.h], [kernel/base.h],
    [mm/paging.h], [mm/vmm.h], [kernel/idt.h] and [kernel/gdt.h].  Their
    values are not part of the file under study; they are parameters. *)

Class Platform := {
  PROC_MAX_NUM : Z;
  KERNEL_BASE : Z;
  PAGE_SIZE : Z;
  NUM_PTE : Z;
  VMM_WRITABLE : Z;
  VMM_USER : Z;
  PROC_STATE_RUNNING : Z;
  PROC_STATE_DEAD : Z;
  KERNEL_CODE_SELECTOR : Z;
  IDT_TYPE_INT : Z;
  DPL_3 : Z;
  (** address of [syscall_entry] *)
  syscall_entry : Z;
  (** the kernel's own page directory, whose upper half every process shares *)
  KERNEL_PAGE_DIR : Z;
  (** the objects a fresh [kmem_cache] of process records hands out *)
  PROC_SLOTS : list Z
}.

(** [uint32_t] arithmetic *)
Definition wrap32 (x : Z) : Z := x mod 2 ^ 32.

(** ** Bytes of the PID bitmap

    [pid_map] is a [char] array.  A [char] is represented by its low eight
    bits, a [Z] in [0, 256).  Storing an [int] into a [char] keeps the low
    eight bits ([to_char]).  The masks used by the source are at most
    [1 << 7], so the sign of [char] never shows in a test. *)

Definition to_char (x : Z) : Z := Z.land x 255.

(** [1 << (pid % 8)] *)
Definition pid_mask (pid : Z) : Z := Z.shiftl 1 (Z.rem pid 8).

(** The index [pid / 8] into [pid_map]; it is in range whenever [pid] is a
    PID and [PROC_MAX_NUM] is a multiple of eight. *)
Definition pid_slot (pid : Z) : nat := Z.to_nat (Z.quot pid 8).

Definition pid_byte (m : list Z) (pid : Z) : Z := default 0 (m !! pid_slot pid).

(** [pid_map[pid / 8] & (1 << (pid % 8))] is non-zero *)
Definition pid_in_use (m : list Z) (pid : Z) : bool :=
  negb (Z.land (pid_byte m pid) (pid_mask pid) =? 0).

(** [pid_map[pid / 8] |= (1 << (pid % 8))] *)
Definition pid_mark (m : list Z) (pid : Z) : list Z :=
  <[pid_slot pid := to_char (Z.lor (pid_byte m pid) (pid_mask pid))]> m.

(** [pid_map[pid / 8] &= ~(1 << (pid % 8))] *)
Definition pid_clear (m : list Z) (pid : Z) : list Z :=
  <[pid_slot pid := to_char (Z.land (pid_byte m pid) (Z.lnot (pid_mask pid)))]> m.

(** The two statics of the allocator. *)
Record pid_state := PidState {
  pid_map : list Z;
  pid_gen : Z
}.

(** ** Data

    A page-table or page-directory entry: the address it points to and its
    flag bits. *)
Abbreviation pte := (Z * Z)%type (only parsing).

(** [struct process].  Pointers are addresses, [0] is [NULL]. *)
Record process := Process {
  pid : Z;
  state : Z;
  status : Z;
  page_dir : Z;
  mem_pages : Z;
  entry : Z;
  kernel_stack : Z;
  user_stack : Z;
  context : list Z;
  parent : Z
}.

(** What [memset(proc, 0, sizeof( *proc))] leaves. *)
Definition zero_process : process := Process 0 0 0 0 0 0 0 0 [] 0.

Definition set_pid (v : Z) (p : process) : process :=
  Process v (state p) (status p) (page_dir p) (mem_pages p) (entry p)
          (kernel_stack p) (user_stack p) (context p) (parent p).
Definition set_state (v : Z) (p : process) : process :=
  Process (pid p) v (status p) (page_dir p) (mem_pages p) (entry p)
          (kernel_stack p) (user_stack p) (context p) (parent p).
Definition set_status (v : Z) (p : process) : process :=
  Process (pid p) (state p) v (page_dir p) (mem_pages p) (entry p)
          (kernel_stack p) (user_stack p) (context p) (parent p).
Definition set_page_dir (v : Z) (p : process) : process :=
  Process (pid p) (state p) (status p) v (mem_pages p) (entry p)
          (kernel_stack p) (user_stack p) (context p) (parent p).
Definition set_mem_pages (v : Z) (p : process) : process :=
  Process (pid p) (state p) (status p) (page_dir p) v (entry p)
          (kernel_stack p) (user_stack p) (context p) (parent p).
Definition set_entry (v : Z) (p : process) : process :=
  Process (pid p) (state p) (status p) (page_dir p) (mem_pages p) v
          (kernel_stack p) (user_stack p) (context p) (parent p).
Definition set_kernel_stack (v : Z) (p : process) : process :=
  Process (pid p) (state p) (status p) (page_dir p) (mem_pages p) (entry p)
          v (user_stack p) (context p) (parent p).
Definition set_user_stack (v : Z) (p : process) : process :=
  Process (pid p) (state p) (status p) (page_dir p) (mem_pages p) (entry p)
          (kernel_stack p) v (context p) (parent p).
Definition set_context (v : list Z) (p : process) : process :=
  Process (pid p) (state p) (status p) (page_dir p) (mem_pages p) (entry p)
          (kernel_stack p) (user_stack p) v (parent p).
Definition set_parent (v : Z) (p : process) : process :=
  Process (pid p) (state p) (status p) (page_dir p) (mem_pages p) (entry p)
          (kernel_stack p) (user_stack p) (context p) v.

(** Physical memory as the memory managers see it: the free frames of the
    frame allocator, the frames in use as page directories and page tables
    (slot to entry), and the bytes of the data frames.  All are keyed by
    frame address, so two references to one frame see one object. *)
Record mem := Mem {
  pmm_free : list Z;
  page_dirs : gmap Z (gmap Z pte);
  page_tabs : gmap Z (gmap Z pte);
  phys : gmap Z (list Z)
}.

Definition set_pmm_free (v : list Z) (m : mem) : mem :=
  Mem v (page_dirs m) (page_tabs m) (phys m).
Definition set_page_dirs (v : gmap Z (gmap Z pte)) (m : mem) : mem :=
  Mem (pmm_free m) v (page_tabs m) (phys m).
Definition set_page_tabs (v : gmap Z (gmap Z pte)) (m : mem) : mem :=
  Mem (pmm_free m) (page_dirs m) v (phys m).
Definition set_phys (v : gmap Z (list Z)) (m : mem) : mem :=
  Mem (pmm_free m) (page_dirs m) (page_tabs m) v.

(** An IDT gate: selector, handler, type, privilege level. *)
Record idt_gate := IdtGate {
  gate_selector : Z;
  gate_handler : Z;
  gate_type : Z;
  gate_dpl : Z
}.

(** The kernel state [process.c] reads and writes: its statics ([pid_map],
    [pid_gen], [proc_cache]), the memory of the process records, physical
    memory, the scheduler's queue and the IDT.  [idt_log] lists the vectors
    passed to [idt_set_entry], latest first. *)
Record kernel := Kernel {
  pids : pid_state;
  proc_cache : list Z;
  procs : gmap Z process;
  kmem : mem;
  run_queue : list Z;
  idt : gmap Z idt_gate;
  idt_log : list Z
}.

Definition set_pids (v : pid_state) (k : kernel) : kernel :=
  Kernel v (proc_cache k) (procs k) (kmem k) (run_queue k) (idt k) (idt_log k).
Definition set_proc_cache (v : list Z) (k : kernel) : kernel :=
  Kernel (pids k) v (procs k) (kmem k) (run_queue k) (idt k) (idt_log k).
Definition set_procs (v : gmap Z process) (k : kernel) : kernel :=
  Kernel (pids k) (proc_cache k) v (kmem k) (run_queue k) (idt k) (idt_log k).
Definition set_kmem (v : mem) (k : kernel) : kernel :=
  Kernel (pids k) (proc_cache k) (procs k) v (run_queue k) (idt k) (idt_log k).
Definition set_run_queue (v : list Z) (k : kernel) : kernel :=
  Kernel (pids k) (proc_cache k) (procs k) (kmem k) v (idt k) (idt_log k).

(** The record at address [r]. *)
Definition get_proc (k : kernel) (r : Z) : process :=
  default zero_process (procs k !! r).

(** [proc->field = ...] *)
Definition upd_proc (r : Z) (f : process -> process) (k : kernel) : kernel :=
  set_procs (<[r := f (get_proc k r)]> (procs k)) k.

(** [proc->mem_pages += n] (and [-= 1] with [n = -1]), in [uint32_t]. *)
Definition add_mem_pages (r n : Z) (k : kernel) : kernel :=
  upd_proc r (fun p => set_mem_pages (wrap32 (mem_pages p + n)) p) k.

(** A call either returns, with a value and the state it leaves, or ends in
    [panic], which halts the kernel. *)
Inductive outcome (A : Type) : Type :=
  | Ok (a : A) (k : kernel)
  | Panic (k : kernel).
Arguments Ok {A} a k.
Arguments Panic {A} k.

(** The directory, or table, stored in a frame; a frame that holds none
    reads as empty. *)
Definition dir_of (m : mem) (d : Z) : gmap Z pte := default ∅ (page_dirs m !! d).
Definition table_of (m : mem) (t : Z) : gmap Z pte := default ∅ (page_tabs m !! t).

(** The bytes of a data frame. *)
Definition page_bytes (m : mem) (a : Z) : list Z := default [] (phys m !! a).

(** ** The collaborators: frame allocator, address-space primitives, pool *)

(** Modelled from the spec: [pmm_alloc_page_address] of [mm/pmm.c], which
    is missing: "allocate one physical page, return a physical address or
    failure".  The allocator hands out the first free frame; [0] is the
    failure value the callers test for. *)
Definition pmm_alloc_page_address (m : mem) : Z * mem :=
  match pmm_free m with
  | [] => (0, m)
  | a :: rest => (a, set_pmm_free rest m)
  end.

(** Modelled from the spec: [pmm_free_page_address] of [mm/pmm.c], which
    is missing: "free one physical page". *)
Definition pmm_free_page_address (a : Z) (m : mem) : mem :=
  set_pmm_free (a :: pmm_free m) m.

(** Modelled from the spec: [vmm_alloc_vaddr_space] of [mm/vmm.c], which is
    missing: "allocate a directory", one physical frame, empty. *)
Definition vmm_alloc_vaddr_space (m : mem) : Z * mem :=
  let '(a, m1) := pmm_alloc_page_address m in
  if a =? 0 then (0, m1)
  else (a, set_page_dirs (<[a := ∅]> (page_dirs m1)) m1).

(** Modelled from the spec: [vmm_free_vaddr_space] of [mm/vmm.c], which is
    missing: "free a directory". *)
Definition vmm_free_vaddr_space (d : Z) (m : mem) : mem :=
  pmm_free_page_address d (set_page_dirs (delete d (page_dirs m)) m).

(** Modelled from the spec: [vmm_alloc_page_table] of [mm/vmm.c], which is
    missing: "allocate a page table", one physical frame, empty. *)
Definition vmm_alloc_page_table (m : mem) : Z * mem :=
  let '(a, m1) := pmm_alloc_page_address m in
  if a =? 0 then (0, m1)
  else (a, set_page_tabs (<[a := ∅]> (page_tabs m1)) m1).

(** Modelled from the spec: [vmm_free_page_table] of [mm/vmm.c], which is
    missing: "free a page table". *)
Definition vmm_free_page_table (t : Z) (m : mem) : mem :=
  pmm_free_page_address t (set_page_tabs (delete t (page_tabs m)) m).

(** Modelled from the spec: [vmm_get_page_table_index] of [mm/vmm.c], which
    is missing: "look up a mapping with its flags".  The result is the table
    and the flags written through the out-pointer; an empty slot gives
    [NULL] and leaves the caller's [0]. *)
Definition vmm_get_page_table_index (dir pde : Z) (m : mem) : pte :=
  default (0, 0) (dir_of m dir !! pde).

(** Modelled from the spec: [vmm_get_page_index] of [mm/vmm.c], which is
    missing: "look up a mapping with its flags". *)
Definition vmm_get_page_index (tab pte_ix : Z) (m : mem) : pte :=
  default (0, 0) (table_of m tab !! pte_ix).

(** Modelled from the spec: [vmm_map_page_table_index] of [mm/vmm.c], which
    is missing: "map a whole table at an index". *)
Definition vmm_map_page_table_index (dir pde tab flag : Z) (m : mem) : mem :=
  set_page_dirs (<[dir := <[pde := (tab, flag)]> (dir_of m dir)]> (page_dirs m)) m.

(** Modelled from the spec: [vmm_map_page_index] of [mm/vmm.c], which is
    missing: "map a page at an index". *)
Definition vmm_map_page_index (tab pte_ix paddr flag : Z) (m : mem) : mem :=
  set_page_tabs (<[tab := <[pte_ix := (paddr, flag)]> (table_of m tab)]> (page_tabs m)) m.

(** Modelled from the spec: [vmm_unmap_page_table_index] of [mm/vmm.c],
    which is missing: "unmap a whole table at an index"; returns the table
    that was mapped there. *)
Definition vmm_unmap_page_table_index (dir pde : Z) (m : mem) : Z * mem :=
  (fst (vmm_get_page_table_index dir pde m),
   set_page_dirs (<[dir := delete pde (dir_of m dir)]> (page_dirs m)) m).

(** Modelled from the spec: [vmm_unmap_page_index] of [mm/vmm.c], which is
    missing: "unmap a page at an index"; returns the frame that was mapped
    there. *)
Definition vmm_unmap_page_index (tab pte_ix : Z) (m : mem) : Z * mem :=
  (fst (vmm_get_page_index tab pte_ix m),
   set_page_tabs (<[tab := delete pte_ix (table_of m tab)]> (page_tabs m)) m).

(** Modelled from the spec: [memcpy] between two frames seen through
    [CAST_PHYSICAL_TO_VIRTUAL], the "physical to virtual translation for the
    identity-mapped kernel window"; [PAGE_SIZE] bytes are one whole frame. *)
Definition memcpy_page (dst src : Z) (m : mem) : mem :=
  set_phys (<[dst := page_bytes m src]> (phys m)) m.

(** Modelled from the spec: [slab_alloc] of [mm/slab.c], which is missing:
    "the fixed-capacity object pool used to allocate process records". *)
Definition slab_alloc (k : kernel) : Z * kernel :=
  match proc_cache k with
  | [] => (0, k)
  | r :: rest => (r, set_proc_cache rest k)
  end.

(** Modelled from the spec: [slab_free] of [mm/slab.c], which is missing:
    the pool "recycles process records". *)
Definition slab_free (r : Z) (k : kernel) : kernel :=
  set_proc_cache (r :: proc_cache k) k.

(** Modelled from the spec: [sched_add] of [kernel/scheduler.c], which is
    missing: the scheduler "accepts a runnable process". *)
Definition sched_add (r : Z) (k : kernel) : kernel :=
  set_run_queue (run_queue k ++ [r]) k.

(** Modelled from the spec: [idt_set_entry] of [kernel/idt.c], which is
    missing: "descriptor-table setup used to route a system-call trap into
    the kernel". *)
Definition idt_set_entry (vec sel handler ty dpl : Z) (k : kernel) : kernel :=
  Kernel (pids k) (proc_cache k) (procs k) (kmem k) (run_queue k)
         (<[vec := IdtGate sel handler ty dpl]> (idt k)) (vec :: idt_log k).

Section Kernel.

Context {PF : Platform}.

(** The number of page-directory slots of user space,
    [KERNEL_BASE / (NUM_PTE * PAGE_SIZE)]. *)
Definition USER_PDES : Z := Z.quot KERNEL_BASE (NUM_PTE * PAGE_SIZE).

Definition PROC_KERNEL_STACK : Z := wrap32 (KERNEL_BASE - 16 * PAGE_SIZE).
Definition PROC_USER_STACK : Z := wrap32 (KERNEL_BASE - 1024 * PAGE_SIZE).
Definition SYSCALL_INT_NUM : Z := 128.

(** The directory slot and the table slot of a virtual address. *)
Definition pde_index (vaddr : Z) : Z := Z.quot vaddr (NUM_PTE * PAGE_SIZE).
Definition pte_index (vaddr : Z) : Z := Z.rem (Z.quot vaddr PAGE_SIZE) NUM_PTE.

(** Modelled from the spec: [vmm_map] of [mm/vmm.c], which is missing: maps
    one page and returns "the number of frames newly consumed" besides the
    data frame, that is [1] "the first time a given page-table slot is
    touched" and [0] after that; a negative result is failure, when the page
    table cannot be allocated. *)
Definition vmm_map (dir vaddr paddr flag : Z) (m : mem) : Z * mem :=
  let pde := pde_index vaddr in
  let '(tab, _) := vmm_get_page_table_index dir pde m in
  if tab =? 0 then
    let '(t, m1) := vmm_alloc_page_table m in
    if t =? 0 then (-1, m1)
    else (1, vmm_map_page_index t (pte_index vaddr) paddr flag
               (vmm_map_page_table_index dir pde t flag m1))
  else (0, vmm_map_page_index tab (pte_index vaddr) paddr flag m).

(** Modelled from the spec: [pg_copy_kernel_space] of [mm/paging.c], which
    is missing: "copy the kernel's shared mappings into a new directory".
    The slots of user space keep what the directory has. *)
Definition pg_copy_kernel_space (dir : Z) (m : mem) : mem :=
  set_page_dirs
    (<[dir := filter (fun e => USER_PDES <= e.1) (dir_of m KERNEL_PAGE_DIR)
              ∪ filter (fun e => e.1 < USER_PDES) (dir_of m dir)]> (page_dirs m)) m.

(** Modelled from the spec: [slab_create_kmem_cache] of [mm/slab.c], which
    is missing; the new cache holds its objects, all free. *)
Definition slab_create_kmem_cache (k : kernel) : kernel :=
  set_proc_cache PROC_SLOTS k.

(** ** [alloc_pid], [free_pid] *)

(** The statics as the loader zeroes them: [PROC_MAX_NUM / 8] bytes. *)
Definition pid_init : pid_state :=
  PidState (replicate (Z.to_nat (Z.quot PROC_MAX_NUM 8)) 0) 0.

(** The [for] loop of [alloc_pid], [n] iterations left. *)
Fixpoint alloc_pid_loop (n : nat) (st : pid_state) : Z * pid_state :=
  match n with
  | O => (-1, st)
  | S n' =>
      let pid := pid_gen st in
      let gen' := Z.rem (pid_gen st + 1) PROC_MAX_NUM in
      if negb (pid_in_use (pid_map st) pid)
      then (pid, PidState (pid_mark (pid_map st) pid) gen')
      else alloc_pid_loop n' (PidState (pid_map st) gen')
  end.

Definition alloc_pid (st : pid_state) : Z * pid_state :=
  alloc_pid_loop (Z.to_nat PROC_MAX_NUM) st.

Definition free_pid (pid : Z) (st : pid_state) : pid_state :=
  PidState (pid_clear (pid_map st) pid) (pid_gen st).

(** ** [proc_initialize] *)

Definition proc_initialize (k : kernel) : kernel :=
  slab_create_kmem_cache
    (idt_set_entry SYSCALL_INT_NUM KERNEL_CODE_SELECTOR syscall_entry
                   IDT_TYPE_INT DPL_3 k).

(** ** [proc_free] *)

(** The body of the inner loop: one slot of a page table. *)
Definition free_pte (r page_tab : Z) (k : kernel) (pte_ix : Z) : kernel :=
  let '(paddr, m1) := vmm_unmap_page_index page_tab pte_ix (kmem k) in
  if paddr =? 0 then set_kmem m1 k
  else add_mem_pages r (-1) (set_kmem (pmm_free_page_address paddr m1) k).

(** The body of the outer loop: one slot of the directory. *)
Definition free_pde (r page_dir : Z) (k : kernel) (pde : Z) : kernel :=
  let '(page_tab, m1) := vmm_unmap_page_table_index page_dir pde (kmem k) in
  if page_tab =? 0 then set_kmem m1 k
  else
    let k1 := foldl (free_pte r page_tab) (set_kmem m1 k) (seqZ 0 NUM_PTE) in
    add_mem_pages r (-1) (set_kmem (vmm_free_page_table page_tab (kmem k1)) k1).

(** "Free virtual address space" *)
Definition free_vaddr_space (r : Z) (k : kernel) : kernel :=
  if page_dir (get_proc k r) =? 0 then k
  else
    let dir := page_dir (get_proc k r) in
    let k1 := foldl (free_pde r dir) k (seqZ 0 USER_PDES) in
    add_mem_pages r (-1) (set_kmem (vmm_free_vaddr_space dir (kmem k1)) k1).

(** "Release PID" *)
Definition release_pid (r : Z) (k : kernel) : kernel :=
  if pid (get_proc k r) =? -1 then k
  else set_pids (free_pid (pid (get_proc k r)) (pids k)) k.

(** [proc_free] up to the leak check. *)
Definition proc_reclaim (r : Z) (k : kernel) : kernel :=
  release_pid r (free_vaddr_space r k).

Definition proc_free (r : Z) (k : kernel) : outcome unit :=
  let k1 := proc_reclaim r k in
  if mem_pages (get_proc k1 r) =? 0 then Ok tt (slab_free r k1)
  else Panic k1.

(** ** [proc_alloc] *)

Definition proc_alloc (k : kernel) : outcome Z :=
  let '(r, k1) := slab_alloc k in
  if r =? 0 then Ok 0 k1
  else
    let k2 := set_procs (<[r := zero_process]> (procs k1)) k1 in
    let '(p, st) := alloc_pid (pids k2) in
    let k3 := upd_proc r (set_pid p) (set_pids st k2) in
    if pid (get_proc k3 r) =? -1 then
      match proc_free r k3 with
      | Ok _ k4 => Ok 0 k4
      | Panic k4 => Panic k4
      end
    else Ok r k3.

(** ** [alloc_proc_stacks] *)

Definition alloc_proc_stacks (r : Z) (k : kernel) : bool * kernel :=
  let '(stack, m1) := pmm_alloc_page_address (kmem k) in
  if stack =? 0 then (false, set_kmem m1 k)
  else
    let '(extra_pages, m2) :=
      vmm_map (page_dir (get_proc k r)) (wrap32 (PROC_KERNEL_STACK - PAGE_SIZE))
              stack VMM_WRITABLE m1 in
    if extra_pages <? 0
    then (false, set_kmem (pmm_free_page_address stack m2) k)
    else
      let k2 := add_mem_pages r (extra_pages + 1) (set_kmem m2 k) in
      let '(stack', m3) := pmm_alloc_page_address (kmem k2) in
      if stack' =? 0 then (false, set_kmem m3 k2)
      else
        let '(extra_pages', m4) :=
          vmm_map (page_dir (get_proc k2 r)) (wrap32 (PROC_USER_STACK - PAGE_SIZE))
                  stack' (Z.lor VMM_WRITABLE VMM_USER) m3 in
        if extra_pages' <? 0
        then (false, set_kmem (pmm_free_page_address stack' m4) k2)
        else
          let k4 := add_mem_pages r (extra_pages' + 1) (set_kmem m4 k2) in
          (true, upd_proc r (fun p => set_user_stack PROC_USER_STACK
                                        (set_kernel_stack PROC_KERNEL_STACK p)) k4).

(** ** [init_proc_from_elf], [proc_exec] *)

Section Exec.

(** [elf_load_program] of [kernel/elf.c], a collaborator: given the image,
    its size and the process record, it "maps the image's segments into that
    address space" and "reports success/failure and, on success, the entry
    address, which is stored".  It works on the record it is handed and on
    memory; the statics of [process.c] are out of its reach. *)
Variable elf_load_program : list Z -> Z -> process -> mem -> bool * process * mem.

Definition init_proc_from_elf (r : Z) (elf : list Z) (size : Z) (k : kernel)
  : bool * kernel :=
  let '(dir, m1) := vmm_alloc_vaddr_space (kmem k) in
  let k1 := upd_proc r (set_page_dir dir) (set_kmem m1 k) in
  if page_dir (get_proc k1 r) =? 0 then (false, k1)
  else
    let k2 := add_mem_pages r 1 k1 in
    let '(loaded, p', m') := elf_load_program elf size (get_proc k2 r) (kmem k2) in
    let k3 := set_kmem m' (upd_proc r (fun _ => p') k2) in
    if negb loaded then (false, k3)
    else
      let '(stacks, k4) := alloc_proc_stacks r k3 in
      if negb stacks then (false, k4)
      else (true, set_kmem (pg_copy_kernel_space (page_dir (get_proc k4 r)) (kmem k4)) k4).

Definition proc_exec (elf : list Z) (size : Z) (k : kernel) : outcome bool :=
  match proc_alloc k with
  | Panic k1 => Panic k1
  | Ok r k1 =>
      if r =? 0 then Ok false k1
      else
        let '(ok, k2) := init_proc_from_elf r elf size k1 in
        if negb ok then
          match proc_free r k2 with
          | Ok _ k3 => Ok false k3
          | Panic k3 => Panic k3
          end
        else Ok true (sched_add r (upd_proc r (set_state PROC_STATE_RUNNING) k2))
  end.

End Exec.

(** ** [init_proc_from_proc], [proc_clone] *)

(** The inner loop, over the slots [ptes] of one page table. *)
Fixpoint copy_ptes (clone page_tab clone_tab : Z) (ptes : list Z) (k : kernel)
  : bool * kernel :=
  match ptes with
  | [] => (true, k)
  | pte_ix :: rest =>
      let '(page, page_flag) := vmm_get_page_index page_tab pte_ix (kmem k) in
      if page =? 0 then copy_ptes clone page_tab clone_tab rest k
      else
        let '(clone_page, m1) := pmm_alloc_page_address (kmem k) in
        if clone_page =? 0 then (false, set_kmem m1 k)
        else
          let m2 := memcpy_page clone_page page m1 in
          let m3 := vmm_map_page_index clone_tab pte_ix clone_page page_flag m2 in
          copy_ptes clone page_tab clone_tab rest
                    (add_mem_pages clone 1 (set_kmem m3 k))
  end.

(** The outer loop, over the directory slots [pdes]. *)
Fixpoint copy_pdes (clone proc : Z) (pdes : list Z) (k : kernel) : bool * kernel :=
  match pdes with
  | [] => (true, k)
  | pde :: rest =>
      let '(page_tab, tab_flag) :=
        vmm_get_page_table_index (page_dir (get_proc k proc)) pde (kmem k) in
      if page_tab =? 0 then copy_pdes clone proc rest k
      else
        let '(clone_tab, m1) := vmm_alloc_page_table (kmem k) in
        if clone_tab =? 0 then (false, set_kmem m1 k)
        else
          let m2 := vmm_map_page_table_index (page_dir (get_proc k clone)) pde
                                             clone_tab tab_flag m1 in
          let k2 := add_mem_pages clone 1 (set_kmem m2 k) in
          let '(ok, k3) := copy_ptes clone page_tab clone_tab (seqZ 0 NUM_PTE) k2 in
          if negb ok then (false, k3)
          else copy_pdes clone proc rest k3
  end.

Definition init_proc_from_proc (clone proc : Z) (k : kernel) : bool * kernel :=
  let '(dir, m1) := vmm_alloc_vaddr_space (kmem k) in
  let k1 := upd_proc clone (set_page_dir dir) (set_kmem m1 k) in
  if page_dir (get_proc k1 clone) =? 0 then (false, k1)
  else
    let k2 := add_mem_pages clone 1 k1 in
    let '(ok, k3) := copy_pdes clone proc (seqZ 0 USER_PDES) k2 in
    if negb ok then (false, k3)
    else (true, set_kmem (pg_copy_kernel_space (page_dir (get_proc k3 clone)) (kmem k3)) k3).

Definition proc_clone (proc : Z) (k : kernel) : outcome Z :=
  match proc_alloc k with
  | Panic k1 => Panic k1
  | Ok clone k1 =>
      if clone =? 0 then Ok 0 k1
      else
        let '(ok, k2) := init_proc_from_proc clone proc k1 in
        if negb ok then
          match proc_free clone k2 with
          | Ok _ k3 => Ok 0 k3
          | Panic k3 => Panic k3
          end
        else if negb (mem_pages (get_proc k2 clone) =? mem_pages (get_proc k2 proc))
        then Panic k2
        else
          let src := get_proc k2 proc in
          let k3 :=
            upd_proc clone
              (fun c => set_parent proc
                          (set_user_stack (user_stack src)
                             (set_kernel_stack (kernel_stack src)
                                (set_entry (entry src)
                                   (set_context (context src)
                                      (set_state PROC_STATE_RUNNING c)))))) k2 in
          Ok clone (sched_add clone k3)
  end.

(** ** [proc_exit] *)

Section Exit.

(** [sched] of [kernel/scheduler.c], a collaborator: the scheduler
    "performs context switches, chooses what runs after an exit", and
    [proc_exit] "yield[s] to the scheduler (does not return to the caller in
    the normal case -- control transfers away)".  [sched k] is the state the
    scheduler leaves when it has taken the processor over in state [k]. *)
Variable sched : kernel -> kernel.

Definition proc_exit (proc status_code : Z) (k : kernel) : kernel :=
  let k1 := upd_proc proc (set_status status_code) k in
  let k2 := upd_proc proc (set_state PROC_STATE_DEAD) k1 in
  sched k2.

End Exit.

End Kernel.

(** * Part II: the vocabulary of the specification *)

(** ** The PID universe *)

(** The abstract reading of the bitmap: bit [pid % 8] of byte [pid / 8]. *)
Definition pid_bit (m : list Z) (pid : Z) : bool :=
  Z.testbit (pid_byte m pid) (pid mod 8).

(** Removes one occurrence. *)
Fixpoint remove_one (p : Z) (l : list Z) : list Z :=
  match l with
  | [] => []
  | q :: l' => if decide (q = p) then l' else q :: remove_one p l'
  end.

(** A call of the allocator's interface. *)
Inductive pid_call : Type :=
  | AllocPid
  | FreePid (p : Z).

Section PidSpec.

Context {PF : Platform}.

(** The allocator's state as the code keeps it: the cursor is a PID and the
    bitmap has one bit per PID. *)
Definition pid_wf (st : pid_state) : Prop :=
  0 <= pid_gen st < PROC_MAX_NUM /\
  PROC_MAX_NUM = 8 * Z.of_nat (length (pid_map st)).

(** Every PID is taken. *)
Definition pid_full (st : pid_state) : Prop :=
  forallb (pid_in_use (pid_map st)) (seqZ 0 PROC_MAX_NUM) = true.

(** One call, on the allocator and on the list of the PIDs handed out and
    not yet released.  Releasing a PID that is not assigned breaks the
    callers' contract: there is no next state. *)
Definition pid_step (c : pid_call) (s : pid_state * list Z)
  : option (pid_state * list Z) :=
  match c with
  | AllocPid =>
      let '(p, st') := alloc_pid s.1 in
      Some (st', if p =? -1 then s.2 else p :: s.2)
  | FreePid p =>
      if decide (p ∈ s.2) then Some (free_pid p s.1, remove_one p s.2)
      else None
  end.

Fixpoint pid_run (cs : list pid_call) (s : pid_state * list Z)
  : option (pid_state * list Z) :=
  match cs with
  | [] => Some s
  | c :: cs' =>
      match pid_step c s with
      | Some s' => pid_run cs' s'
      | None => None
      end
  end.

(** What the bitmap and the list of assigned PIDs have to do with one
    another. *)
Definition pid_inv (s : pid_state * list Z) : Prop :=
  pid_wf s.1 /\ NoDup s.2 /\
  (forall q, q ∈ s.2 -> 0 <= q < PROC_MAX_NUM) /\
  (forall q, 0 <= q < PROC_MAX_NUM ->
             pid_in_use (pid_map s.1) q = true <-> q ∈ s.2).

End PidSpec.

(** ** A platform to compute on

    The values of an x86 build, with a small PID universe. *)
Definition demo_platform : Platform := {|
  PROC_MAX_NUM := 16;
  KERNEL_BASE := 3221225472;
  PAGE_SIZE := 4096;
  NUM_PTE := 1024;
  VMM_WRITABLE := 2;
  VMM_USER := 4;
  PROC_STATE_RUNNING := 1;
  PROC_STATE_DEAD := 2;
  KERNEL_CODE_SELECTOR := 8;
  IDT_TYPE_INT := 14;
  DPL_3 := 3;
  syscall_entry := 3222274048;
  KERNEL_PAGE_DIR := 1048576;
  PROC_SLOTS := [3225419776; 3225419904; 3225420032]
|}.

(** ** Frames and address spaces *)

(** The addresses stored in the given slots of a directory or table. *)
Definition slot_addrs (tb : gmap Z pte) (slots : list Z) : list Z :=
  omap (fun i => fst <$> tb !! i) slots.

(** The state a call ends in. *)
Definition outcome_state {A : Type} (o : outcome A) : kernel :=
  match o with
  | Ok _ k => k
  | Panic k => k
  end.

(** [k'] differs from [k] at most in physical memory and in the field
    [mem_pages] of the record [r]. *)
Definition only_mem (r : Z) (k k' : kernel) : Prop :=
  pids k' = pids k /\ proc_cache k' = proc_cache k /\
  run_queue k' = run_queue k /\ idt k' = idt k /\ idt_log k' = idt_log k /\
  (forall r', r' <> r -> procs k' !! r' = procs k !! r') /\
  set_mem_pages 0 (get_proc k' r) = set_mem_pages 0 (get_proc k r).

Section FrameSpec.

Context {PF : Platform}.

(** The frames of a page table: the table and the pages mapped in it. *)
Definition table_frames (m : mem) (t : Z) : list Z :=
  t :: slot_addrs (table_of m t) (seqZ 0 NUM_PTE).

Definition tables_frames (m : mem) (ts : list Z) : list Z :=
  ts ≫= table_frames m.

(** The page tables reachable from the user-space slots of a directory. *)
Definition user_tables (m : mem) (d : Z) : list Z :=
  slot_addrs (dir_of m d) (seqZ 0 USER_PDES).

(** The frames of an address space: the directory, the page tables
    reachable from its user-space slots, and the pages mapped in those. *)
Definition space_frames (m : mem) (d : Z) : list Z :=
  d :: tables_frames m (user_tables m d).

(** The frames a process record owns. *)
Definition owned_frames (k : kernel) (r : Z) : list Z :=
  if page_dir (get_proc k r) =? 0 then []
  else space_frames (kmem k) (page_dir (get_proc k r)).

(** The count of a record kept right: [F0] is what the frame allocator had
    to give, the record's frames and the free frames share it out, and
    [mem_pages] is the number of the record's frames. *)
Definition accounted (F0 : list Z) (r : Z) (k : kernel) : Prop :=
  page_dir (get_proc k r) <> 0 /\
  space_frames (kmem k) (page_dir (get_proc k r)) ++ pmm_free (kmem k) ≡ₚ F0 /\
  mem_pages (get_proc k r)
  = wrap32 (Z.of_nat (length (space_frames (kmem k) (page_dir (get_proc k r))))).

(** The layout of an address space the code relies on: pages and tables
    are not empty, a table has at most 1024 slots, [KERNEL_BASE] is the
    start of a directory slot, and both stacks fit below it. *)
Definition layout_ok : Prop :=
  0 < PAGE_SIZE /\ 0 < NUM_PTE <= 1024 /\
  KERNEL_BASE mod (NUM_PTE * PAGE_SIZE) = 0 /\
  1025 * PAGE_SIZE <= KERNEL_BASE < 2 ^ 32.

(** The page at [vaddr] is mapped in the address space of directory [d]. *)
Definition page_mapped (m : mem) (d vaddr : Z) : bool :=
  match dir_of m d !! pde_index vaddr with
  | Some (t, _) =>
      match table_of m t !! pte_index vaddr with
      | Some _ => true
      | None => false
      end
  | None => false
  end.

(** Neither stack page is mapped. *)
Definition stack_pages_free (m : mem) (d : Z) : Prop :=
  page_mapped m d (wrap32 (PROC_KERNEL_STACK - PAGE_SIZE)) = false /\
  page_mapped m d (wrap32 (PROC_USER_STACK - PAGE_SIZE)) = false.

(** What [process.c] expects of [elf_load_program]: it keeps the record's
    directory; whether it succeeds or fails, every frame it took is mapped
    in the user half of that directory and counted in [mem_pages] ("the
    count accurately reflects whatever was allocated so far"); and it leaves
    the two reserved stack pages unmapped. *)
Definition loader_ok
    (loader : list Z -> Z -> process -> mem -> bool * process * mem) : Prop :=
  forall (F0 : list Z) (elf : list Z) (size : Z) (p : process) (m : mem),
    NoDup F0 -> 0 ∉ F0 -> page_dir p <> 0 ->
    space_frames m (page_dir p) ++ pmm_free m ≡ₚ F0 ->
    mem_pages p = wrap32 (Z.of_nat (length (space_frames m (page_dir p)))) ->
    stack_pages_free m (page_dir p) ->
    let r := loader elf size p m in
    page_dir r.1.2 = page_dir p /\
    space_frames r.2 (page_dir p) ++ pmm_free r.2 ≡ₚ F0 /\
    mem_pages r.1.2 = wrap32 (Z.of_nat (length (space_frames r.2 (page_dir p)))) /\
    (r.1.1 = true -> stack_pages_free r.2 (page_dir p)).

End FrameSpec.

(** The frames outside [F] hold in [m'] what they hold in [m]: the same
    directory, the same table, the same bytes. *)
Definition frames_kept (F : list Z) (m m' : mem) : Prop :=
  forall a, a ∉ F ->
    page_dirs m' !! a = page_dirs m !! a /\
    page_tabs m' !! a = page_tabs m !! a /\
    phys m' !! a = phys m !! a.

(** The IDT and the record of the calls of [idt_set_entry]. *)
Definition idt_of (k : kernel) : gmap Z idt_gate * list Z := (idt k, idt_log k).

(** A machine that has not run [proc_initialize] yet: no cache, no gate. *)
Definition demo_boot : kernel := {|
  pids := pid_init (PF := demo_platform);
  proc_cache := [];
  procs := ∅;
  kmem := {|
    pmm_free := [28672; 32768; 36864; 40960; 45056; 49152; 53248; 57344];
    page_dirs := ∅;
    page_tabs := ∅;
    phys := ∅
  |};
  run_queue := [];
  idt := ∅;
  idt_log := []
|}.

(** A loader for the examples: it maps nothing and reports the entry point
    [4198400]; an empty image is rejected. *)
Definition demo_loader (elf : list Z) (size : Z) (p : process) (m : mem)
  : bool * process * mem :=
  if size =? 0 then (false, p, m) else (true, set_entry 4198400 p, m).

(** A store to a data frame. *)
Definition write_page (a : Z) (bytes : list Z) (m : mem) : mem :=
  set_phys (<[a := bytes]> (phys m)) m.

(** [k'] differs from [k] at most in physical memory and in the fields
    [page_dir] and [mem_pages] of the record [r]. *)
Definition only_space (r : Z) (k k' : kernel) : Prop :=
  pids k' = pids k /\ proc_cache k' = proc_cache k /\
  run_queue k' = run_queue k /\ idt k' = idt k /\ idt_log k' = idt_log k /\
  (forall r', r' <> r -> procs k' !! r' = procs k !! r') /\
  set_mem_pages 0 (set_page_dir 0 (get_proc k' r))
  = set_mem_pages 0 (set_page_dir 0 (get_proc k r)).

(** ** A state to compute on

    One living process, record [100], PID 0: a directory at [4096] with two
    page tables at user slots 1 and 767, three pages mapped in them; eight
    free frames; two free records. *)
Definition demo_kernel : kernel := {|
  pids := PidState [1; 0] 1;
  proc_cache := [200; 300];
  procs := {[ 100 := Process 0 1 0 4096 6 4198400 3221159936 3217031168 [7; 7] 0 ]};
  kmem := {|
    pmm_free := [28672; 32768; 36864; 40960; 45056; 49152; 53248; 57344];
    page_dirs := {[ 4096 := {[ 1 := (8192, 7); 767 := (20480, 3) ]} ]};
    page_tabs := {[ 8192 := {[ 0 := (12288, 7); 5 := (16384, 5) ]};
                    20480 := {[ 1007 := (24576, 3) ]} ]};
    phys := {[ 12288 := [1; 2; 3]; 16384 := [4; 5]; 24576 := [6] ]}
  |};
  run_queue := [100];
  idt := {[ 128 := IdtGate 8 3222274048 14 3 ]};
  idt_log := [128]
|}.

(** The same state with four free frames only. *)
Definition demo_kernel_low : kernel :=
  set_kmem (set_pmm_free [28672; 32768; 36864; 40960] (kmem demo_kernel)) demo_kernel.

(** Closes a decidable goal about a concrete state by evaluation. *)
Ltac by_compute := apply (bool_decide_unpack _); vm_compute; exact I.

(** ** Translation and frames of records *)

Section TranslateSpec.

Context {PF : Platform}.

(** The entry a virtual address resolves to in the address space of
    directory [d]: its frame and its flags. *)
Definition translate (m : mem) (d vaddr : Z) : option (Z * Z) :=
  match dir_of m d !! pde_index vaddr with
  | Some (t, _) => table_of m t !! pte_index vaddr
  | None => None
  end.

End TranslateSpec.

(** [k'] differs from [k] at most in physical memory and in the record
    [r]. *)
Definition only_record (r : Z) (k k' : kernel) : Prop :=
  pids k' = pids k /\ proc_cache k' = proc_cache k /\
  run_queue k' = run_queue k /\
  (forall r', r' <> r -> procs k' !! r' = procs k !! r').

(** [demo_kernel] after [proc_alloc] and [vmm_alloc_vaddr_space]: record
    [200], PID 1, holds the empty directory at [28672]. *)
Definition demo_kernel_dir : kernel := {|
  pids := PidState [3; 0] 2;
  proc_cache := [300];
  procs := <[ 200 := set_mem_pages 1 (set_page_dir 28672 (set_pid 1 zero_process)) ]>
             (procs demo_kernel);
  kmem := {|
    pmm_free := [32768; 36864; 40960; 45056; 49152; 53248; 57344];
    page_dirs := <[ 28672 := ∅ ]> (page_dirs (kmem demo_kernel));
    page_tabs := page_tabs (kmem demo_kernel);
    phys := phys (kmem demo_kernel)
  |};
  run_queue := [100];
  idt := idt demo_kernel;
  idt_log := idt_log demo_kernel
|}.

(** [demo_kernel] with the kernel's directory, which maps one table in the
    first slot of the kernel half. *)
Definition demo_kernel_kdir : kernel :=
  set_kmem (set_page_dirs (<[ 1048576 := {[ 768 := (2097152, 3) ]} ]>
                             (page_dirs (kmem demo_kernel)))
                          (kmem demo_kernel))
           demo_kernel.

(** What [process.c] expects of [sched].  The scheduler owns the run queue
    and the saved contexts ("owned and mutated only by the
    scheduler/context-switch path") and may move a record between states
    ("extendable to READY/BLOCKED by the external scheduler").  The PIDs
    ("mutated only inside the allocator's two operations"), the pool, the
    frames and the other fields of a record are not its to change: a dead
    process is destroyed in "a separate step performed once the scheduler
    has fully retired it". *)
Definition sched_ok (sched : kernel -> kernel) : Prop :=
  forall k,
    pids (sched k) = pids k /\ proc_cache (sched k) = proc_cache k /\
    kmem (sched k) = kmem k /\
    forall r, set_context [] (set_state 0 (get_proc (sched k) r))
              = set_context [] (set_state 0 (get_proc k r)).

(** A scheduler that takes the dead processes off the run queue. *)
Definition demo_sched (k : kernel) : kernel :=
  set_run_queue
    (List.filter (fun r => negb (state (get_proc k r)
                                 =? PROC_STATE_DEAD (Platform := demo_platform)))
                 (run_queue k)) k.

(** * Part III: lemmas and theorems *)

(** ** Bit-level facts about the bitmap *)

Lemma land_pow2_testbit b k :
  0 <= k -> (Z.land b (Z.shiftl 1 k) =? 0) = negb (Z.testbit b k).
Proof.
  intros Hk. rewrite Z.shiftl_1_l.
  destruct (Z.testbit b k) eqn:Hb; simpl.
  - apply Z.eqb_neq. intros H0.
    assert (Hk' : Z.testbit (Z.land b (2 ^ k)) k = true).
    { rewrite Z.land_spec, Hb, Z.pow2_bits_true; auto. }
    rewrite H0, Z.bits_0 in Hk'. discriminate.
  - apply Z.eqb_eq. apply Z.bits_inj'. intros n Hn.
    rewrite Z.land_spec, Z.bits_0, Z.pow2_bits_eqb by lia.
    destruct (Z.eqb_spec k n); subst; rewrite ?Hb; auto using andb_false_r.
Qed.

Lemma pid_in_use_bit m pid : 0 <= pid -> pid_in_use m pid = pid_bit m pid.
Proof.
  intros Hp. unfold pid_in_use, pid_bit, pid_mask.
  rewrite Z.rem_mod_nonneg by lia.
  rewrite land_pow2_testbit by (apply Z.mod_pos_bound; lia).
  apply negb_involutive.
Qed.

Lemma to_char_testbit x k : 0 <= k < 8 -> Z.testbit (to_char x) k = Z.testbit x k.
Proof.
  intros Hk. unfold to_char. change 255 with (Z.ones 8).
  rewrite Z.land_spec, Z.ones_spec_low by lia. apply andb_true_r.
Qed.

Lemma pid_slot_div pid : 0 <= pid -> pid_slot pid = Z.to_nat (pid / 8).
Proof. intros. unfold pid_slot. now rewrite Z.quot_div_nonneg by lia. Qed.

Lemma pid_slot_lt (m : list Z) pid :
  0 <= pid < 8 * Z.of_nat (length m) -> (pid_slot pid < length m)%nat.
Proof.
  intros H. rewrite pid_slot_div by lia.
  assert (pid / 8 < Z.of_nat (length m)) by (apply Z.div_lt_upper_bound; lia).
  assert (0 <= pid / 8) by (apply Z.div_pos; lia). lia.
Qed.

Lemma pid_slot_mod_inj p q :
  0 <= p -> 0 <= q -> pid_slot p = pid_slot q -> p mod 8 = q mod 8 -> p = q.
Proof.
  intros Hp Hq Hs Hm. rewrite !pid_slot_div in Hs by lia.
  assert (0 <= p / 8) by (apply Z.div_pos; lia).
  assert (0 <= q / 8) by (apply Z.div_pos; lia).
  rewrite (Z.div_mod p 8), (Z.div_mod q 8) by lia. lia.
Qed.

Lemma pid_mark_length m pid : length (pid_mark m pid) = length m.
Proof. apply length_insert. Qed.

Lemma pid_clear_length m pid : length (pid_clear m pid) = length m.
Proof. apply length_insert. Qed.

Lemma pid_bit_mark m p q :
  0 <= p < 8 * Z.of_nat (length m) -> 0 <= q ->
  pid_bit (pid_mark m p) q = if decide (q = p) then true else pid_bit m q.
Proof.
  intros Hp Hq. pose proof (pid_slot_lt m p Hp) as Hlt.
  unfold pid_bit, pid_byte at 1, pid_mark.
  destruct (decide (pid_slot p = pid_slot q)) as [Hs|Hs].
  - rewrite <- Hs, list_lookup_insert_eq by done. simpl.
    assert (Hq8 : 0 <= q mod 8 < 8) by (apply Z.mod_pos_bound; lia).
    rewrite to_char_testbit, Z.lor_spec by done.
    unfold pid_mask. rewrite Z.rem_mod_nonneg, Z.shiftl_1_l by lia.
    assert (Hp8 : 0 <= p mod 8 < 8) by (apply Z.mod_pos_bound; lia).
    rewrite Z.pow2_bits_eqb by lia.
    case_decide as Hd.
    + subst q. rewrite Z.eqb_refl. apply orb_true_r.
    + destruct (Z.eqb_spec (p mod 8) (q mod 8)) as [He|He].
      * exfalso. apply Hd. symmetry. apply pid_slot_mod_inj; auto; lia.
      * rewrite orb_false_r. unfold pid_byte. now rewrite Hs.
  - rewrite list_lookup_insert_ne by done.
    case_decide; [congruence | reflexivity].
Qed.

Lemma pid_bit_clear m p q :
  0 <= p < 8 * Z.of_nat (length m) -> 0 <= q ->
  pid_bit (pid_clear m p) q = if decide (q = p) then false else pid_bit m q.
Proof.
  intros Hp Hq. pose proof (pid_slot_lt m p Hp) as Hlt.
  unfold pid_bit, pid_byte at 1, pid_clear.
  destruct (decide (pid_slot p = pid_slot q)) as [Hs|Hs].
  - rewrite <- Hs, list_lookup_insert_eq by done. simpl.
    assert (Hq8 : 0 <= q mod 8 < 8) by (apply Z.mod_pos_bound; lia).
    rewrite to_char_testbit, Z.land_spec, Z.lnot_spec by lia.
    unfold pid_mask. rewrite Z.rem_mod_nonneg, Z.shiftl_1_l by lia.
    assert (Hp8 : 0 <= p mod 8 < 8) by (apply Z.mod_pos_bound; lia).
    rewrite Z.pow2_bits_eqb by lia.
    case_decide as Hd.
    + subst q. rewrite Z.eqb_refl. apply andb_false_r.
    + destruct (Z.eqb_spec (p mod 8) (q mod 8)) as [He|He].
      * exfalso. apply Hd. symmetry. apply pid_slot_mod_inj; auto; lia.
      * simpl. rewrite andb_true_r. unfold pid_byte. now rewrite Hs.
  - rewrite list_lookup_insert_ne by done.
    case_decide; [congruence | reflexivity].
Qed.

(** ** The allocator *)

Section PidLemmas.

Context {PF : Platform}.

Lemma pid_full_spec st :
  pid_full st <->
  forall q, 0 <= q < PROC_MAX_NUM -> pid_in_use (pid_map st) q = true.
Proof.
  unfold pid_full. rewrite forallb_forall. split.
  - intros H q Hq. apply H, list_elem_of_In, elem_of_seqZ. lia.
  - intros H q Hq. apply list_elem_of_In, elem_of_seqZ in Hq. apply H. lia.
Qed.

(** The cursor after [n] probes that all found their PID taken. *)
Lemma alloc_pid_loop_spec n st :
  pid_wf st ->
  let g := pid_gen st in
  let r := alloc_pid_loop n st in
  (r.1 = -1 /\ pid_map r.2 = pid_map st /\
   pid_gen r.2 = (g + Z.of_nat n) mod PROC_MAX_NUM /\
   forall j, 0 <= j < Z.of_nat n ->
             pid_in_use (pid_map st) ((g + j) mod PROC_MAX_NUM) = true)
  \/
  (exists i, 0 <= i < Z.of_nat n /\ r.1 = (g + i) mod PROC_MAX_NUM /\
     (forall j, 0 <= j < i ->
                pid_in_use (pid_map st) ((g + j) mod PROC_MAX_NUM) = true) /\
     pid_in_use (pid_map st) r.1 = false /\
     pid_map r.2 = pid_mark (pid_map st) r.1 /\
     pid_gen r.2 = (r.1 + 1) mod PROC_MAX_NUM).
Proof.
  revert st. induction n as [|n IH]; intros st [Hg Hlen]; cbn zeta.
  - left. simpl. repeat split; auto.
    + rewrite Z.add_0_r, Z.mod_small; lia.
    + intros; lia.
  - cbn [alloc_pid_loop].
    destruct (pid_in_use (pid_map st) (pid_gen st)) eqn:Huse; cbn [negb].
    + set (st1 := PidState (pid_map st) (Z.rem (pid_gen st + 1) PROC_MAX_NUM)).
      assert (Hrem : Z.rem (pid_gen st + 1) PROC_MAX_NUM
                     = (pid_gen st + 1) mod PROC_MAX_NUM)
        by (apply Z.rem_mod_nonneg; lia).
      assert (Hwf1 : pid_wf st1).
      { split; simpl; auto. rewrite Hrem. apply Z.mod_pos_bound. lia. }
      assert (Hshift : forall j, (pid_gen st1 + j) mod PROC_MAX_NUM
                                 = (pid_gen st + (j + 1)) mod PROC_MAX_NUM).
      { intros j. simpl. rewrite Hrem, Zplus_mod_idemp_l. f_equal. lia. }
      destruct (IH st1 Hwf1) as [(H1 & H2 & H3 & H4)|(i & Hi & H1 & H2 & H3 & H4 & H5)].
      * left. repeat split; auto.
        -- rewrite H3, Hshift. f_equal. lia.
        -- intros j Hj. destruct (decide (j = 0)) as [->|Hj0].
           ++ rewrite Z.add_0_r, Z.mod_small by lia. exact Huse.
           ++ replace j with ((j - 1) + 1) by lia. rewrite <- Hshift.
              apply H4. lia.
      * right. exists (i + 1). rewrite <- Hshift. repeat split; auto; try lia.
        intros j Hj. destruct (decide (j = 0)) as [->|Hj0].
        -- rewrite Z.add_0_r, Z.mod_small by lia. exact Huse.
        -- replace j with ((j - 1) + 1) by lia. rewrite <- Hshift.
           apply H2. lia.
    + right. exists 0. simpl. rewrite Z.add_0_r, Z.mod_small by lia.
      repeat split; auto; try lia.
      apply Z.rem_mod_nonneg; lia.
Qed.

Lemma pid_in_use_mark m p q :
  0 <= p < 8 * Z.of_nat (length m) -> 0 <= q ->
  pid_in_use (pid_mark m p) q = if decide (q = p) then true else pid_in_use m q.
Proof. intros. rewrite !pid_in_use_bit by lia. now apply pid_bit_mark. Qed.

Lemma pid_in_use_clear m p q :
  0 <= p < 8 * Z.of_nat (length m) -> 0 <= q ->
  pid_in_use (pid_clear m p) q = if decide (q = p) then false else pid_in_use m q.
Proof. intros. rewrite !pid_in_use_bit by lia. now apply pid_bit_clear. Qed.

(** Every PID is some offset from the cursor. *)
Lemma pid_offset g q :
  0 <= g < PROC_MAX_NUM -> 0 <= q < PROC_MAX_NUM ->
  exists j, 0 <= j < PROC_MAX_NUM /\ q = (g + j) mod PROC_MAX_NUM.
Proof.
  intros Hg Hq. exists ((q - g) mod PROC_MAX_NUM). split.
  - apply Z.mod_pos_bound. lia.
  - rewrite Zplus_mod_idemp_r. replace (g + (q - g)) with q by lia.
    symmetry. apply Z.mod_small. lia.
Qed.

Lemma alloc_pid_wf st : pid_wf st -> pid_wf (alloc_pid st).2.
Proof.
  intros Hwf. pose proof Hwf as [Hg Hlen].
  destruct (alloc_pid_loop_spec (Z.to_nat PROC_MAX_NUM) st Hwf)
    as [(H1 & H2 & H3 & H4)|(i & Hi & H1 & H2 & H3 & H4 & H5)];
    unfold alloc_pid; split.
  - rewrite H3. apply Z.mod_pos_bound. lia.
  - now rewrite H2.
  - rewrite H5. apply Z.mod_pos_bound. lia.
  - now rewrite H4, pid_mark_length.
Qed.

Lemma free_pid_wf p st : pid_wf st -> pid_wf (free_pid p st).
Proof. intros [Hg Hlen]. split; simpl; auto. now rewrite pid_clear_length. Qed.

(** A scan that finds every PID taken leaves the allocator as it was. *)
Lemma alloc_pid_full st : pid_wf st -> pid_full st -> alloc_pid st = (-1, st).
Proof.
  intros Hwf Hfull. pose proof Hwf as [Hg Hlen].
  rewrite pid_full_spec in Hfull.
  destruct (alloc_pid_loop_spec (Z.to_nat PROC_MAX_NUM) st Hwf)
    as [(H1 & H2 & H3 & H4)|(i & Hi & H1 & H2 & H3 & H4 & H5)];
    fold (alloc_pid st) in *.
  - destruct (alloc_pid st) as [p [m' g']]. simpl in *. subst p m'.
    rewrite Z2Nat.id in H3 by lia.
    rewrite <- Zplus_mod_idemp_r, Z.mod_same, Z.add_0_r, Z.mod_small in H3 by lia.
    subst g'. now destruct st.
  - rewrite Hfull in H3; [discriminate|].
    rewrite H1. apply Z.mod_pos_bound. lia.
Qed.

(** A scan that fails found every PID taken. *)
Lemma alloc_pid_fail_full st : pid_wf st -> (alloc_pid st).1 = -1 -> pid_full st.
Proof.
  intros Hwf Hfail. pose proof Hwf as [Hg Hlen].
  apply pid_full_spec. intros q Hq.
  destruct (alloc_pid_loop_spec (Z.to_nat PROC_MAX_NUM) st Hwf)
    as [(H1 & H2 & H3 & H4)|(i & Hi & H1 & H2 & H3 & H4 & H5)];
    fold (alloc_pid st) in *.
  - destruct (pid_offset (pid_gen st) q Hg Hq) as (j & Hj & ->).
    apply H4. lia.
  - assert (0 <= (alloc_pid st).1) by (rewrite H1; apply Z.mod_pos_bound; lia).
    lia.
Qed.

End PidLemmas.
(** ** The claims about the allocator *)

(** C7: [alloc_pid] probes at most [PROC_MAX_NUM] candidates, starting at
    the cursor [pid_gen].  It returns the first candidate whose bit is
    unset, after setting that bit (and no other) and leaving the cursor one
    past the returned PID, modulo [PROC_MAX_NUM]; it returns [-1] when all
    candidates are taken.  In particular a free PID at the cursor is the one
    returned, whatever lower PIDs are free: reuse is round-robin. *)
Theorem alloc_pid_scans_from_cursor `{PF : Platform} (st : pid_state) :
  pid_wf st ->
  let g := pid_gen st in
  let r := alloc_pid st in
  ((exists i, 0 <= i < PROC_MAX_NUM /\ r.1 = (g + i) mod PROC_MAX_NUM /\
      (forall j, 0 <= j < i ->
                 pid_in_use (pid_map st) ((g + j) mod PROC_MAX_NUM) = true) /\
      pid_in_use (pid_map st) r.1 = false /\
      pid_map r.2 = pid_mark (pid_map st) r.1 /\
      (forall q, 0 <= q < PROC_MAX_NUM ->
                 pid_in_use (pid_map r.2) q
                 = if decide (q = r.1) then true else pid_in_use (pid_map st) q) /\
      pid_gen r.2 = (r.1 + 1) mod PROC_MAX_NUM)
   \/
   (r.1 = -1 /\
    forall j, 0 <= j < PROC_MAX_NUM ->
              pid_in_use (pid_map st) ((g + j) mod PROC_MAX_NUM) = true))
  /\ (pid_in_use (pid_map st) g = false -> r.1 = g).
Proof.
  intros Hwf g r. pose proof Hwf as [Hg Hlen].
  destruct (alloc_pid_loop_spec (Z.to_nat PROC_MAX_NUM) st Hwf)
    as [(H1 & H2 & H3 & H4)|(i & Hi & H1 & H2 & H3 & H4 & H5)];
    fold (alloc_pid st) in *; fold r in H1, H2, H3, H4; fold g in H1, H3, H4.
  - split.
    + right. split; auto. intros j Hj. apply H4. lia.
    + intros Hfree. specialize (H4 0 ltac:(lia)).
      rewrite Z.add_0_r, Z.mod_small in H4 by lia. congruence.
  - fold r in H5. fold g in H2.
    assert (Hr : 0 <= r.1 < PROC_MAX_NUM)
      by (rewrite H1; apply Z.mod_pos_bound; lia).
    split.
    + left. exists i. repeat split; auto; try lia.
      intros q Hq. rewrite H4. apply pid_in_use_mark; lia.
    + intros Hfree. destruct (decide (i = 0)) as [->|Hi0].
      * rewrite H1, Z.add_0_r. apply Z.mod_small. lia.
      * specialize (H2 0 ltac:(lia)).
        rewrite Z.add_0_r, Z.mod_small in H2 by lia. congruence.
Qed.

(** PIDs 0 and 1 are free, 2 to 4 are taken, the cursor is at 3: the scan
    passes 3 and 4 and returns 5, not the lowest free PID 0. *)
Lemma alloc_pid_scans_from_cursor_witness :
  let st := PidState [28; 0] 3 in
  pid_wf (PF := demo_platform) st /\
  (alloc_pid (PF := demo_platform) st).1 = 5 /\
  (pid_in_use (pid_map st) 3 = false -> (alloc_pid (PF := demo_platform) st).1 = 3).
Proof.
  intros st.
  assert (Hwf : pid_wf (PF := demo_platform) st) by (split; simpl; lia).
  split; [exact Hwf|]. split; [reflexivity|].
  exact (proj2 (alloc_pid_scans_from_cursor (PF := demo_platform) st Hwf)).
Defined.

(** C10: when every bit of the bitmap is set, [alloc_pid] returns [-1] and
    leaves the allocator as it found it: no probe writes the bitmap, and
    after [n] probes the cursor is [n] steps further modulo [PROC_MAX_NUM],
    so that [PROC_MAX_NUM] probes bring it back to its value on entry. *)
Theorem alloc_pid_failure_keeps_state `{PF : Platform} (st : pid_state) :
  pid_wf st -> pid_full st ->
  alloc_pid st = (-1, st) /\
  forall n, alloc_pid_loop n st
            = (-1, PidState (pid_map st)
                            ((pid_gen st + Z.of_nat n) mod PROC_MAX_NUM)).
Proof.
  intros Hwf Hfull. split; [now apply alloc_pid_full|].
  intros n. pose proof Hwf as [Hg Hlen].
  destruct (alloc_pid_loop_spec n st Hwf)
    as [(H1 & H2 & H3 & _)|(i & Hi & H1 & _ & H3 & _)].
  - destruct (alloc_pid_loop n st) as [p [m' g']]. simpl in *. congruence.
  - apply pid_full_spec with (q := (alloc_pid_loop n st).1) in Hfull.
    + congruence.
    + rewrite H1. apply Z.mod_pos_bound. lia.
Qed.

Lemma alloc_pid_failure_keeps_state_witness :
  let st := PidState [255; 255] 11 in
  pid_wf (PF := demo_platform) st /\ pid_full (PF := demo_platform) st /\
  alloc_pid (PF := demo_platform) st = (-1, st).
Proof.
  intros st.
  assert (Hwf : pid_wf (PF := demo_platform) st) by (split; simpl; lia).
  assert (Hfull : pid_full (PF := demo_platform) st) by reflexivity.
  split; [exact Hwf|]. split; [exact Hfull|].
  exact (proj1 (alloc_pid_failure_keeps_state (PF := demo_platform) st Hwf Hfull)).
Defined.
(** ** Sequences of calls *)

Lemma elem_of_remove_one p q (l : list Z) :
  NoDup l -> q ∈ remove_one p l <-> q ∈ l /\ q <> p.
Proof.
  induction 1 as [|x l Hx Hnd IH]; simpl.
  - split; [inversion 1 | intros [H _]; inversion H].
  - case_decide as Hd.
    + subst x. rewrite elem_of_cons. split.
      * intros Hq. split; [now right | intros ->; contradiction].
      * intros [[?|?] ?]; [contradiction | assumption].
    + rewrite !elem_of_cons, IH. split.
      * intros [->|[? ?]]; split; auto.
      * intros [[->|?] ?]; auto.
Qed.

Lemma NoDup_remove_one p (l : list Z) : NoDup l -> NoDup (remove_one p l).
Proof.
  induction 1 as [|x l Hx Hnd IH]; simpl; [constructor|].
  case_decide; [assumption|]. constructor; [|assumption].
  rewrite elem_of_remove_one by assumption. tauto.
Qed.

Section PidRuns.

Context {PF : Platform}.

Lemma pid_init_inv :
  0 < PROC_MAX_NUM -> PROC_MAX_NUM mod 8 = 0 -> pid_inv (pid_init, []).
Proof.
  intros Hpos H8. unfold pid_inv, pid_wf; simpl.
  assert (Hq : 0 <= PROC_MAX_NUM / 8) by (apply Z.div_pos; lia).
  split; [split; [lia|]|split; [constructor|split]].
  - rewrite length_replicate, Z.quot_div_nonneg, Z2Nat.id by lia.
    pose proof (Z.div_mod PROC_MAX_NUM 8). lia.
  - intros q Hq'. inversion Hq'.
  - intros q Hq'. split; [|inversion 1].
    unfold pid_in_use, pid_byte. intros Habs. exfalso.
    destruct (replicate _ 0 !! pid_slot q) as [b|] eqn:Hb; simpl in Habs.
    + apply lookup_replicate in Hb as [-> _]. discriminate.
    + discriminate.
Qed.

Lemma pid_step_inv c s s' : pid_inv s -> pid_step c s = Some s' -> pid_inv s'.
Proof.
  destruct s as [st live]. intros (Hwf & Hnd & Hrange & Hbits) Hstep.
  simpl in *. pose proof Hwf as [Hg Hlen].
  destruct c as [|p]; simpl in Hstep.
  - pose proof (alloc_pid_wf st Hwf) as Hwf'.
    destruct (alloc_pid_loop_spec (Z.to_nat PROC_MAX_NUM) st Hwf)
      as [(H1 & H2 & H3 & H4)|(i & Hi & H1 & H2 & H3 & H4 & H5)];
      fold (alloc_pid st) in *;
      destruct (alloc_pid st) as [p st1]; simpl in *; inversion Hstep; subst s'.
    + subst p. simpl. unfold pid_inv; simpl. rewrite H2. auto.
    + assert (Hp : 0 <= p < PROC_MAX_NUM)
        by (rewrite H1; apply Z.mod_pos_bound; lia).
      destruct (Z.eqb_spec p (-1)); [lia|].
      unfold pid_inv; simpl. split; [assumption|].
      assert (Hfresh : p ∉ live).
      { intros Hin. apply Hbits in Hin; [congruence | assumption]. }
      split; [constructor; assumption|]. split.
      * intros q [->|Hq]%elem_of_cons; auto.
      * intros q Hq. rewrite H4, pid_in_use_mark, elem_of_cons by lia.
        case_decide; [tauto|]. rewrite Hbits by assumption. tauto.
  - case_decide as Hin; [|discriminate]. inversion Hstep; subst s'.
    pose proof (Hrange p Hin) as Hp.
    unfold pid_inv; simpl. split; [now apply free_pid_wf|].
    split; [now apply NoDup_remove_one|]. split.
    + intros q Hq. apply elem_of_remove_one in Hq as [Hq _]; auto.
    + intros q Hq. rewrite pid_in_use_clear, elem_of_remove_one by (auto; lia).
      case_decide; [split; [discriminate | tauto]|].
      rewrite Hbits by assumption. tauto.
Qed.

Lemma pid_run_inv cs s s' : pid_inv s -> pid_run cs s = Some s' -> pid_inv s'.
Proof.
  revert s. induction cs as [|c cs IH]; intros s Hinv Hrun; simpl in Hrun.
  - now inversion Hrun; subst.
  - destruct (pid_step c s) as [s1|] eqn:Hstep; [|discriminate].
    eapply IH; [|exact Hrun]. eapply pid_step_inv; eauto.
Qed.

(** With every PID taken, the PIDs assigned are all of them. *)
Lemma pid_inv_full_length s :
  pid_inv s -> pid_full s.1 -> Z.of_nat (length s.2) = PROC_MAX_NUM.
Proof.
  intros (Hwf & Hnd & Hrange & Hbits) Hfull. pose proof Hwf as [Hg Hlen].
  rewrite pid_full_spec in Hfull.
  assert (Hperm : s.2 ≡ₚ seqZ 0 PROC_MAX_NUM).
  { apply NoDup_Permutation; [assumption | apply NoDup_seqZ|].
    intros q. rewrite elem_of_seqZ. split.
    - intros Hq. apply Hrange in Hq. lia.
    - intros Hq. apply Hbits; [lia|]. apply Hfull. lia. }
  rewrite Hperm, length_seqZ. lia.
Qed.

End PidRuns.

(** C4: after any sequence of [alloc_pid] and [free_pid] calls from the
    initial state, [free_pid] being called on assigned PIDs only, the PIDs
    assigned at that moment are pairwise different, and [alloc_pid] returns
    [-1] only if exactly [PROC_MAX_NUM] PIDs are assigned. *)
Theorem pid_unique_until_exhausted `{PF : Platform}
    (cs : list pid_call) (st : pid_state) (live : list Z) :
  0 < PROC_MAX_NUM -> PROC_MAX_NUM mod 8 = 0 ->
  pid_run cs (pid_init, []) = Some (st, live) ->
  NoDup live /\
  ((alloc_pid st).1 = -1 -> Z.of_nat (length live) = PROC_MAX_NUM).
Proof.
  intros Hpos H8 Hrun.
  pose proof (pid_run_inv cs _ _ (pid_init_inv Hpos H8) Hrun) as Hinv.
  split; [apply Hinv|].
  intros Hfail. apply (pid_inv_full_length (st, live) Hinv).
  apply alloc_pid_fail_full; [apply Hinv | exact Hfail].
Qed.

(** Three allocations, a release, and an allocation again: PID 1 is reused
    only after the cursor has gone round. *)
Lemma pid_unique_until_exhausted_witness :
  let cs := [AllocPid; AllocPid; AllocPid; FreePid 1; AllocPid] in
  exists st,
    pid_run (PF := demo_platform) cs (pid_init (PF := demo_platform), [])
    = Some (st, [3; 2; 0]) /\
    NoDup [3; 2; 0] /\
    ((alloc_pid (PF := demo_platform) st).1 = -1 ->
     Z.of_nat (length [3; 2; 0]) = PROC_MAX_NUM (Platform := demo_platform)).
Proof.
  intros cs. eexists. split; [reflexivity|].
  apply (pid_unique_until_exhausted (PF := demo_platform) cs);
    [reflexivity | reflexivity | reflexivity].
Defined.
(** ** Records, counters and slots *)

Lemma wrap32_add_l x y : wrap32 (wrap32 x + y) = wrap32 (x + y).
Proof. unfold wrap32. apply Zplus_mod_idemp_l. Qed.

Lemma wrap32_small x : 0 <= x < 2 ^ 32 -> wrap32 x = x.
Proof. apply Z.mod_small. Qed.

Lemma wrap32_range x : 0 <= wrap32 x < 2 ^ 32.
Proof. apply Z.mod_pos_bound. lia. Qed.

Lemma wrap32_idemp x : wrap32 (wrap32 x) = wrap32 x.
Proof. apply wrap32_small, wrap32_range. Qed.

Lemma wrap32_eq_add x y n :
  wrap32 x = wrap32 y -> wrap32 (x + n) = wrap32 (y + n).
Proof. intros H. rewrite <- (wrap32_add_l x), <- (wrap32_add_l y). now rewrite H. Qed.

Lemma wrap32_eq_sub x y n :
  wrap32 x = wrap32 y -> wrap32 (x - n) = wrap32 (y - n).
Proof. intros H. unfold Z.sub. now apply wrap32_eq_add. Qed.

Lemma get_proc_upd r f k : get_proc (upd_proc r f k) r = f (get_proc k r).
Proof. unfold get_proc, upd_proc. simpl. now rewrite lookup_insert_eq. Qed.

Lemma get_proc_upd_ne r r' f k : r' <> r -> get_proc (upd_proc r f k) r' = get_proc k r'.
Proof. intros. unfold get_proc, upd_proc. simpl. now rewrite lookup_insert_ne. Qed.

Lemma get_proc_set_kmem m k r : get_proc (set_kmem m k) r = get_proc k r.
Proof. reflexivity. Qed.

Lemma mem_pages_add r n k :
  mem_pages (get_proc (add_mem_pages r n k) r) = wrap32 (mem_pages (get_proc k r) + n).
Proof. unfold add_mem_pages. now rewrite get_proc_upd. Qed.

Lemma page_dir_add r r' n k :
  page_dir (get_proc (add_mem_pages r n k) r') = page_dir (get_proc k r').
Proof.
  unfold add_mem_pages. destruct (decide (r' = r)) as [->|Hne].
  - now rewrite get_proc_upd.
  - now rewrite get_proc_upd_ne.
Qed.

Lemma only_mem_refl r k : only_mem r k k.
Proof. unfold only_mem. tauto. Qed.

Lemma only_mem_trans r k1 k2 k3 :
  only_mem r k1 k2 -> only_mem r k2 k3 -> only_mem r k1 k3.
Proof.
  unfold only_mem. intros (A1 & A2 & A3 & A4 & A5 & A6 & A7) (B1 & B2 & B3 & B4 & B5 & B6 & B7).
  repeat split; try congruence.
  intros r' Hr. rewrite B6, A6; auto.
Qed.

Lemma only_mem_set_kmem r m k : only_mem r k (set_kmem m k).
Proof. unfold only_mem. simpl. tauto. Qed.

Lemma only_mem_add r n k : only_mem r k (add_mem_pages r n k).
Proof.
  unfold only_mem. repeat split; try reflexivity.
  - intros r' Hr. unfold add_mem_pages, upd_proc. simpl. now rewrite lookup_insert_ne.
  - unfold add_mem_pages. rewrite get_proc_upd. reflexivity.
Qed.

Lemma only_mem_get_ne r r' k k' : only_mem r k k' -> r' <> r -> get_proc k' r' = get_proc k r'.
Proof. intros (_ & _ & _ & _ & _ & H & _) Hne. unfold get_proc. now rewrite H. Qed.

Lemma only_mem_page_dir r r' k k' :
  only_mem r k k' -> page_dir (get_proc k' r') = page_dir (get_proc k r').
Proof.
  intros H. destruct (decide (r' = r)) as [->|Hne].
  - destruct H as (_ & _ & _ & _ & _ & _ & H).
    apply (f_equal page_dir) in H. exact H.
  - now rewrite (only_mem_get_ne r r' k k').
Qed.

Lemma only_mem_pid r r' k k' :
  only_mem r k k' -> pid (get_proc k' r') = pid (get_proc k r').
Proof.
  intros H. destruct (decide (r' = r)) as [->|Hne].
  - destruct H as (_ & _ & _ & _ & _ & _ & H).
    apply (f_equal pid) in H. exact H.
  - now rewrite (only_mem_get_ne r r' k k').
Qed.

Lemma slot_addrs_cons (tb : gmap Z pte) i slots :
  slot_addrs tb (i :: slots)
  = match tb !! i with
    | Some e => e.1 :: slot_addrs tb slots
    | None => slot_addrs tb slots
    end.
Proof. unfold slot_addrs. simpl. now destruct (tb !! i). Qed.

Lemma slot_addrs_ext (tb tb' : gmap Z pte) slots :
  (forall i, i ∈ slots -> tb !! i = tb' !! i) ->
  slot_addrs tb slots = slot_addrs tb' slots.
Proof.
  induction slots as [|i slots IH]; intros H; [reflexivity|].
  rewrite !slot_addrs_cons, (H i) by (left; reflexivity).
  rewrite IH; [reflexivity|]. intros j Hj. apply H. now right.
Qed.

Lemma slot_addrs_delete (tb : gmap Z pte) i slots :
  i ∉ slots -> slot_addrs (delete i tb) slots = slot_addrs tb slots.
Proof.
  intros Hi. apply slot_addrs_ext. intros j Hj.
  apply lookup_delete_ne. intros ->. contradiction.
Qed.

Lemma slot_addrs_insert (tb : gmap Z pte) i e slots :
  i ∉ slots -> slot_addrs (<[i := e]> tb) slots = slot_addrs tb slots.
Proof.
  intros Hi. apply slot_addrs_ext. intros j Hj.
  apply lookup_insert_ne. intros ->. contradiction.
Qed.

Lemma slot_addrs_insert_fresh (tb : gmap Z pte) i e slots :
  NoDup slots -> i ∈ slots -> tb !! i = None ->
  slot_addrs (<[i := e]> tb) slots ≡ₚ e.1 :: slot_addrs tb slots.
Proof.
  intros Hnd Hi Hnone. induction Hnd as [|j slots Hj Hnd IH].
  - inversion Hi.
  - rewrite !slot_addrs_cons. destruct (decide (j = i)) as [->|Hne].
    + rewrite lookup_insert_eq, Hnone, slot_addrs_insert by assumption. reflexivity.
    + rewrite lookup_insert_ne by congruence.
      apply elem_of_cons in Hi as [Hi|Hi]; [congruence|].
      destruct (tb !! j); rewrite IH by assumption; [apply perm_swap | reflexivity].
Qed.

Lemma slot_addrs_elem (tb : gmap Z pte) slots a :
  a ∈ slot_addrs tb slots <-> exists i fl, i ∈ slots /\ tb !! i = Some (a, fl).
Proof.
  unfold slot_addrs. rewrite list_elem_of_omap. split.
  - intros (i & Hi & He). destruct (tb !! i) as [[a' fl]|] eqn:Hl; [|discriminate].
    simpl in He. inversion He; subst. eauto.
  - intros (i & fl & Hi & He). exists i. rewrite He. auto.
Qed.

Lemma table_of_insert m t tb t' :
  table_of (set_page_tabs (<[t := tb]> (page_tabs m)) m) t'
  = if decide (t = t') then tb else table_of m t'.
Proof.
  unfold table_of. simpl. rewrite lookup_insert. now case_decide.
Qed.

Lemma dir_of_insert m d db d' :
  dir_of (set_page_dirs (<[d := db]> (page_dirs m)) m) d'
  = if decide (d = d') then db else dir_of m d'.
Proof.
  unfold dir_of. simpl. rewrite lookup_insert. now case_decide.
Qed.
(** ** The reclaimer: [proc_free] *)

Lemma slot_addrs_single (tb : gmap Z pte) i :
  slot_addrs tb [i] = match tb !! i with Some e => [e.1] | None => [] end.
Proof. now rewrite slot_addrs_cons. Qed.

Lemma slot_addrs_split (tb : gmap Z pte) i slots :
  slot_addrs tb (i :: slots) = slot_addrs tb [i] ++ slot_addrs tb slots.
Proof. rewrite slot_addrs_cons, slot_addrs_single. now destruct (tb !! i). Qed.

Section Reclaim.

Context {PF : Platform}.

Lemma tables_frames_cons m t ts :
  tables_frames m (t :: ts) = table_frames m t ++ tables_frames m ts.
Proof. reflexivity. Qed.

Lemma tables_frames_app m ts1 ts2 :
  tables_frames m (ts1 ++ ts2) = tables_frames m ts1 ++ tables_frames m ts2.
Proof. apply bind_app. Qed.

Lemma tables_frames_ext m m' ts :
  (forall t, t ∈ ts -> page_tabs m' !! t = page_tabs m !! t) ->
  tables_frames m' ts = tables_frames m ts.
Proof.
  induction ts as [|t ts IH]; intros H; [reflexivity|].
  rewrite !tables_frames_cons, IH by (intros; apply H; now right).
  unfold table_frames, table_of. rewrite H by (left; reflexivity). reflexivity.
Qed.

Lemma tables_frames_head m t ts : t ∈ ts -> t ∈ tables_frames m ts.
Proof.
  induction ts as [|t' ts IH]; [inversion 1|].
  rewrite tables_frames_cons, elem_of_app. intros [->|H]%elem_of_cons.
  - left. left.
  - right. auto.
Qed.

Lemma tables_frames_NoDup m ts : NoDup (tables_frames m ts) -> NoDup ts.
Proof.
  induction ts as [|t ts IH]; [constructor|].
  rewrite tables_frames_cons. intros (H1 & H2 & H3)%NoDup_app.
  constructor; auto. intros Hin.
  apply (H2 t); [left | now apply tables_frames_head].
Qed.

Lemma free_pte_step r tab k j :
  let tb := table_of (kmem k) tab in
  0 ∉ slot_addrs tb [j] ->
  let k1 := free_pte r tab k j in
  only_mem r k k1 /\
  pmm_free (kmem k1) = slot_addrs tb [j] ++ pmm_free (kmem k) /\
  page_dirs (kmem k1) = page_dirs (kmem k) /\
  phys (kmem k1) = phys (kmem k) /\
  page_tabs (kmem k1) = <[tab := delete j tb]> (page_tabs (kmem k)) /\
  wrap32 (mem_pages (get_proc k1 r))
  = wrap32 (mem_pages (get_proc k r) - Z.of_nat (length (slot_addrs tb [j]))).
Proof.
  intros tb H0 k1. subst k1.
  unfold free_pte, vmm_unmap_page_index, vmm_get_page_index. fold tb.
  rewrite slot_addrs_single in *.
  destruct (tb !! j) as [[a fl]|] eqn:Hl; cbn [from_option id fst].
  - destruct (Z.eqb_spec a 0) as [->|Ha].
    { exfalso. apply H0. left. }
    split_and!; try reflexivity.
    + eapply only_mem_trans; [apply only_mem_set_kmem | apply only_mem_add].
    + rewrite mem_pages_add, wrap32_idemp. reflexivity.
  - rewrite Z.eqb_refl. split_and!; try reflexivity.
    + apply only_mem_set_kmem.
    + simpl. now rewrite Z.sub_0_r.
Qed.

Lemma free_ptes_spec r tab ptes : forall k,
  NoDup ptes ->
  0 ∉ slot_addrs (table_of (kmem k) tab) ptes ->
  let k' := foldl (free_pte r tab) k ptes in
  only_mem r k k' /\
  pmm_free (kmem k') ≡ₚ slot_addrs (table_of (kmem k) tab) ptes ++ pmm_free (kmem k) /\
  page_dirs (kmem k') = page_dirs (kmem k) /\
  phys (kmem k') = phys (kmem k) /\
  (forall t, t <> tab -> page_tabs (kmem k') !! t = page_tabs (kmem k) !! t) /\
  wrap32 (mem_pages (get_proc k' r))
  = wrap32 (mem_pages (get_proc k r)
            - Z.of_nat (length (slot_addrs (table_of (kmem k) tab) ptes))).
Proof.
  induction ptes as [|j ptes IH]; intros k Hnd H0; cbn zeta.
  - simpl. split_and!; auto using only_mem_refl. now rewrite Z.sub_0_r.
  - apply NoDup_cons in Hnd as [Hj Hnd].
    rewrite slot_addrs_split in H0 |- *. rewrite not_elem_of_app in H0.
    destruct H0 as [H0j H0r].
    destruct (free_pte_step r tab k j H0j) as (A1 & A2 & A3 & A4 & A5 & A6).
    cbn [foldl]. set (k1 := free_pte r tab k j) in *.
    assert (Htb : table_of (kmem k1) tab = delete j (table_of (kmem k) tab)).
    { unfold table_of at 1. rewrite A5, lookup_insert_eq. reflexivity. }
    assert (Hsl : slot_addrs (table_of (kmem k1) tab) ptes
                  = slot_addrs (table_of (kmem k) tab) ptes).
    { rewrite Htb. now apply slot_addrs_delete. }
    destruct (IH k1 Hnd) as (B1 & B2 & B3 & B4 & B5 & B6).
    { now rewrite Hsl. }
    rewrite Hsl in B2, B6.
    split; [eapply only_mem_trans; eauto|].
    split; [rewrite B2, A2; solve_Permutation|].
    split; [congruence|]. split; [congruence|]. split.
    + intros t Ht. rewrite B5, A5 by assumption. now apply lookup_insert_ne.
    + rewrite B6, length_app, Nat2Z.inj_add.
      rewrite (wrap32_eq_sub _ _ _ A6). f_equal. lia.
Qed.

Lemma free_pde_step r dir k i :
  let d := dir_of (kmem k) dir in
  let ts := slot_addrs d [i] in
  0 ∉ tables_frames (kmem k) ts ->
  let k1 := free_pde r dir k i in
  only_mem r k k1 /\
  pmm_free (kmem k1) ≡ₚ tables_frames (kmem k) ts ++ pmm_free (kmem k) /\
  phys (kmem k1) = phys (kmem k) /\
  page_dirs (kmem k1) = <[dir := delete i d]> (page_dirs (kmem k)) /\
  (forall t, t ∉ ts -> page_tabs (kmem k1) !! t = page_tabs (kmem k) !! t) /\
  wrap32 (mem_pages (get_proc k1 r))
  = wrap32 (mem_pages (get_proc k r)
            - Z.of_nat (length (tables_frames (kmem k) ts))).
Proof.
  intros d ts H0 k1. subst k1 ts.
  unfold free_pde, vmm_unmap_page_table_index, vmm_get_page_table_index. fold d.
  rewrite slot_addrs_single in *.
  destruct (d !! i) as [[t fl]|] eqn:Hl; cbn [from_option id fst].
  - rewrite tables_frames_cons, app_nil_r in H0 |- *.
    cbn [fst] in H0 |- *.
    destruct (Z.eqb_spec t 0) as [->|Ht].
    { exfalso. apply H0. left. }
    set (m1 := set_page_dirs _ (kmem k)).
    assert (Htab : table_of m1 t = table_of (kmem k) t) by reflexivity.
    destruct (free_ptes_spec r t (seqZ 0 NUM_PTE) (set_kmem m1 k))
      as (B1 & B2 & B3 & B4 & B5 & B6).
    { apply NoDup_seqZ. }
    { cbn [kmem set_kmem]. rewrite Htab. intros Hin. apply H0.
      unfold table_frames. now right. }
    cbn [kmem set_kmem] in B2, B3, B4, B5, B6. rewrite Htab in B2, B6.
    rewrite get_proc_set_kmem in B6.
    set (k2 := foldl (free_pte r t) (set_kmem m1 k) (seqZ 0 NUM_PTE)) in *.
    split.
    { eapply only_mem_trans; [apply only_mem_set_kmem|].
      eapply only_mem_trans; [exact B1|].
      eapply only_mem_trans; [apply only_mem_set_kmem | apply only_mem_add]. }
    split.
    { cbn. rewrite B2. unfold table_frames. reflexivity. }
    split; [cbn; rewrite B4; reflexivity|].
    split; [cbn; rewrite B3; reflexivity|].
    split.
    + intros t' Ht'. cbn. rewrite not_elem_of_cons in Ht'. destruct Ht' as [Ht' _].
      rewrite lookup_delete_ne by congruence. now rewrite B5.
    + rewrite mem_pages_add, wrap32_idemp, get_proc_set_kmem.
      rewrite (wrap32_eq_add _ _ _ B6). f_equal. unfold table_frames.
      cbn [length]. lia.
  - rewrite Z.eqb_refl. split_and!; try reflexivity.
    + apply only_mem_set_kmem.
    + simpl. now rewrite Z.sub_0_r.
Qed.

Lemma free_pdes_spec r dir pdes : forall k,
  NoDup pdes ->
  let ts := slot_addrs (dir_of (kmem k) dir) pdes in
  NoDup ts ->
  0 ∉ tables_frames (kmem k) ts ->
  let k' := foldl (free_pde r dir) k pdes in
  only_mem r k k' /\
  pmm_free (kmem k') ≡ₚ tables_frames (kmem k) ts ++ pmm_free (kmem k) /\
  phys (kmem k') = phys (kmem k) /\
  (forall d, d <> dir -> page_dirs (kmem k') !! d = page_dirs (kmem k) !! d) /\
  (forall t, t ∉ ts -> page_tabs (kmem k') !! t = page_tabs (kmem k) !! t) /\
  wrap32 (mem_pages (get_proc k' r))
  = wrap32 (mem_pages (get_proc k r)
            - Z.of_nat (length (tables_frames (kmem k) ts))).
Proof.
  induction pdes as [|i pdes IH]; intros k Hnd ts Hts H0; subst ts; cbn zeta.
  - simpl. split_and!; auto using only_mem_refl. now rewrite Z.sub_0_r.
  - apply NoDup_cons in Hnd as [Hi Hnd].
    rewrite slot_addrs_split in Hts, H0 |- *.
    rewrite tables_frames_app in H0 |- *. rewrite not_elem_of_app in H0.
    destruct H0 as [H0i H0r].
    apply NoDup_app in Hts as (Hts1 & Hts2 & Hts3).
    destruct (free_pde_step r dir k i H0i) as (A1 & A2 & A3 & A4 & A5 & A6).
    cbn [foldl]. set (k1 := free_pde r dir k i) in *.
    assert (Hd : dir_of (kmem k1) dir = delete i (dir_of (kmem k) dir)).
    { unfold dir_of at 1. rewrite A4, lookup_insert_eq. reflexivity. }
    assert (Hsl : slot_addrs (dir_of (kmem k1) dir) pdes
                  = slot_addrs (dir_of (kmem k) dir) pdes).
    { rewrite Hd. now apply slot_addrs_delete. }
    assert (Htf : tables_frames (kmem k1) (slot_addrs (dir_of (kmem k) dir) pdes)
                  = tables_frames (kmem k) (slot_addrs (dir_of (kmem k) dir) pdes)).
    { apply tables_frames_ext. intros t Ht. apply A5.
      intros Hin. apply (Hts2 t); assumption. }
    destruct (IH k1 Hnd) as (B1 & B2 & B3 & B4 & B5 & B6).
    { now rewrite Hsl. }
    { now rewrite Hsl, Htf. }
    rewrite Hsl, Htf in B2, B6. rewrite Hsl in B5.
    split; [eapply only_mem_trans; eauto|].
    split; [rewrite B2, A2; solve_Permutation|].
    split; [congruence|]. split; [|split].
    + intros d Hd'. rewrite B4, A4 by assumption. now apply lookup_insert_ne.
    + intros t Ht. rewrite not_elem_of_app in Ht. destruct Ht as [Ht1 Ht2].
      rewrite B5, A5 by assumption. reflexivity.
    + rewrite B6, length_app, Nat2Z.inj_add.
      rewrite (wrap32_eq_sub _ _ _ A6). f_equal. lia.
Qed.

End Reclaim.
Section ReclaimSpec.

Context {PF : Platform}.

Lemma free_vaddr_space_spec r k :
  let own := owned_frames k r in
  NoDup own -> 0 ∉ own ->
  let k' := free_vaddr_space r k in
  only_mem r k k' /\
  pmm_free (kmem k') ≡ₚ own ++ pmm_free (kmem k) /\
  phys (kmem k') = phys (kmem k) /\
  (forall a, a ∉ own ->
     page_dirs (kmem k') !! a = page_dirs (kmem k) !! a /\
     page_tabs (kmem k') !! a = page_tabs (kmem k) !! a) /\
  wrap32 (mem_pages (get_proc k' r))
  = wrap32 (mem_pages (get_proc k r) - Z.of_nat (length own)) /\
  (page_dir (get_proc k r) <> 0 ->
   mem_pages (get_proc k' r) = wrap32 (mem_pages (get_proc k' r))).
Proof.
  intros own Hnd H0 k'. subst own k'. unfold owned_frames, free_vaddr_space in *.
  destruct (Z.eqb_spec (page_dir (get_proc k r)) 0) as [Hd|Hd].
  - split_and!; auto using only_mem_refl.
    + simpl. now rewrite Z.sub_0_r.
    + intros; contradiction.
  - set (dir := page_dir (get_proc k r)) in *.
    unfold space_frames in *. fold (user_tables (kmem k) dir) in *.
    apply NoDup_cons in Hnd as [Hdir Hnd].
    apply not_elem_of_cons in H0 as [_ H0].
    destruct (free_pdes_spec r dir (seqZ 0 USER_PDES) k)
      as (B1 & B2 & B3 & B4 & B5 & B6); auto.
    { apply NoDup_seqZ. }
    { eapply tables_frames_NoDup, Hnd. }
    fold (user_tables (kmem k) dir) in B2, B5, B6.
    set (k1 := foldl (free_pde r dir) k (seqZ 0 USER_PDES)) in *.
    split.
    { eapply only_mem_trans; [exact B1|].
      eapply only_mem_trans; [apply only_mem_set_kmem | apply only_mem_add]. }
    split; [cbn; now rewrite B2|].
    split; [cbn; now rewrite B3|].
    split; [|split].
    + intros a Ha. apply not_elem_of_cons in Ha as [Had Ha]. cbn. split.
      * rewrite lookup_delete_ne by congruence. now apply B4.
      * apply B5. intros Hin. apply Ha. now apply tables_frames_head.
    + rewrite mem_pages_add, wrap32_idemp, get_proc_set_kmem.
      rewrite (wrap32_eq_add _ _ _ B6). f_equal. cbn [length]. lia.
    + intros _. now rewrite mem_pages_add, wrap32_idemp.
Qed.

Lemma get_proc_release_pid r r' k : get_proc (release_pid r k) r' = get_proc k r'.
Proof. unfold release_pid. now destruct (_ =? _). Qed.

Lemma kmem_release_pid r k : kmem (release_pid r k) = kmem k.
Proof. unfold release_pid. now destruct (_ =? _). Qed.

End ReclaimSpec.

(** C1: when [mem_pages] is the number of frames the record owns (the
    directory, the page tables reachable from its user-space slots and the
    pages mapped in them), [proc_free] hands every one of those frames back
    to the frame allocator and counts [mem_pages] down once for each, so
    that it is zero at the leak check and the record goes back to the pool;
    with any other value at the check [proc_free] panics, and that is what
    happens when [mem_pages] was not that number. *)
Theorem proc_free_drains_mem_pages `{PF : Platform} (k : kernel) (r : Z) :
  let own := owned_frames k r in
  let k1 := proc_reclaim r k in
  NoDup own -> 0 ∉ own -> Z.of_nat (length own) < 2 ^ 32 ->
  0 <= mem_pages (get_proc k r) < 2 ^ 32 ->
  pmm_free (kmem k1) ≡ₚ own ++ pmm_free (kmem k) /\
  wrap32 (mem_pages (get_proc k1 r))
  = wrap32 (mem_pages (get_proc k r) - Z.of_nat (length own)) /\
  (mem_pages (get_proc k r) = Z.of_nat (length own) ->
   mem_pages (get_proc k1 r) = 0 /\ proc_free r k = Ok tt (slab_free r k1)) /\
  (mem_pages (get_proc k1 r) <> 0 -> proc_free r k = Panic k1) /\
  (mem_pages (get_proc k r) <> Z.of_nat (length own) -> proc_free r k = Panic k1).
Proof.
  intros own k1 Hnd H0 Hlen Hmp. subst k1.
  destruct (free_vaddr_space_spec r k Hnd H0) as (A1 & A2 & A3 & A4 & A5 & A6).
  fold own in A2, A4, A5.
  unfold proc_free, proc_reclaim. rewrite !get_proc_release_pid, kmem_release_pid.
  set (k1 := free_vaddr_space r k) in *.
  assert (Hwr : mem_pages (get_proc k1 r) = wrap32 (mem_pages (get_proc k1 r))).
  { destruct (decide (page_dir (get_proc k r) = 0)) as [Hd|Hd]; [|auto].
    subst k1. unfold free_vaddr_space. rewrite Hd. simpl.
    symmetry. now apply wrap32_small. }
  assert (Hiff : mem_pages (get_proc k1 r) = 0
                 <-> mem_pages (get_proc k r) = Z.of_nat (length own)).
  { rewrite Hwr, A5. unfold wrap32. split.
    - intros Hz. apply Z.mod_divide in Hz; [|lia].
      destruct Hz as [c Hc]. nia.
    - intros ->. now rewrite Z.sub_diag. }
  split; [exact A2|]. split; [exact A5|]. split; [|split].
  - intros Heq. apply Hiff in Heq. split; [exact Heq|].
    rewrite Heq. reflexivity.
  - intros Hne. destruct (Z.eqb_spec (mem_pages (get_proc k1 r)) 0); [contradiction|reflexivity].
  - intros Hne. destruct (Z.eqb_spec (mem_pages (get_proc k1 r)) 0) as [Hz|]; [|reflexivity].
    apply Hiff in Hz. contradiction.
Qed.
Lemma demo_owned_frames :
  owned_frames (PF := demo_platform) demo_kernel 100
  = [4096; 8192; 12288; 16384; 20480; 24576].
Proof. vm_compute. reflexivity. Qed.

Lemma proc_free_drains_mem_pages_witness :
  mem_pages (get_proc (proc_reclaim (PF := demo_platform) 100 demo_kernel) 100) = 0 /\
  proc_free (PF := demo_platform) 100 demo_kernel
  = Ok tt (slab_free 100 (proc_reclaim (PF := demo_platform) 100 demo_kernel)).
Proof.
  assert (H1 : NoDup (owned_frames (PF := demo_platform) demo_kernel 100)) by by_compute.
  assert (H2 : 0 ∉ owned_frames (PF := demo_platform) demo_kernel 100) by by_compute.
  assert (H3 : Z.of_nat (length (owned_frames (PF := demo_platform) demo_kernel 100)) < 2 ^ 32)
    by (rewrite demo_owned_frames; simpl; lia).
  assert (H4 : 0 <= mem_pages (get_proc demo_kernel 100) < 2 ^ 32)
    by (change (mem_pages (get_proc demo_kernel 100)) with 6; lia).
  apply (proc_free_drains_mem_pages (PF := demo_platform) demo_kernel 100 H1 H2 H3 H4).
  rewrite demo_owned_frames. reflexivity.
Defined.
(** ** The record pool: [proc_alloc] *)

Section Pool.

Context {PF : Platform}.

(** A record fresh from [memset] owns nothing and is released without a
    walk. *)
Lemma proc_free_unassigned r k :
  page_dir (get_proc k r) = 0 -> pid (get_proc k r) = -1 ->
  mem_pages (get_proc k r) = 0 ->
  proc_free r k = Ok tt (slab_free r k).
Proof.
  intros Hd Hp Hm.
  unfold proc_free, proc_reclaim, free_vaddr_space, release_pid.
  rewrite Hd. cbn [Z.eqb]. rewrite Hp. cbn [Z.eqb Pos.eqb]. now rewrite Hm.
Qed.

Lemma proc_alloc_exhausted k :
  pid_wf (pids k) -> 0 ∉ proc_cache k -> (alloc_pid (pids k)).1 = -1 ->
  exists k', proc_alloc k = Ok 0 k' /\ proc_cache k' = proc_cache k /\
             kmem k' = kmem k /\ pids k' = pids k /\ run_queue k' = run_queue k.
Proof.
  intros Hwf H0 Hfail.
  pose proof (alloc_pid_full _ Hwf (alloc_pid_fail_full _ Hwf Hfail)) as Hfull.
  unfold proc_alloc, slab_alloc.
  destruct (proc_cache k) as [|r rest] eqn:Hc.
  { exists k. rewrite Hc. auto. }
  destruct (Z.eqb_spec r 0) as [->|Hr].
  { exfalso. apply H0. left. }
  cbn [pids set_procs set_proc_cache]. rewrite Hfull.
  rewrite get_proc_upd. cbn [pid set_pid Z.eqb Pos.eqb].
  assert (Hz : forall k0 : kernel,
             get_proc (set_pids (pids k) (set_procs (<[r := zero_process]> (procs k0)) k0)) r
             = zero_process).
  { intros k0. unfold get_proc. cbn. now rewrite lookup_insert_eq. }
  rewrite proc_free_unassigned; [| rewrite get_proc_upd, Hz; reflexivity ..].
  eexists. split; [reflexivity|]. cbn. destruct (pids k). auto.
Qed.

Lemma proc_alloc_record k r k' :
  pid_wf (pids k) -> proc_alloc k = Ok r k' -> r <> 0 ->
  r ∈ proc_cache k /\
  exists p, 0 <= p < PROC_MAX_NUM /\ (alloc_pid (pids k)).1 = p /\
            get_proc k' r = set_pid p zero_process /\
            pid_in_use (pid_map (pids k)) p = false /\
            pid_in_use (pid_map (pids k')) p = true.
Proof.
  intros Hwf Halloc Hr. pose proof Hwf as [Hg Hlen].
  unfold proc_alloc, slab_alloc in Halloc.
  destruct (proc_cache k) as [|r0 rest] eqn:Hc.
  { inversion Halloc. congruence. }
  destruct (Z.eqb_spec r0 0) as [->|Hr0].
  { inversion Halloc. congruence. }
  cbn [pids set_procs set_proc_cache] in Halloc.
  destruct (alloc_pid_loop_spec (Z.to_nat PROC_MAX_NUM) (pids k) Hwf)
    as [(H1 & _)|(i & Hi & H1 & _ & H3 & H4 & _)]; fold (alloc_pid (pids k)) in *;
    destruct (alloc_pid (pids k)) as [p st]; cbn [fst snd] in *;
    rewrite get_proc_upd in Halloc; cbn [pid set_pid] in Halloc.
  - subst p. cbn [Z.eqb Pos.eqb] in Halloc.
    destruct (proc_free _ _); inversion Halloc. congruence.
  - assert (Hp : 0 <= p < PROC_MAX_NUM)
      by (rewrite H1; apply Z.mod_pos_bound; lia).
    destruct (Z.eqb_spec p (-1)); [lia|].
    injection Halloc as <- <-. split; [left|].
    exists p. split; [assumption|]. split; [reflexivity|].
    cbn [pids upd_proc set_procs set_pids].
    split_and!.
    + rewrite get_proc_upd. unfold get_proc. cbn. now rewrite lookup_insert_eq.
    + exact H3.
    + rewrite H4. rewrite pid_in_use_mark by lia. now case_decide.
Qed.

(** With a record in the pool and a PID to be had, [proc_alloc] hands out
    the first record of the pool. *)
Lemma proc_alloc_hands_out k r rest :
  proc_cache k = r :: rest -> r <> 0 -> (alloc_pid (pids k)).1 <> -1 ->
  exists k', proc_alloc k = Ok r k' /\ proc_cache k' = rest /\
             get_proc k' r = set_pid (alloc_pid (pids k)).1 zero_process.
Proof.
  intros Hc Hr Hok. unfold proc_alloc, slab_alloc. rewrite Hc.
  rewrite (proj2 (Z.eqb_neq r 0) Hr).
  cbn [pids set_procs set_proc_cache].
  destruct (alloc_pid (pids k)) as [p st]. cbn [fst] in Hok.
  rewrite get_proc_upd. cbn [pid set_pid].
  rewrite (proj2 (Z.eqb_neq p (-1)) Hok).
  eexists. split; [reflexivity|]. split; [reflexivity|].
  rewrite get_proc_upd. unfold get_proc. cbn. now rewrite lookup_insert_eq.
Qed.

End Pool.

(** C6: the record [proc_alloc] returns has every field zero but the PID,
    which is the PID [alloc_pid] handed out, never [-1], free before the
    call and assigned after it; with a record in the pool and a PID to be
    had [proc_alloc] does return the first record of the pool; when
    [alloc_pid] fails the record goes back to the pool and [proc_alloc]
    returns [NULL].  So with every PID assigned [proc_exec] fails and leaves
    the pool, the frames, the allocator and the scheduler's queue as they
    were. *)
Theorem proc_alloc_never_exposes_invalid_pid `{PF : Platform}
    (loader : list Z -> Z -> process -> mem -> bool * process * mem)
    (elf : list Z) (size : Z) (k : kernel) :
  pid_wf (pids k) -> 0 ∉ proc_cache k ->
  (forall r k', proc_alloc k = Ok r k' -> r <> 0 ->
     exists p, 0 <= p < PROC_MAX_NUM /\ p <> -1 /\
               (alloc_pid (pids k)).1 = p /\
               get_proc k' r = set_pid p zero_process /\
               pid_in_use (pid_map (pids k)) p = false /\
               pid_in_use (pid_map (pids k')) p = true) /\
  (forall r rest, proc_cache k = r :: rest -> (alloc_pid (pids k)).1 <> -1 ->
     exists k', proc_alloc k = Ok r k' /\ proc_cache k' = rest /\
                get_proc k' r = set_pid (alloc_pid (pids k)).1 zero_process) /\
  ((alloc_pid (pids k)).1 = -1 ->
   exists k', proc_alloc k = Ok 0 k' /\ proc_cache k' = proc_cache k /\
              kmem k' = kmem k /\ pids k' = pids k) /\
  (pid_full (pids k) ->
   exists k', proc_exec loader elf size k = Ok false k' /\
              proc_cache k' = proc_cache k /\ kmem k' = kmem k /\
              pids k' = pids k /\ run_queue k' = run_queue k).
Proof.
  intros Hwf H0. split_and!.
  - intros r k' Halloc Hr.
    destruct (proc_alloc_record k r k' Hwf Halloc Hr)
      as (_ & p & Hp & Hpid & Hrec & Hfree & Hused).
    exists p. split_and!; auto; lia.
  - intros r rest Hc Hok. apply proc_alloc_hands_out; auto.
    intros ->. apply H0. rewrite Hc. left.
  - intros Hfail.
    destruct (proc_alloc_exhausted k Hwf H0 Hfail) as (k' & H1 & H2 & H3 & H4 & _).
    eauto.
  - intros Hfull.
    assert (Hfail : (alloc_pid (pids k)).1 = -1)
      by now rewrite (alloc_pid_full _ Hwf Hfull).
    destruct (proc_alloc_exhausted k Hwf H0 Hfail) as (k' & H1 & H2).
    exists k'. unfold proc_exec. rewrite H1. auto.
Qed.

(** Sixteen PIDs taken, two records and eight frames free: [proc_exec]
    fails and nothing is consumed.  With PID 1 free, [proc_alloc] hands out
    record [200] with PID 1, every other field zero. *)
Lemma proc_alloc_never_exposes_invalid_pid_witness :
  let k := set_pids (PidState [255; 255] 5) demo_kernel in
  (exists k', proc_exec (PF := demo_platform) demo_loader [127; 69] 2 k = Ok false k' /\
              proc_cache k' = proc_cache k /\ kmem k' = kmem k /\
              pids k' = pids k /\ run_queue k' = run_queue k) /\
  (exists k', proc_alloc (PF := demo_platform) demo_kernel = Ok 200 k' /\
              proc_cache k' = [300] /\
              get_proc k' 200 = set_pid 1 zero_process).
Proof.
  intros k. split.
  - assert (Hwf : pid_wf (PF := demo_platform) (pids k)) by (split; simpl; lia).
    assert (H0 : 0 ∉ proc_cache k) by by_compute.
    assert (Hfull : pid_full (PF := demo_platform) (pids k)) by reflexivity.
    exact (proj2 (proj2 (proj2 (proc_alloc_never_exposes_invalid_pid (PF := demo_platform)
                                   demo_loader [127; 69] 2 k Hwf H0))) Hfull).
  - assert (Hwf : pid_wf (PF := demo_platform) (pids demo_kernel))
      by (split; simpl; lia).
    assert (H0 : 0 ∉ proc_cache demo_kernel) by by_compute.
    assert (Hok : (alloc_pid (PF := demo_platform) (pids demo_kernel)).1 <> -1)
      by discriminate.
    exact (proj1 (proj2 (proc_alloc_never_exposes_invalid_pid (PF := demo_platform)
                           demo_loader [127; 69] 2 demo_kernel Hwf H0))
             200 [300] eq_refl Hok).
Defined.
(** ** Frames of an address space under the mapping primitives *)

Section Space.

Context {PF : Platform}.

Lemma tables_frames_perm m ts ts' :
  ts ≡ₚ ts' -> tables_frames m ts ≡ₚ tables_frames m ts'.
Proof. intros H. unfold tables_frames. now rewrite H. Qed.

Lemma space_frames_tables_NoDup m d :
  NoDup (space_frames m d) -> NoDup (user_tables m d).
Proof. intros [_ H]%NoDup_cons. eapply tables_frames_NoDup, H. Qed.

Lemma user_tables_space m d t : t ∈ user_tables m d -> t ∈ space_frames m d.
Proof. intros H. right. now apply tables_frames_head. Qed.

Lemma space_frames_ext m m' d :
  page_dirs m' !! d = page_dirs m !! d ->
  (forall t, t ∈ user_tables m d -> page_tabs m' !! t = page_tabs m !! t) ->
  space_frames m' d = space_frames m d.
Proof.
  intros Hd Ht. unfold space_frames, user_tables, dir_of. rewrite Hd.
  f_equal. apply tables_frames_ext. exact Ht.
Qed.

(** A page mapped at an empty slot of one of the tables. *)
Lemma tables_frames_map_page m m' ts t j a fl :
  t ∈ ts -> NoDup ts -> 0 <= j < NUM_PTE -> table_of m t !! j = None ->
  page_tabs m' = <[t := <[j := (a, fl)]> (table_of m t)]> (page_tabs m) ->
  tables_frames m' ts ≡ₚ a :: tables_frames m ts.
Proof.
  intros Hin Hnd Hj Hnone Htabs.
  apply list_elem_of_split in Hin as (l1 & l2 & ->).
  apply NoDup_app in Hnd as (_ & Hl1 & [Hl2 _]%NoDup_cons).
  rewrite !tables_frames_app, !tables_frames_cons.
  rewrite (tables_frames_ext m m' l1), (tables_frames_ext m m' l2).
  - unfold table_frames at 1. unfold table_of at 1.
    rewrite Htabs, lookup_insert_eq. cbn [default from_option id].
    rewrite slot_addrs_insert_fresh; [| apply NoDup_seqZ | apply elem_of_seqZ; lia | assumption].
    unfold table_frames. cbn [fst]. solve_Permutation.
  - intros t' Ht'. rewrite Htabs. apply lookup_insert_ne. intros ->. contradiction.
  - intros t' Ht'. rewrite Htabs. apply lookup_insert_ne. intros ->.
    apply (Hl1 t'); [assumption | left].
Qed.

Lemma space_frames_map_page m m' d t j a fl :
  t ∈ user_tables m d -> NoDup (user_tables m d) ->
  0 <= j < NUM_PTE -> table_of m t !! j = None ->
  page_dirs m' = page_dirs m ->
  page_tabs m' = <[t := <[j := (a, fl)]> (table_of m t)]> (page_tabs m) ->
  space_frames m' d ≡ₚ a :: space_frames m d.
Proof.
  intros Hin Hnd Hj Hnone Hdirs Htabs. unfold space_frames.
  assert (Hut : user_tables m' d = user_tables m d)
    by (unfold user_tables, dir_of; now rewrite Hdirs).
  rewrite Hut, (tables_frames_map_page m m' _ t j a fl) by assumption.
  apply perm_swap.
Qed.

(** A fresh, empty table mapped at an empty user slot of the directory. *)
Lemma space_frames_map_table m m' d i t fl :
  0 <= i < USER_PDES -> dir_of m d !! i = None -> t ∉ user_tables m d ->
  page_dirs m' = <[d := <[i := (t, fl)]> (dir_of m d)]> (page_dirs m) ->
  page_tabs m' = <[t := ∅]> (page_tabs m) ->
  space_frames m' d ≡ₚ t :: space_frames m d /\
  user_tables m' d ≡ₚ t :: user_tables m d /\
  table_of m' t = ∅.
Proof.
  intros Hi Hnone Ht Hdirs Htabs.
  assert (Hut : user_tables m' d ≡ₚ t :: user_tables m d).
  { unfold user_tables, dir_of at 1. rewrite Hdirs, lookup_insert_eq.
    cbn [default from_option id].
    rewrite slot_addrs_insert_fresh;
      [reflexivity | apply NoDup_seqZ | apply elem_of_seqZ; lia | assumption]. }
  assert (Hempty : table_of m' t = ∅).
  { unfold table_of. now rewrite Htabs, lookup_insert_eq. }
  split; [|split]; [|assumption..].
  unfold space_frames. rewrite (tables_frames_perm m' _ _ Hut), tables_frames_cons.
  rewrite (tables_frames_ext m m' (user_tables m d)).
  - unfold table_frames at 1. rewrite Hempty.
    replace (slot_addrs ∅ (seqZ 0 NUM_PTE)) with (@nil Z).
    + cbn [app]. apply perm_swap.
    + symmetry. unfold slot_addrs. induction (seqZ 0 NUM_PTE) as [|x l IH]; [reflexivity|].
      cbn. rewrite lookup_empty. exact IH.
  - intros t' Ht'. rewrite Htabs. apply lookup_insert_ne. intros ->. contradiction.
Qed.

End Space.
(** ** The cloner: the inner loop *)

Lemma frames_kept_refl F m : frames_kept F m m.
Proof. intros a _. auto. Qed.

Lemma frames_kept_trans F m1 m2 m3 :
  frames_kept F m1 m2 -> frames_kept F m2 m3 -> frames_kept F m1 m3.
Proof.
  intros H1 H2 a Ha. destruct (H1 a Ha) as (A1 & A2 & A3).
  destruct (H2 a Ha) as (B1 & B2 & B3). split_and!; congruence.
Qed.

Lemma frames_kept_mono F F' m m' :
  (forall a, a ∈ F -> a ∈ F') -> frames_kept F m m' -> frames_kept F' m m'.
Proof. intros Hsub H a Ha. apply H. intros Hin. apply Ha, Hsub, Hin. Qed.

Section CloneInner.

Context {PF : Platform}.

Variables (F0 : list Z) (c page_tab clone_tab : Z).
Hypothesis F0_NoDup : NoDup F0.
Hypothesis F0_nonzero : 0 ∉ F0.
Hypothesis tabs_differ : page_tab <> clone_tab.

Lemma accounted_NoDup k :
  accounted F0 c k ->
  NoDup (space_frames (kmem k) (page_dir (get_proc k c)) ++ pmm_free (kmem k)).
Proof. intros (_ & H & _). now rewrite H. Qed.

Lemma accounted_free_in k a :
  accounted F0 c k -> a ∈ pmm_free (kmem k) -> a ∈ F0.
Proof. intros (_ & H & _) Ha. rewrite <- H. apply elem_of_app. now right. Qed.

Lemma accounted_space_in k a :
  accounted F0 c k -> a ∈ space_frames (kmem k) (page_dir (get_proc k c)) -> a ∈ F0.
Proof. intros (_ & H & _) Ha. rewrite <- H. apply elem_of_app. now left. Qed.

Lemma accounted_disjoint k a :
  accounted F0 c k -> a ∈ space_frames (kmem k) (page_dir (get_proc k c)) ->
  a ∈ pmm_free (kmem k) -> False.
Proof.
  intros Hacc H1 H2. apply accounted_NoDup in Hacc.
  apply NoDup_app in Hacc as (_ & Hd & _). exact (Hd a H1 H2).
Qed.

(** One page copied: a frame taken, filled, mapped and counted. *)
Lemma copy_page_step k j a fl a' rest :
  accounted F0 c k ->
  pmm_free (kmem k) = a' :: rest ->
  clone_tab ∈ user_tables (kmem k) (page_dir (get_proc k c)) ->
  0 <= j < NUM_PTE -> table_of (kmem k) clone_tab !! j = None ->
  let m3 := vmm_map_page_index clone_tab j a' fl
              (memcpy_page a' a (set_pmm_free rest (kmem k))) in
  let k1 := add_mem_pages c 1 (set_kmem m3 k) in
  accounted F0 c k1 /\
  Z.of_nat (length (space_frames (kmem k1) (page_dir (get_proc k1 c))))
  = Z.of_nat (length (space_frames (kmem k) (page_dir (get_proc k c)))) + 1.
Proof.
  intros Hacc Hfree Hct Hj Hnone m3 k1.
  pose proof (accounted_NoDup k Hacc) as Hnd.
  destruct Hacc as (Hd & Hperm & Hcnt).
  assert (Hpd : page_dir (get_proc k1 c) = page_dir (get_proc k c)).
  { subst k1. now rewrite page_dir_add, get_proc_set_kmem. }
  assert (Hsp : space_frames m3 (page_dir (get_proc k c))
                ≡ₚ a' :: space_frames (kmem k) (page_dir (get_proc k c))).
  { apply (space_frames_map_page _ _ _ clone_tab j a' fl); auto.
    apply NoDup_app in Hnd as (Hnd & _). now apply space_frames_tables_NoDup. }
  split; [split_and!|].
  - now rewrite Hpd.
  - rewrite Hpd. subst k1. cbn [kmem add_mem_pages upd_proc set_procs set_kmem].
    rewrite Hsp. change (pmm_free m3) with rest. rewrite <- Hperm, Hfree.
    solve_Permutation.
  - rewrite Hpd. subst k1. rewrite mem_pages_add, get_proc_set_kmem, Hcnt, wrap32_add_l.
    cbn [kmem add_mem_pages upd_proc set_procs set_kmem].
    rewrite Hsp. cbn [length]. f_equal. lia.
  - rewrite Hpd. subst k1. cbn [kmem add_mem_pages upd_proc set_procs set_kmem].
    rewrite Hsp. cbn [length]. lia.
Qed.

Lemma copy_ptes_spec ptes : forall k,
  NoDup ptes -> (forall j, j ∈ ptes -> 0 <= j < NUM_PTE) ->
  accounted F0 c k ->
  clone_tab ∈ user_tables (kmem k) (page_dir (get_proc k c)) ->
  (forall j, j ∈ ptes -> table_of (kmem k) clone_tab !! j = None) ->
  0 ∉ slot_addrs (table_of (kmem k) page_tab) ptes ->
  (forall a, a ∈ slot_addrs (table_of (kmem k) page_tab) ptes -> a ∉ pmm_free (kmem k)) ->
  let r := copy_ptes c page_tab clone_tab ptes k in
  only_mem c k r.2 /\
  accounted F0 c r.2 /\
  frames_kept (clone_tab :: pmm_free (kmem k)) (kmem k) (kmem r.2) /\
  page_dirs (kmem r.2) = page_dirs (kmem k) /\
  (forall a, a ∈ pmm_free (kmem r.2) -> a ∈ pmm_free (kmem k)) /\
  (forall j, j ∉ ptes ->
     table_of (kmem r.2) clone_tab !! j = table_of (kmem k) clone_tab !! j) /\
  (r.1 = true ->
   (forall j a fl, j ∈ ptes -> table_of (kmem k) page_tab !! j = Some (a, fl) ->
      exists a', a' ∈ pmm_free (kmem k) /\
                 table_of (kmem r.2) clone_tab !! j = Some (a', fl) /\
                 phys (kmem r.2) !! a' = Some (page_bytes (kmem k) a)) /\
   Z.of_nat (length (space_frames (kmem r.2) (page_dir (get_proc r.2 c))))
   = Z.of_nat (length (space_frames (kmem k) (page_dir (get_proc k c))))
     + Z.of_nat (length (slot_addrs (table_of (kmem k) page_tab) ptes))).
Proof.
  induction ptes as [|j ptes IH]; intros k Hnd Hrange Hacc Hct Hempty Hnz Hsrc r.
  { subst r. cbn [copy_ptes fst snd]. split_and!; auto using only_mem_refl, frames_kept_refl.
    intros _. split; [intros j a fl Hj; inversion Hj | simpl; lia]. }
  apply NoDup_cons in Hnd as [Hj Hnd].
  assert (Hrange' : forall j', j' ∈ ptes -> 0 <= j' < NUM_PTE)
    by (intros; apply Hrange; now right).
  assert (Hempty' : forall j', j' ∈ ptes -> table_of (kmem k) clone_tab !! j' = None)
    by (intros; apply Hempty; now right).
  subst r. cbn [copy_ptes]. unfold vmm_get_page_index.
  rewrite slot_addrs_cons in Hnz, Hsrc |- *.
  destruct (table_of (kmem k) page_tab !! j) as [[a fl]|] eqn:Hsj;
    cbn [default from_option id fst] in *.
  2: { rewrite Z.eqb_refl.
       destruct (IH k Hnd Hrange' Hacc Hct Hempty' Hnz Hsrc)
         as (A1 & A2 & A3 & A4 & A5 & A6 & A7).
       split_and!; auto.
       - intros j' Hj'. apply A6. intros Hin. apply Hj'. now right.
       - intros Hok. destruct (A7 Hok) as [A8 A9]. split; [|exact A9].
         intros j' a fl [->|Hj']%elem_of_cons Hl; [congruence|]. eauto. }
  apply not_elem_of_cons in Hnz as [Ha0 Hnz].
  destruct (Z.eqb_spec a 0) as [->|_]; [congruence|].
  unfold pmm_alloc_page_address.
  destruct (pmm_free (kmem k)) as [|a' rest] eqn:Hfree.
  { cbn [Z.eqb fst snd]. split_and!.
    - apply only_mem_set_kmem.
    - destruct Hacc as (B1 & B2 & B3). split_and!; assumption.
    - apply frames_kept_refl.
    - reflexivity.
    - cbn. rewrite Hfree. auto.
    - reflexivity.
    - discriminate. }
  assert (Ha' : a' <> 0).
  { intros ->. apply F0_nonzero, (accounted_free_in k); [assumption|].
    rewrite Hfree. left. }
  destruct (Z.eqb_spec a' 0) as [|_]; [contradiction|].
  assert (Hft : clone_tab <> a').
  { intros ->. apply (accounted_disjoint k a' Hacc).
    - now apply user_tables_space.
    - rewrite Hfree. left. }
  assert (Hrest : NoDup (a' :: rest)).
  { pose proof (accounted_NoDup k Hacc) as H. rewrite Hfree in H.
    now apply NoDup_app in H as (_ & _ & H). }
  apply NoDup_cons in Hrest as [Ha'rest Hrest].
  set (m3 := vmm_map_page_index clone_tab j a' fl
               (memcpy_page a' a (set_pmm_free rest (kmem k)))).
  set (k1 := add_mem_pages c 1 (set_kmem m3 k)).
  destruct (copy_page_step k j a fl a' rest Hacc Hfree Hct)
    as [Hacc1 Hlen1]; [apply Hrange; left | apply Hempty; left |].
  fold m3 in Hacc1, Hlen1. fold k1 in Hacc1, Hlen1.
  assert (Hpd1 : page_dir (get_proc k1 c) = page_dir (get_proc k c)).
  { subst k1. now rewrite page_dir_add, get_proc_set_kmem. }
  assert (Hst1 : table_of (kmem k1) page_tab = table_of (kmem k) page_tab).
  { unfold table_of. cbn. now rewrite lookup_insert_ne by congruence. }
  assert (Hct1 : table_of (kmem k1) clone_tab
                 = <[j := (a', fl)]> (table_of (kmem k) clone_tab)).
  { unfold table_of at 1. cbn. now rewrite lookup_insert_eq. }
  destruct (IH k1) as (A1 & A2 & A3 & A4 & A5 & A6 & A7); auto.
  { rewrite Hpd1. exact Hct. }
  { intros j' Hj'. rewrite Hct1, lookup_insert_ne by (intros ->; contradiction).
    now apply Hempty'. }
  { now rewrite Hst1. }
  { rewrite Hst1. intros a0 Ha0in Hin. apply (Hsrc a0); [now right|].
    right. exact Hin. }
  change (pmm_free (kmem k1)) with rest in A3, A5.
  set (r := copy_ptes c page_tab clone_tab ptes k1) in *.
  split_and!.
  - eapply only_mem_trans; [|exact A1].
    eapply only_mem_trans; [apply only_mem_set_kmem | apply only_mem_add].
  - exact A2.
  - eapply frames_kept_trans; [|eapply frames_kept_mono; [|exact A3]].
    + intros a0 Ha0in. apply not_elem_of_cons in Ha0in as [H1 [H2 H3]%not_elem_of_cons].
      cbn. rewrite !lookup_insert_ne by congruence. auto.
    + intros a0 [->|H]%elem_of_cons; [left | right; now right].
  - rewrite A4. reflexivity.
  - intros a0 Hin. right. auto.
  - intros j' Hj'. apply not_elem_of_cons in Hj' as [Hne Hj'].
    rewrite A6, Hct1 by assumption. now apply lookup_insert_ne.
  - intros Hok. destruct (A7 Hok) as [A8 A9]. split.
    + intros j' a0 fl0 [->|Hj']%elem_of_cons Hl.
      * rewrite Hsj in Hl. injection Hl as <- <-.
        exists a'. split; [left|]. split.
        -- rewrite A6, Hct1 by assumption. apply lookup_insert_eq.
        -- destruct (A3 a') as (_ & _ & ->).
           { intros [->|Hin]%elem_of_cons; [congruence | contradiction]. }
           cbn. apply lookup_insert_eq.
      * rewrite <- Hst1 in Hl. destruct (A8 j' a0 fl0 Hj' Hl) as (a'' & B1 & B2 & B3).
        exists a''. split; [now right|]. split; [assumption|].
        rewrite B3. f_equal. unfold page_bytes. cbn.
        rewrite lookup_insert_ne; [reflexivity|].
        intros ->. apply (Hsrc a0); [|left].
        right. rewrite <- Hst1. apply slot_addrs_elem. eauto.
    + rewrite A9, Hlen1, Hst1. cbn [length]. lia.
Qed.

End CloneInner.
(** ** The cloner: the outer loop *)

Section CloneOuter.

Context {PF : Platform}.

Lemma tables_frames_elem m ts a :
  a ∈ tables_frames m ts <->
  exists t, t ∈ ts /\ (a = t \/ a ∈ slot_addrs (table_of m t) (seqZ 0 NUM_PTE)).
Proof.
  unfold tables_frames. rewrite list_elem_of_bind. unfold table_frames.
  split; intros (t & H1 & H2); exists t.
  - apply elem_of_cons in H1. tauto.
  - split; [|tauto]. apply elem_of_cons. tauto.
Qed.

Lemma tables_frames_page m ts t j a fl :
  t ∈ ts -> 0 <= j < NUM_PTE -> table_of m t !! j = Some (a, fl) ->
  a ∈ tables_frames m ts.
Proof.
  intros Ht Hj Hl. apply tables_frames_elem. exists t. split; [assumption|].
  right. apply slot_addrs_elem. exists j, fl. split; [|assumption].
  apply elem_of_seqZ. lia.
Qed.

Lemma frames_kept_dir F m m' d : frames_kept F m m' -> d ∉ F -> dir_of m' d = dir_of m d.
Proof. intros H Hd. unfold dir_of. now destruct (H d Hd) as (-> & _). Qed.

Lemma frames_kept_table F m m' t :
  frames_kept F m m' -> t ∉ F -> table_of m' t = table_of m t.
Proof. intros H Ht. unfold table_of. now destruct (H t Ht) as (_ & -> & _). Qed.

Lemma frames_kept_bytes F m m' a :
  frames_kept F m m' -> a ∉ F -> page_bytes m' a = page_bytes m a.
Proof. intros H Ha. unfold page_bytes. now destruct (H a Ha) as (_ & _ & ->). Qed.

Lemma frames_kept_tables_frames F m m' ts :
  frames_kept F m m' -> (forall t, t ∈ ts -> t ∉ F) ->
  tables_frames m' ts = tables_frames m ts.
Proof.
  intros H Hts. apply tables_frames_ext. intros t Ht.
  now destruct (H t (Hts t Ht)) as (_ & -> & _).
Qed.

Variables (F0 : list Z) (c p : Z).
Hypothesis F0_NoDup : NoDup F0.
Hypothesis F0_nonzero : 0 ∉ F0.

(** One table cloned: a frame taken, emptied, mapped and counted. *)
Lemma copy_table_step k i ct fl rest :
  accounted F0 c k ->
  pmm_free (kmem k) = ct :: rest ->
  0 <= i < USER_PDES -> dir_of (kmem k) (page_dir (get_proc k c)) !! i = None ->
  let m1 := set_page_tabs (<[ct := ∅]> (page_tabs (set_pmm_free rest (kmem k))))
                          (set_pmm_free rest (kmem k)) in
  let m2 := vmm_map_page_table_index (page_dir (get_proc k c)) i ct fl m1 in
  let k2 := add_mem_pages c 1 (set_kmem m2 k) in
  accounted F0 c k2 /\
  ct ∈ user_tables (kmem k2) (page_dir (get_proc k2 c)) /\
  table_of (kmem k2) ct = ∅ /\
  Z.of_nat (length (space_frames (kmem k2) (page_dir (get_proc k2 c))))
  = Z.of_nat (length (space_frames (kmem k) (page_dir (get_proc k c)))) + 1.
Proof.
  intros Hacc Hfree Hi Hnone m1 m2 k2.
  assert (Hfresh : ct ∉ user_tables (kmem k) (page_dir (get_proc k c))).
  { intros Hin. apply (accounted_disjoint F0 c F0_NoDup k ct Hacc).
    - now apply user_tables_space.
    - rewrite Hfree. left. }
  destruct Hacc as (Hd & Hperm & Hcnt).
  assert (Hpd : page_dir (get_proc k2 c) = page_dir (get_proc k c)).
  { subst k2. now rewrite page_dir_add, get_proc_set_kmem. }
  destruct (space_frames_map_table (kmem k) m2 (page_dir (get_proc k c)) i ct fl)
    as (Hsp & Hut & Hempty); auto.
  assert (Hlen : Z.of_nat (length (space_frames m2 (page_dir (get_proc k c))))
                 = Z.of_nat (length (space_frames (kmem k) (page_dir (get_proc k c)))) + 1).
  { rewrite Hsp. cbn [length]. lia. }
  split_and!.
  - unfold accounted. rewrite Hpd. change (kmem k2) with m2. split_and!.
    + assumption.
    + change (pmm_free m2) with rest. rewrite Hsp, <- Hperm, Hfree. solve_Permutation.
    + subst k2. rewrite mem_pages_add, get_proc_set_kmem, Hcnt, wrap32_add_l.
      now rewrite Hlen.
  - rewrite Hpd. change (kmem k2) with m2. rewrite Hut. left.
  - exact Hempty.
  - rewrite Hpd. exact Hlen.
Qed.

Lemma copy_pdes_spec cd sd pdes : forall k,
  NoDup pdes -> (forall i, i ∈ pdes -> 0 <= i < USER_PDES) ->
  accounted F0 c k ->
  page_dir (get_proc k c) = cd -> page_dir (get_proc k p) = sd ->
  sd ∉ F0 ->
  (forall i, i ∈ pdes -> dir_of (kmem k) cd !! i = None) ->
  0 ∉ tables_frames (kmem k) (slot_addrs (dir_of (kmem k) sd) pdes) ->
  (forall a, a ∈ tables_frames (kmem k) (slot_addrs (dir_of (kmem k) sd) pdes) -> a ∉ F0) ->
  let r := copy_pdes c p pdes k in
  only_mem c k r.2 /\
  accounted F0 c r.2 /\
  frames_kept (cd :: pmm_free (kmem k)) (kmem k) (kmem r.2) /\
  (forall a, a ∈ pmm_free (kmem r.2) -> a ∈ pmm_free (kmem k)) /\
  (forall i, i ∉ pdes -> dir_of (kmem r.2) cd !! i = dir_of (kmem k) cd !! i) /\
  (r.1 = true ->
   (forall i t fl, i ∈ pdes -> dir_of (kmem k) sd !! i = Some (t, fl) ->
      exists t', t' ∈ pmm_free (kmem k) /\
        dir_of (kmem r.2) cd !! i = Some (t', fl) /\
        forall j a flj, 0 <= j < NUM_PTE -> table_of (kmem k) t !! j = Some (a, flj) ->
          exists a', a' ∈ pmm_free (kmem k) /\
            table_of (kmem r.2) t' !! j = Some (a', flj) /\
            phys (kmem r.2) !! a' = Some (page_bytes (kmem k) a)) /\
   Z.of_nat (length (space_frames (kmem r.2) cd))
   = Z.of_nat (length (space_frames (kmem k) cd))
     + Z.of_nat (length (tables_frames (kmem k) (slot_addrs (dir_of (kmem k) sd) pdes)))).
Proof.
  induction pdes as [|i pdes IH];
    intros k Hnd Hrange Hacc Hcd Hsd Hsdfree Hempty Hnz Hsrc r.
  { subst r. cbn [copy_pdes fst snd].
    split_and!; auto using only_mem_refl, frames_kept_refl.
    intros _. split; [intros i t fl Hi; inversion Hi | simpl; lia]. }
  apply NoDup_cons in Hnd as [Hi Hnd].
  assert (Hrange' : forall i', i' ∈ pdes -> 0 <= i' < USER_PDES)
    by (intros; apply Hrange; now right).
  assert (Hempty' : forall i', i' ∈ pdes -> dir_of (kmem k) cd !! i' = None)
    by (intros; apply Hempty; now right).
  subst r. cbn [copy_pdes]. unfold vmm_get_page_table_index. rewrite Hsd.
  rewrite slot_addrs_cons in Hnz, Hsrc |- *.
  destruct (dir_of (kmem k) sd !! i) as [[t fl]|] eqn:Hsi;
    cbn [default from_option id fst] in *.
  2: { rewrite Z.eqb_refl.
       destruct (IH k Hnd Hrange' Hacc Hcd Hsd Hsdfree Hempty' Hnz Hsrc)
         as (A1 & A2 & A3 & A4 & A5 & A6).
       split_and!; auto.
       - intros i' Hi'. apply A5. intros Hin. apply Hi'. now right.
       - intros Hok. destruct (A6 Hok) as [A7 A8]. split; [|exact A8].
         intros i' t fl [->|Hi']%elem_of_cons Hl; [congruence|]. eauto. }
  rewrite tables_frames_cons in Hnz, Hsrc |- *.
  set (sts := slot_addrs (dir_of (kmem k) sd) pdes) in *.
  assert (Ht0 : t <> 0).
  { intros ->. apply Hnz, elem_of_app. left. left. }
  destruct (Z.eqb_spec t 0) as [|_]; [contradiction|].
  assert (HtF : t ∉ F0) by (apply Hsrc, elem_of_app; left; left).
  assert (HcdF : cd ∈ F0).
  { apply (accounted_space_in F0 c k); [assumption|]. rewrite Hcd. left. }
  unfold vmm_alloc_page_table, pmm_alloc_page_address.
  destruct (pmm_free (kmem k)) as [|ct rest] eqn:Hfree.
  { cbn [Z.eqb fst snd]. split_and!.
    - apply only_mem_set_kmem.
    - destruct Hacc as (B1 & B2 & B3). split_and!; assumption.
    - apply frames_kept_refl.
    - cbn. rewrite Hfree. auto.
    - reflexivity.
    - discriminate. }
  assert (HfreeF : forall a, a ∈ ct :: rest -> a ∈ F0).
  { intros a Ha. apply (accounted_free_in F0 c k); [assumption | now rewrite Hfree]. }
  assert (Hct0 : ct <> 0).
  { intros ->. apply F0_nonzero, HfreeF. left. }
  repeat first [rewrite (proj2 (Z.eqb_neq ct 0) Hct0) | progress cbn beta iota zeta].
  assert (Htct : t <> ct).
  { intros ->. apply HtF, HfreeF. left. }
  assert (Hctcd : ct <> cd).
  { intros ->. apply (accounted_disjoint F0 c F0_NoDup k cd Hacc).
    - rewrite Hcd. left.
    - rewrite Hfree. left. }
  assert (Hrest : NoDup (ct :: rest)).
  { pose proof (accounted_NoDup F0 c F0_NoDup k Hacc) as H. rewrite Hfree in H.
    now apply NoDup_app in H as (_ & _ & H). }
  apply NoDup_cons in Hrest as [Hctrest Hrest].
  set (m1 := set_page_tabs (<[ct := ∅]> (page_tabs (set_pmm_free rest (kmem k))))
                           (set_pmm_free rest (kmem k))).
  set (m2 := vmm_map_page_table_index (page_dir (get_proc k c)) i ct fl m1).
  set (k2 := add_mem_pages c 1 (set_kmem m2 k)).
  destruct (copy_table_step k i ct fl rest Hacc Hfree)
    as (Hacc2 & Hct2 & Hemp2 & Hlen2);
    [apply Hrange; left | rewrite Hcd; apply Hempty; left |].
  fold m1 in Hacc2, Hct2, Hemp2, Hlen2. fold m2 in Hacc2, Hct2, Hemp2, Hlen2.
  fold k2 in Hacc2, Hct2, Hemp2, Hlen2.
  assert (Hm1 : only_mem c k k2).
  { eapply only_mem_trans; [apply only_mem_set_kmem | apply only_mem_add]. }
  assert (Hcd2 : page_dir (get_proc k2 c) = cd)
    by now rewrite (only_mem_page_dir c c k k2 Hm1).
  rewrite Hcd2 in Hct2, Hlen2. rewrite Hcd in Hlen2.
  assert (Hdirs2 : page_dirs (kmem k2)
                   = <[cd := <[i := (ct, fl)]> (dir_of (kmem k) cd)]> (page_dirs (kmem k))).
  { cbn. rewrite Hcd. reflexivity. }
  assert (Htabs2 : page_tabs (kmem k2) = <[ct := ∅]> (page_tabs (kmem k))) by reflexivity.
  assert (Hphys2 : phys (kmem k2) = phys (kmem k)) by reflexivity.
  assert (Hfree2 : pmm_free (kmem k2) = rest) by reflexivity.
  assert (Hst2 : table_of (kmem k2) t = table_of (kmem k) t).
  { unfold table_of. now rewrite Htabs2, lookup_insert_ne by congruence. }
  assert (Hkept2 : frames_kept (cd :: ct :: rest) (kmem k) (kmem k2)).
  { intros a Ha. apply not_elem_of_cons in Ha as [H1 [H2 H3]%not_elem_of_cons].
    rewrite Hdirs2, Htabs2, Hphys2, !lookup_insert_ne by congruence. auto. }
  destruct (copy_ptes_spec F0 c t ct F0_NoDup F0_nonzero Htct (seqZ 0 NUM_PTE) k2)
    as (B1 & B2 & B3 & B4 & B5 & B6 & B7).
  { apply NoDup_seqZ. }
  { intros j Hj. apply elem_of_seqZ in Hj. lia. }
  { exact Hacc2. }
  { now rewrite Hcd2. }
  { intros j _. rewrite Hemp2. apply lookup_empty. }
  { rewrite Hst2. intros Hin. apply Hnz, elem_of_app. left. now right. }
  { rewrite Hst2, Hfree2. intros a Ha Hin.
    apply (Hsrc a); [apply elem_of_app; left; now right | apply HfreeF; now right]. }
  rewrite Hfree2 in B3, B5. rewrite Hst2 in B7. rewrite Hcd2 in B7.
  destruct (copy_ptes c t ct (seqZ 0 NUM_PTE) k2) as [ok k3] eqn:Hcopy.
  cbn [fst snd] in B1, B2, B3, B4, B5, B6, B7.
  assert (Hm3 : only_mem c k k3) by (eapply only_mem_trans; eauto).
  assert (Hcd3 : page_dir (get_proc k3 c) = cd)
    by now rewrite (only_mem_page_dir c c k k3 Hm3).
  assert (Hsd3 : page_dir (get_proc k3 p) = sd)
    by now rewrite (only_mem_page_dir c p k k3 Hm3).
  assert (Hkept3 : frames_kept (cd :: ct :: rest) (kmem k) (kmem k3)).
  { eapply frames_kept_trans; [exact Hkept2|].
    eapply frames_kept_mono; [|exact B3]. intros a Ha. now right. }
  assert (Hsub3 : forall a, a ∈ pmm_free (kmem k3) -> a ∈ ct :: rest)
    by (intros a Ha; right; auto).
  assert (Hdir3 : dir_of (kmem k3) cd = <[i := (ct, fl)]> (dir_of (kmem k) cd)).
  { unfold dir_of at 1. rewrite B4, Hdirs2, lookup_insert_eq. reflexivity. }
  destruct ok; cbn [negb].
  2: { cbn [fst snd]. split_and!; auto; [|discriminate].
       intros i' Hi'. apply not_elem_of_cons in Hi' as [Hne Hi'].
       rewrite Hdir3. now apply lookup_insert_ne. }
  assert (HinF : forall a, a ∈ cd :: ct :: rest -> a ∈ F0).
  { intros a [->|Ha]%elem_of_cons; auto. }
  assert (HoutF : forall a, a ∉ F0 -> a ∉ cd :: ct :: rest) by (intros a Ha Hin; auto).
  assert (Hsdir3 : dir_of (kmem k3) sd = dir_of (kmem k) sd)
    by (apply (frames_kept_dir _ _ _ _ Hkept3); auto).
  assert (Hstf3 : tables_frames (kmem k3) sts = tables_frames (kmem k) sts).
  { apply (frames_kept_tables_frames _ _ _ _ Hkept3). intros t' Ht'.
    apply HoutF, Hsrc, elem_of_app. right. now apply tables_frames_head. }
  destruct (IH k3) as (C1 & C2 & C3 & C4 & C5 & C6); auto.
  { intros i' Hi'. rewrite Hdir3, lookup_insert_ne by (intros ->; contradiction).
    now apply Hempty'. }
  { rewrite Hsdir3. fold sts. rewrite Hstf3. intros Hin. apply Hnz, elem_of_app. now right. }
  { rewrite Hsdir3. fold sts. rewrite Hstf3. intros a Ha. apply Hsrc, elem_of_app. now right. }
  rewrite Hsdir3 in C6. fold sts in C6. rewrite Hstf3 in C6.
  set (r := copy_pdes c p pdes k3) in *.
  assert (Hkept : frames_kept (cd :: ct :: rest) (kmem k) (kmem r.2)).
  { eapply frames_kept_trans; [exact Hkept3|].
    eapply frames_kept_mono; [|exact C3].
    intros a [->|Ha]%elem_of_cons; [left | right; auto]. }
  split_and!.
  - eapply only_mem_trans; eauto.
  - exact C2.
  - exact Hkept.
  - intros a Ha. apply Hsub3, C4, Ha.
  - intros i' Hi'. apply not_elem_of_cons in Hi' as [Hne Hi'].
    rewrite C5, Hdir3 by assumption. now apply lookup_insert_ne.
  - intros Hok. destruct (C6 Hok) as [C7 C8]. destruct (B7 eq_refl) as [B8 B9]. split.
    + intros i' t0 fl0 [->|Hi']%elem_of_cons Hl.
      * rewrite Hsi in Hl. injection Hl as <- <-.
        exists ct. split; [left|]. split.
        { rewrite C5, Hdir3 by assumption. apply lookup_insert_eq. }
        intros j a flj Hj Hl.
        destruct (B8 j a flj) as (a' & D1 & D2 & D3); [apply elem_of_seqZ; lia | assumption |].
        assert (Ha'sp : a' ∈ space_frames (kmem k3) cd).
        { right. apply (tables_frames_page _ _ ct j a' flj); auto.
          unfold user_tables, dir_of. rewrite B4. exact Hct2. }
        assert (Ha'3 : a' ∉ cd :: pmm_free (kmem k3)).
        { intros [->|Hin]%elem_of_cons.
          - apply (accounted_disjoint F0 c F0_NoDup k cd Hacc).
            + rewrite Hcd. left.
            + rewrite Hfree. now right.
          - apply (accounted_disjoint F0 c F0_NoDup k3 a' B2); [now rewrite Hcd3 | assumption]. }
        assert (Hct3 : ct ∉ cd :: pmm_free (kmem k3)).
        { intros [?|Hin]%elem_of_cons; [congruence|]. apply Hctrest, B5, Hin. }
        exists a'. split; [right; assumption|]. split.
        -- rewrite (frames_kept_table _ _ _ _ C3 Hct3). exact D2.
        -- destruct (C3 a' Ha'3) as (_ & _ & ->). rewrite D3.
           unfold page_bytes. now rewrite Hphys2.
      * destruct (C7 i' t0 fl0 Hi' Hl) as (t' & D1 & D2 & D3).
        assert (Ht0s : t0 ∈ sts) by (apply slot_addrs_elem; eauto).
        assert (Ht0F : t0 ∉ F0).
        { apply Hsrc, elem_of_app. right. now apply tables_frames_head. }
        exists t'. split; [apply Hsub3, D1|]. split; [exact D2|].
        intros j a flj Hj Hlj.
        rewrite <- (frames_kept_table _ _ _ _ Hkept3 (HoutF _ Ht0F)) in Hlj.
        destruct (D3 j a flj Hj Hlj) as (a' & E1 & E2 & E3).
        exists a'. split; [apply Hsub3, E1|]. split; [exact E2|].
        rewrite E3. f_equal. apply (frames_kept_bytes _ _ _ _ Hkept3), HoutF, Hsrc.
        apply elem_of_app. right.
        rewrite (frames_kept_table _ _ _ _ Hkept3 (HoutF _ Ht0F)) in Hlj.
        apply (tables_frames_page _ _ t0 j a flj); auto.
    + rewrite C8. rewrite Hcd3 in B9. rewrite B9, Hlen2, length_app.
      unfold table_frames. cbn [length]. lia.
Qed.

End CloneOuter.
(** ** Around the walks: the pool, the release, the kernel half *)

Lemma only_space_refl r k : only_space r k k.
Proof. unfold only_space. tauto. Qed.

Lemma only_space_trans r k1 k2 k3 :
  only_space r k1 k2 -> only_space r k2 k3 -> only_space r k1 k3.
Proof.
  unfold only_space. intros (A1 & A2 & A3 & A4 & A5 & A6 & A7) (B1 & B2 & B3 & B4 & B5 & B6 & B7).
  split_and!; try congruence.
  intros r' Hr. rewrite B6, A6; auto.
Qed.

Lemma only_mem_only_space r k k' : only_mem r k k' -> only_space r k k'.
Proof.
  unfold only_mem, only_space. intros (A1 & A2 & A3 & A4 & A5 & A6 & A7).
  split_and!; auto.
  destruct (get_proc k' r), (get_proc k r).
  unfold set_mem_pages, set_page_dir in *. cbn in *.
  injection A7 as -> -> -> -> -> -> -> -> ->. reflexivity.
Qed.

Lemma only_space_set_page_dir r d m k :
  only_space r k (upd_proc r (set_page_dir d) (set_kmem m k)).
Proof.
  unfold only_space. split_and!; try reflexivity.
  - intros r' Hr. cbn. now rewrite lookup_insert_ne.
  - rewrite get_proc_upd, get_proc_set_kmem. reflexivity.
Qed.

Lemma only_space_get_ne r r' k k' :
  only_space r k k' -> r' <> r -> get_proc k' r' = get_proc k r'.
Proof. intros (_ & _ & _ & _ & _ & H & _) Hne. unfold get_proc. now rewrite H. Qed.

Lemma only_space_pid r k k' :
  only_space r k k' -> pid (get_proc k' r) = pid (get_proc k r).
Proof. intros (_ & _ & _ & _ & _ & _ & H). apply (f_equal pid) in H. exact H. Qed.

Section Around.

Context {PF : Platform}.

(** [proc_alloc] always returns; it leaves memory and the records in use
    alone, and a record it returns is zero but for its PID. *)
Lemma proc_alloc_cases k :
  exists c k1,
    proc_alloc k = Ok c k1 /\ kmem k1 = kmem k /\
    (forall r', r' ∉ proc_cache k -> procs k1 !! r' = procs k !! r') /\
    (c <> 0 -> c ∈ proc_cache k /\
               exists pd, get_proc k1 c = set_pid pd zero_process).
Proof.
  unfold proc_alloc, slab_alloc.
  destruct (proc_cache k) as [|r rest] eqn:Hc.
  { exists 0, k. split_and!; auto. congruence. }
  destruct (Z.eqb_spec r 0) as [->|Hr].
  { eexists 0, _. split_and!; [reflexivity | reflexivity | auto | congruence]. }
  destruct (alloc_pid _) as [pd st].
  set (k2 := set_procs (<[r := zero_process]> (procs (set_proc_cache rest k)))
                       (set_proc_cache rest k)).
  rewrite get_proc_upd. cbn [pid set_pid].
  assert (Hz : get_proc (set_pids st k2) r = zero_process).
  { unfold get_proc. cbn. now rewrite lookup_insert_eq. }
  assert (Hother : forall r', r' ∉ r :: rest ->
            procs (upd_proc r (set_pid pd) (set_pids st k2)) !! r' = procs k !! r').
  { intros r' Hr'. apply not_elem_of_cons in Hr' as [Hne _].
    cbn. now rewrite !lookup_insert_ne by congruence. }
  destruct (Z.eqb_spec pd (-1)) as [->|Hpd].
  - rewrite proc_free_unassigned; [| rewrite get_proc_upd, Hz; reflexivity ..].
    eexists 0, _. split_and!; [reflexivity | reflexivity | exact Hother | congruence].
  - eexists r, _. split_and!; [reflexivity | reflexivity | exact Hother |].
    intros _. split; [left|]. exists pd. now rewrite get_proc_upd, Hz.
Qed.

(** A record whose count is kept right is released without a panic, and
    its frames all go back to the allocator. *)
Lemma proc_free_accounted F0 r k :
  NoDup F0 -> 0 ∉ F0 -> accounted F0 r k ->
  exists k',
    proc_free r k = Ok tt k' /\
    pmm_free (kmem k') ≡ₚ F0 /\
    frames_kept (space_frames (kmem k) (page_dir (get_proc k r))) (kmem k) (kmem k') /\
    procs k' = procs (free_vaddr_space r k) /\
    only_mem r k (free_vaddr_space r k) /\
    run_queue k' = run_queue k /\
    proc_cache k' = r :: proc_cache k.
Proof.
  intros Hnd H0 (Hd & Hperm & Hcnt).
  assert (Hown : owned_frames k r = space_frames (kmem k) (page_dir (get_proc k r))).
  { unfold owned_frames. now destruct (Z.eqb_spec (page_dir (get_proc k r)) 0). }
  assert (Hnd' : NoDup (owned_frames k r)).
  { rewrite Hown. rewrite <- Hperm in Hnd. now apply NoDup_app in Hnd as (? & _). }
  assert (H0' : 0 ∉ owned_frames k r).
  { rewrite Hown. intros Hin. apply H0. rewrite <- Hperm. apply elem_of_app. now left. }
  destruct (free_vaddr_space_spec r k Hnd' H0') as (A1 & A2 & A3 & A4 & A5 & A6).
  rewrite Hown in A2, A4, A5.
  unfold proc_free, proc_reclaim. rewrite !get_proc_release_pid.
  set (k1 := free_vaddr_space r k) in *.
  assert (Hz : mem_pages (get_proc k1 r) = 0).
  { rewrite (A6 Hd), A5, Hcnt. unfold wrap32.
    rewrite Zminus_mod_idemp_l, Z.sub_diag. reflexivity. }
  rewrite Hz. cbn [Z.eqb]. eexists. split; [reflexivity|].
  cbn [kmem slab_free set_proc_cache]. rewrite kmem_release_pid.
  split_and!.
  - now rewrite A2.
  - intros a Ha. destruct (A4 a Ha) as [-> ->]. now rewrite A3.
  - unfold release_pid. now destruct (_ =? _).
  - exact A1.
  - destruct A1 as (_ & _ & <- & _). unfold release_pid. now destruct (_ =? _).
  - destruct A1 as (_ & <- & _). unfold release_pid. now destruct (_ =? _).
Qed.

(** [pg_copy_kernel_space] leaves the user half of the directory alone. *)
Lemma pg_copy_kernel_space_user d m i :
  i < USER_PDES -> dir_of (pg_copy_kernel_space d m) d !! i = dir_of m d !! i.
Proof.
  intros Hi. unfold pg_copy_kernel_space. rewrite dir_of_insert.
  case_decide; [|congruence].
  rewrite lookup_union_r.
  - destruct (dir_of m d !! i) as [e|] eqn:He.
    + apply map_lookup_filter_Some. split; [assumption | simpl; lia].
    + apply map_lookup_filter_None. left. assumption.
  - apply map_lookup_filter_None. right. intros e _. simpl. lia.
Qed.

Lemma pg_copy_kernel_space_frames d m :
  space_frames (pg_copy_kernel_space d m) d = space_frames m d.
Proof.
  unfold space_frames, user_tables. f_equal.
  rewrite (slot_addrs_ext (dir_of (pg_copy_kernel_space d m) d) (dir_of m d)).
  - now apply tables_frames_ext.
  - intros i Hi. apply elem_of_seqZ in Hi. apply pg_copy_kernel_space_user. lia.
Qed.

Lemma pg_copy_kernel_space_kept d m :
  frames_kept [d] m (pg_copy_kernel_space d m).
Proof.
  intros a Ha. apply not_elem_of_cons in Ha as [Ha _].
  unfold pg_copy_kernel_space. cbn. now rewrite lookup_insert_ne by congruence.
Qed.

End Around.
(** ** [init_proc_from_proc] *)

Lemma slot_addrs_empty slots : slot_addrs ∅ slots = [].
Proof.
  induction slots as [|i slots IH]; [reflexivity|].
  now rewrite slot_addrs_cons, lookup_empty.
Qed.

Section CloneInit.

Context {PF : Platform}.

Lemma init_proc_from_proc_spec F0 sd c p k :
  pmm_free (kmem k) = F0 -> page_dir (get_proc k p) = sd ->
  NoDup F0 -> 0 ∉ F0 -> p <> c ->
  mem_pages (get_proc k c) = 0 ->
  0 ∉ space_frames (kmem k) sd ->
  (forall a, a ∈ space_frames (kmem k) sd -> a ∉ F0) ->
  let r := init_proc_from_proc c p k in
  only_space c k r.2 /\
  frames_kept F0 (kmem k) (kmem r.2) /\
  (r.1 = false ->
   (page_dir (get_proc r.2 c) = 0 /\ mem_pages (get_proc r.2 c) = 0 /\
    kmem r.2 = kmem k /\ F0 = [])
   \/ accounted F0 c r.2) /\
  (r.1 = true ->
   accounted F0 c r.2 /\
   mem_pages (get_proc r.2 c)
   = wrap32 (Z.of_nat (length (space_frames (kmem k) sd))) /\
   forall i t fl, 0 <= i < USER_PDES -> dir_of (kmem k) sd !! i = Some (t, fl) ->
     exists t', t' ∈ F0 /\
       dir_of (kmem r.2) (page_dir (get_proc r.2 c)) !! i = Some (t', fl) /\
       forall j a flj, 0 <= j < NUM_PTE -> table_of (kmem k) t !! j = Some (a, flj) ->
         exists a', a' ∈ F0 /\
           table_of (kmem r.2) t' !! j = Some (a', flj) /\
           phys (kmem r.2) !! a' = Some (page_bytes (kmem k) a)).
Proof.
  intros Hfree Hsd Hnd H0 Hpc Hmp HS0 HSF r. subst r.
  unfold init_proc_from_proc, vmm_alloc_vaddr_space, pmm_alloc_page_address.
  rewrite Hfree. destruct F0 as [|cd rest].
  { cbn beta iota zeta. cbn [Z.eqb]. rewrite get_proc_upd. cbn [page_dir set_page_dir Z.eqb].
    cbn [fst snd]. split_and!.
    - apply only_space_set_page_dir.
    - apply frames_kept_refl.
    - intros _. left. rewrite get_proc_upd, get_proc_set_kmem. cbn.
      split_and!; auto.
    - discriminate. }
  assert (Hcd0 : cd <> 0) by (intros ->; apply H0; left).
  repeat first [rewrite (proj2 (Z.eqb_neq cd 0) Hcd0) | progress cbn beta iota zeta].
  set (m1 := set_page_dirs (<[cd := ∅]> (page_dirs (set_pmm_free rest (kmem k))))
                           (set_pmm_free rest (kmem k))).
  set (k1 := upd_proc c (set_page_dir cd) (set_kmem m1 k)).
  assert (Hpd1 : page_dir (get_proc k1 c) = cd) by (subst k1; now rewrite get_proc_upd).
  rewrite Hpd1.
  repeat first [rewrite (proj2 (Z.eqb_neq cd 0) Hcd0) | progress cbn beta iota zeta].
  set (k2 := add_mem_pages c 1 k1).
  assert (Hos2 : only_space c k k2).
  { eapply only_space_trans; [apply only_space_set_page_dir|].
    apply only_mem_only_space, only_mem_add. }
  assert (Hcd2 : page_dir (get_proc k2 c) = cd) by (subst k2; now rewrite page_dir_add).
  assert (Hsd2 : page_dir (get_proc k2 p) = sd)
    by now rewrite (only_space_get_ne c p k k2 Hos2).
  assert (HsdF : sd ∉ cd :: rest) by (apply HSF; left).
  assert (Hsdcd : sd <> cd) by (intros ->; apply HsdF; left).
  assert (Hsp2 : space_frames (kmem k2) cd = [cd]).
  { unfold space_frames, user_tables. change (kmem k2) with m1.
    unfold dir_of. cbn. rewrite lookup_insert_eq. cbn. now rewrite slot_addrs_empty. }
  assert (Hacc2 : accounted (cd :: rest) c k2).
  { unfold accounted. rewrite Hcd2, Hsp2. split_and!; [assumption | reflexivity |].
    subst k2. rewrite mem_pages_add. subst k1.
    rewrite get_proc_upd, get_proc_set_kmem. cbn [mem_pages set_page_dir].
    now rewrite Hmp. }
  assert (Hsdir2 : dir_of (kmem k2) sd = dir_of (kmem k) sd).
  { unfold dir_of. change (kmem k2) with m1. cbn.
    now rewrite lookup_insert_ne by congruence. }
  assert (Hstf2 : forall ts, tables_frames (kmem k2) ts = tables_frames (kmem k) ts).
  { intros ts. now apply tables_frames_ext. }
  assert (Hkept2 : frames_kept (cd :: rest) (kmem k) (kmem k2)).
  { intros a Ha. apply not_elem_of_cons in Ha as [Ha _]. change (kmem k2) with m1.
    cbn. now rewrite lookup_insert_ne by congruence. }
  destruct (copy_pdes_spec (cd :: rest) c p Hnd H0 cd sd (seqZ 0 USER_PDES) k2)
    as (A1 & A2 & A3 & A4 & A5 & A6); auto.
  { apply NoDup_seqZ. }
  { intros i Hi. apply elem_of_seqZ in Hi. lia. }
  { intros i _. unfold dir_of. change (kmem k2) with m1. cbn.
    now rewrite lookup_insert_eq. }
  { rewrite Hsdir2, Hstf2. intros Hin. apply HS0. now right. }
  { rewrite Hsdir2, Hstf2. intros a Ha. apply HSF. now right. }
  change (pmm_free (kmem k2)) with rest in A3, A4, A6.
  rewrite Hsdir2, Hstf2, Hsp2 in A6.
  destruct (copy_pdes c p (seqZ 0 USER_PDES) k2) as [ok k3].
  cbn [fst snd] in A1, A2, A3, A4, A5, A6.
  assert (Hos3 : only_space c k k3).
  { eapply only_space_trans; [exact Hos2 | now apply only_mem_only_space]. }
  assert (Hkept3 : frames_kept (cd :: rest) (kmem k) (kmem k3))
    by (eapply frames_kept_trans; eauto).
  assert (Hcd3 : page_dir (get_proc k3 c) = cd)
    by now rewrite (only_mem_page_dir c c k2 k3 A1).
  destruct ok; cbn [negb fst snd].
  2: { split_and!; auto. discriminate. }
  rewrite Hcd3. set (m4 := pg_copy_kernel_space cd (kmem k3)).
  split_and!.
  - eapply only_space_trans; [exact Hos3|]. apply only_mem_only_space, only_mem_set_kmem.
  - eapply frames_kept_trans; [exact Hkept3|]. cbn [kmem set_kmem].
    eapply frames_kept_mono; [|apply pg_copy_kernel_space_kept].
    intros a [->|Ha]%elem_of_cons; [left | inversion Ha].
  - discriminate.
  - intros _. destruct (A6 eq_refl) as [A7 A8].
    destruct A2 as (B1 & B2 & B3). rewrite Hcd3 in B2, B3.
    assert (Hsp4 : space_frames m4 cd = space_frames (kmem k3) cd)
      by apply pg_copy_kernel_space_frames.
    split_and!.
    + unfold accounted. rewrite get_proc_set_kmem, Hcd3. cbn [kmem set_kmem].
      fold m4. rewrite Hsp4. split_and!; auto.
    + rewrite get_proc_set_kmem, B3. f_equal. rewrite A8.
      unfold space_frames, user_tables. cbn [length]. lia.
    + intros i t fl Hi Hl.
      destruct (A7 i t fl) as (t' & C1 & C2 & C3); [apply elem_of_seqZ; lia | assumption |].
      exists t'. split; [now right|]. split.
      * rewrite get_proc_set_kmem, Hcd3. cbn [kmem set_kmem]. fold m4.
        subst m4. rewrite pg_copy_kernel_space_user by lia. exact C2.
      * intros j a flj Hj Hlj. destruct (C3 j a flj Hj Hlj) as (a' & D1 & D2 & D3).
        exists a'. split; [now right|]. split; [exact D2 | exact D3].
Qed.

End CloneInit.
(** ** [proc_clone] *)

Section Clone.

Context {PF : Platform}.

(** A record that never got a directory is released without a walk. *)
Lemma proc_free_no_space r k :
  page_dir (get_proc k r) = 0 -> mem_pages (get_proc k r) = 0 ->
  proc_free r k = Ok tt (slab_free r (release_pid r k)).
Proof.
  intros Hd Hm. unfold proc_free, proc_reclaim, free_vaddr_space.
  rewrite Hd. cbn [Z.eqb]. rewrite get_proc_release_pid, Hm. reflexivity.
Qed.

Lemma procs_release_pid r k : procs (release_pid r k) = procs k.
Proof. unfold release_pid. now destruct (_ =? _). Qed.

(** What [proc_clone] does for a living source [p]: the frame allocator's
    stock [F0] is sound and the frames of the source are not in it. *)
Lemma proc_clone_spec F0 sd p k :
  pmm_free (kmem k) = F0 -> page_dir (get_proc k p) = sd ->
  NoDup F0 -> 0 ∉ F0 -> p ∉ proc_cache k ->
  0 ∉ space_frames (kmem k) sd ->
  Forall (fun a => a ∉ F0) (space_frames (kmem k) sd) ->
  match proc_clone p k with
  | Panic _ =>
      mem_pages (get_proc k p) <> wrap32 (Z.of_nat (length (space_frames (kmem k) sd)))
  | Ok c k' =>
      get_proc k' p = get_proc k p /\
      frames_kept F0 (kmem k) (kmem k') /\
      (c = 0 -> pmm_free (kmem k') ≡ₚ F0) /\
      (c <> 0 ->
       c ∈ proc_cache k /\ parent (get_proc k' c) = p /\
       mem_pages (get_proc k' c) = mem_pages (get_proc k' p) /\
       accounted F0 c k' /\
       forall i t fl, 0 <= i < USER_PDES -> dir_of (kmem k) sd !! i = Some (t, fl) ->
         exists t', t' ∈ F0 /\
           dir_of (kmem k') (page_dir (get_proc k' c)) !! i = Some (t', fl) /\
           forall j a flj, 0 <= j < NUM_PTE -> table_of (kmem k) t !! j = Some (a, flj) ->
             exists a', a' ∈ F0 /\
               table_of (kmem k') t' !! j = Some (a', flj) /\
               phys (kmem k') !! a' = Some (page_bytes (kmem k) a))
  end.
Proof.
  intros Hfree Hsd Hnd H0 Hlive HS0 HSF.
  rewrite Forall_forall in HSF.
  destruct (proc_alloc_cases k) as (c & k1 & Halloc & Hmem1 & Hprocs1 & Hc).
  assert (Hp1 : get_proc k1 p = get_proc k p).
  { unfold get_proc. now rewrite Hprocs1. }
  unfold proc_clone. rewrite Halloc.
  destruct (Z.eqb_spec c 0) as [->|Hc0].
  { split_and!; auto.
    - rewrite Hmem1. apply frames_kept_refl.
    - intros _. now rewrite Hmem1, Hfree.
    - congruence. }
  destruct (Hc Hc0) as (Hcin & pd & Hrec).
  assert (Hpc : p <> c) by (intros ->; contradiction).
  destruct (init_proc_from_proc_spec F0 sd c p k1) as (A1 & A2 & A3 & A4); auto.
  { now rewrite Hmem1. }
  { now rewrite Hp1. }
  { now rewrite Hrec. }
  { now rewrite Hmem1. }
  { now rewrite Hmem1. }
  rewrite Hmem1 in A2, A4.
  destruct (init_proc_from_proc c p k1) as [ok k2]. cbn [fst snd] in A1, A2, A3, A4.
  assert (Hp2 : get_proc k2 p = get_proc k p).
  { now rewrite (only_space_get_ne c p k1 k2 A1 Hpc). }
  destruct ok; cbn [negb].
  - destruct (A4 eq_refl) as (B1 & B2 & B3). rewrite Hp2, B2.
    destruct (Z.eqb_spec (wrap32 (Z.of_nat (length (space_frames (kmem k) sd))))
                         (mem_pages (get_proc k p))) as [He|Hne]; cbn [negb].
    + set (f := fun c0 : process => set_parent p _).
      assert (Hrecc : forall q, page_dir (f q) = page_dir q /\
                                mem_pages (f q) = mem_pages q /\ parent (f q) = p).
      { intros q. subst f. cbn. auto. }
      destruct (Hrecc (get_proc k2 c)) as (R1 & R2 & R3).
      assert (Hg : get_proc (sched_add c (upd_proc c f k2)) c = f (get_proc k2 c)).
      { unfold sched_add. cbn. unfold get_proc at 1. cbn. now rewrite lookup_insert_eq. }
      assert (Hgp : get_proc (sched_add c (upd_proc c f k2)) p = get_proc k p).
      { rewrite <- Hp2. unfold get_proc. cbn. now rewrite lookup_insert_ne by congruence. }
      split_and!; [exact Hgp | exact A2 | congruence |].
      intros _. rewrite Hg, Hgp, R1, R2, R3. split_and!; auto.
      * congruence.
      * destruct B1 as (C1 & C2 & C3). unfold accounted. rewrite Hg, R1, R2.
        split_and!; auto.
    + congruence.
  - destruct (A3 eq_refl) as [(B1 & B2 & B3 & B4)|Hacc].
    + rewrite (proc_free_no_space c k2 B1 B2).
      cbn [kmem slab_free set_proc_cache]. rewrite kmem_release_pid.
      split_and!; auto.
      * rewrite <- Hp2. unfold get_proc. cbn. now rewrite procs_release_pid.
      * intros _. now rewrite B3, Hmem1, Hfree.
      * congruence.
    + destruct (proc_free_accounted F0 c k2 Hnd H0 Hacc)
        as (k3 & Hfreeok & C1 & C2 & C3 & C4 & C5 & C6).
      rewrite Hfreeok. split_and!; auto.
      * rewrite <- Hp2. unfold get_proc at 1. rewrite C3.
        fold (get_proc (free_vaddr_space c k2) p).
        now apply (only_mem_get_ne c p k2).
      * eapply frames_kept_trans; [exact A2|].
        eapply frames_kept_mono; [|exact C2].
        intros a Ha. now apply (accounted_space_in F0 c k2).
      * congruence.
Qed.

End Clone.

(** C3: when the source's [mem_pages] is the number of its frames (one for
    the directory, one for each page table reachable from a user slot, one
    for each page mapped in those), a walk of [init_proc_from_proc] that
    succeeds leaves the clone with exactly the source's [mem_pages], so
    [proc_clone] never reaches its panic. *)
Theorem clone_count_matches_source `{PF : Platform} (k : kernel) (p : Z) :
  let F0 := pmm_free (kmem k) in
  let S := space_frames (kmem k) (page_dir (get_proc k p)) in
  NoDup F0 -> 0 ∉ F0 -> p ∉ proc_cache k ->
  0 ∉ S -> Forall (fun a => a ∉ F0) S ->
  mem_pages (get_proc k p) = Z.of_nat (length S) ->
  mem_pages (get_proc k p) < 2 ^ 32 ->
  (forall c k1 k2,
     proc_alloc k = Ok c k1 -> c <> 0 ->
     init_proc_from_proc c p k1 = (true, k2) ->
     mem_pages (get_proc k2 c) = mem_pages (get_proc k2 p)) /\
  (forall k', proc_clone p k <> Panic k').
Proof.
  intros F0 S Hnd H0 Hlive HS0 HSF Hcnt Hlt.
  assert (Hwrap : wrap32 (Z.of_nat (length S)) = mem_pages (get_proc k p)).
  { rewrite Hcnt. apply wrap32_small. lia. }
  split.
  - intros c k1 k2 Halloc Hc0 Hinit.
    destruct (proc_alloc_cases k) as (c' & k1' & Halloc' & Hmem1 & Hprocs1 & Hc).
    rewrite Halloc in Halloc'. injection Halloc' as <- <-.
    destruct (Hc Hc0) as (Hcin & pd & Hrec).
    assert (Hpc : p <> c) by (intros ->; contradiction).
    assert (Hp1 : get_proc k1 p = get_proc k p).
    { unfold get_proc. now rewrite Hprocs1. }
    rewrite Forall_forall in HSF.
    destruct (init_proc_from_proc_spec F0 (page_dir (get_proc k p)) c p k1)
      as (A1 & _ & _ & A4); auto.
    { now rewrite Hmem1. }
    { now rewrite Hp1. }
    { now rewrite Hrec. }
    { now rewrite Hmem1. }
    { now rewrite Hmem1. }
    rewrite Hinit, Hmem1 in A4. cbn [fst snd] in A1, A4.
    destruct (A4 eq_refl) as (_ & B2 & _).
    rewrite Hinit in A1. cbn [snd] in A1.
    rewrite B2, (only_space_get_ne c p k1 k2 A1 Hpc), Hp1. exact Hwrap.
  - intros k' Hpanic.
    pose proof (proc_clone_spec F0 (page_dir (get_proc k p)) p k
                  eq_refl eq_refl Hnd H0 Hlive HS0 HSF) as Hspec.
    rewrite Hpanic in Hspec. fold S in Hspec. congruence.
Qed.

Lemma clone_count_matches_source_witness :
  exists c k', proc_clone (PF := demo_platform) 100 demo_kernel = Ok c k' /\
               mem_pages (get_proc k' c) = 6.
Proof.
  assert (H : forall k', proc_clone (PF := demo_platform) 100 demo_kernel <> Panic k').
  { apply (clone_count_matches_source (PF := demo_platform) demo_kernel 100).
    - by_compute.
    - by_compute.
    - by_compute.
    - by_compute.
    - by_compute.
    - vm_compute. reflexivity.
    - vm_compute. reflexivity. }
  eexists _, _. split; vm_compute; reflexivity.
Defined.

(** C2: for a living source whose count is right, [proc_clone] returns.
    Either way the source keeps its record and every frame outside the
    allocator's stock keeps what it holds.  If the result is [NULL], every
    frame is back with the allocator.  Otherwise the clone's [parent] is the
    source, the clone's frames are pairwise different frames taken from the
    allocator, and every page the source maps at a user directory slot and
    table slot is mapped at the same slots in the clone, with the same
    flags, to another frame that holds the same bytes; a store to the
    clone's frame leaves the source's page as it is. *)
Theorem proc_clone_copies_user_space `{PF : Platform} (k : kernel) (p : Z) :
  let F0 := pmm_free (kmem k) in
  let sd := page_dir (get_proc k p) in
  let S := space_frames (kmem k) sd in
  NoDup F0 -> 0 ∉ F0 -> p ∉ proc_cache k ->
  0 ∉ S -> Forall (fun a => a ∉ F0) S ->
  mem_pages (get_proc k p) = Z.of_nat (length S) ->
  mem_pages (get_proc k p) < 2 ^ 32 ->
  exists c k',
    proc_clone p k = Ok c k' /\
    get_proc k' p = get_proc k p /\
    frames_kept F0 (kmem k) (kmem k') /\
    space_frames (kmem k') sd = S /\
    (c = 0 -> pmm_free (kmem k') ≡ₚ F0) /\
    (c <> 0 ->
     parent (get_proc k' c) = p /\
     NoDup (space_frames (kmem k') (page_dir (get_proc k' c))) /\
     (forall a, a ∈ space_frames (kmem k') (page_dir (get_proc k' c)) ->
                a ∈ F0 /\ (a ∉ S) /\ (a ∉ pmm_free (kmem k'))) /\
     forall i t fl, 0 <= i < USER_PDES -> dir_of (kmem k) sd !! i = Some (t, fl) ->
       exists t', t' ∈ F0 /\ t' <> t /\
         dir_of (kmem k') (page_dir (get_proc k' c)) !! i = Some (t', fl) /\
         forall j a flj, 0 <= j < NUM_PTE -> table_of (kmem k) t !! j = Some (a, flj) ->
           exists a', a' ∈ F0 /\ a' <> a /\
             table_of (kmem k') t' !! j = Some (a', flj) /\
             page_bytes (kmem k') a' = page_bytes (kmem k) a /\
             page_bytes (kmem k') a = page_bytes (kmem k) a /\
             forall bytes,
               page_bytes (write_page a' bytes (kmem k')) a = page_bytes (kmem k) a).
Proof.
  intros F0 sd S Hnd H0 Hlive HS0 HSF Hcnt Hlt.
  pose proof (proc_clone_spec F0 sd p k eq_refl eq_refl Hnd H0 Hlive HS0 HSF) as Hspec.
  rewrite Forall_forall in HSF.
  destruct (proc_clone p k) as [c k'|k'].
  2: { exfalso. apply Hspec. fold S. rewrite Hcnt. symmetry. apply wrap32_small. lia. }
  destruct Hspec as (A1 & A2 & A3 & A4).
  exists c, k'. split_and!; auto.
  - apply space_frames_ext.
    + apply A2, HSF. left.
    + intros t Ht. apply A2, HSF. now apply user_tables_space.
  - intros Hc0. destruct (A4 Hc0) as (B1 & B2 & B3 & B4 & B5).
    pose proof (accounted_NoDup F0 c Hnd k' B4) as Hnd'.
    split_and!; auto.
    + now apply NoDup_app in Hnd' as (? & _).
    + intros a Ha.
      pose proof (accounted_space_in F0 c k' a B4 Ha) as HaF.
      split_and!; auto.
      * intros HaS. now apply (HSF a).
      * intros Hin. apply (accounted_disjoint F0 c Hnd k' a B4 Ha Hin).
    + intros i t fl Hi Hl.
      destruct (B5 i t fl Hi Hl) as (t' & C1 & C2 & C3).
      assert (HtS : t ∈ user_tables (kmem k) sd).
      { apply slot_addrs_elem. exists i, fl. split; [apply elem_of_seqZ; lia | assumption]. }
      exists t'. split_and!; auto.
      { intros ->. apply (HSF t); [now apply user_tables_space | assumption]. }
      intros j a flj Hj Hlj.
      destruct (C3 j a flj Hj Hlj) as (a' & D1 & D2 & D3).
      assert (HaS : a ∈ S).
      { right. apply (tables_frames_page _ _ t j a flj); auto. }
      assert (Hne : a' <> a) by (intros ->; now apply (HSF a)).
      exists a'. split_and!; auto.
      * unfold page_bytes at 1. now rewrite D3.
      * apply (frames_kept_bytes F0); auto.
      * intros bytes. unfold write_page, page_bytes at 1. cbn.
        rewrite lookup_insert_ne by assumption.
        apply (frames_kept_bytes F0); auto.
Qed.

Lemma proc_clone_copies_user_space_witness :
  exists c k', proc_clone (PF := demo_platform) 100 demo_kernel = Ok c k' /\
               get_proc k' 100 = get_proc demo_kernel 100.
Proof.
  destruct (proc_clone_copies_user_space (PF := demo_platform) demo_kernel 100)
    as (c & k' & A1 & A2 & _).
  - by_compute.
  - by_compute.
  - by_compute.
  - by_compute.
  - by_compute.
  - vm_compute. reflexivity.
  - vm_compute. reflexivity.
  - exists c, k'. split; assumption.
Defined.
(** ** The two stack pages *)

Section Stacks.

Context {PF : Platform}.

(** What the layout of an address space needs from the constants: pages and
    tables are not empty, a table has at most 1024 slots, [KERNEL_BASE] is
    the start of a directory slot, and the stacks fit below it. *)
Lemma stack_pages_layout :
  0 < PAGE_SIZE -> 0 < NUM_PTE <= 1024 ->
  KERNEL_BASE mod (NUM_PTE * PAGE_SIZE) = 0 ->
  1025 * PAGE_SIZE <= KERNEL_BASE < 2 ^ 32 ->
  let kpage := wrap32 (PROC_KERNEL_STACK - PAGE_SIZE) in
  let upage := wrap32 (PROC_USER_STACK - PAGE_SIZE) in
  kpage = KERNEL_BASE - 17 * PAGE_SIZE /\
  upage = KERNEL_BASE - 1025 * PAGE_SIZE /\
  pde_index kpage = kpage / (NUM_PTE * PAGE_SIZE) /\
  pde_index upage = upage / (NUM_PTE * PAGE_SIZE) /\
  0 <= pde_index upage /\ pde_index upage < pde_index kpage /\
  pde_index kpage < USER_PDES.
Proof.
  intros HP HN Hal HKB kpage upage.
  assert (HS : 0 < NUM_PTE * PAGE_SIZE) by nia.
  assert (Hk : kpage = KERNEL_BASE - 17 * PAGE_SIZE).
  { subst kpage. unfold PROC_KERNEL_STACK.
    rewrite (wrap32_small (KERNEL_BASE - 16 * PAGE_SIZE)) by lia.
    rewrite wrap32_small by lia. lia. }
  assert (Hu : upage = KERNEL_BASE - 1025 * PAGE_SIZE).
  { subst upage. unfold PROC_USER_STACK.
    rewrite (wrap32_small (KERNEL_BASE - 1024 * PAGE_SIZE)) by lia.
    rewrite wrap32_small by lia. lia. }
  assert (Hkq : pde_index kpage = kpage / (NUM_PTE * PAGE_SIZE))
    by (unfold pde_index; apply Z.quot_div_nonneg; lia).
  assert (Huq : pde_index upage = upage / (NUM_PTE * PAGE_SIZE))
    by (unfold pde_index; apply Z.quot_div_nonneg; lia).
  assert (Hc : USER_PDES = KERNEL_BASE / (NUM_PTE * PAGE_SIZE))
    by (unfold USER_PDES; apply Z.quot_div_nonneg; lia).
  assert (Hnz : NUM_PTE * PAGE_SIZE <> 0) by lia.
  pose proof (Z.div_mod KERNEL_BASE (NUM_PTE * PAGE_SIZE) Hnz) as Hdm.
  rewrite Hal, Z.add_0_r, <- Hc in Hdm.
  split_and!; auto.
  - rewrite Huq. apply Z.div_pos; lia.
  - rewrite Hkq, Huq. destruct (Z_le_gt_dec NUM_PTE 1008) as [Hs|Hs].
    + assert (upage / (NUM_PTE * PAGE_SIZE) + 1 <= kpage / (NUM_PTE * PAGE_SIZE)); [|lia].
      rewrite <- (Z.div_add upage 1 (NUM_PTE * PAGE_SIZE)) by lia.
      apply Z.div_le_mono; nia.
    + assert (upage / (NUM_PTE * PAGE_SIZE) < USER_PDES - 1)
        by (apply Z.div_lt_upper_bound; nia).
      assert (USER_PDES - 1 <= kpage / (NUM_PTE * PAGE_SIZE))
        by (apply Z.div_le_lower_bound; nia).
      lia.
  - rewrite Hkq. apply Z.div_lt_upper_bound; nia.
Qed.

End Stacks.

(** C8: the page the kernel stack is mapped at, [PROC_KERNEL_STACK -
    PAGE_SIZE], which is [KERNEL_BASE - 17 * PAGE_SIZE], and the page the
    user stack is mapped at, [PROC_USER_STACK - PAGE_SIZE], which is
    [KERNEL_BASE - 1025 * PAGE_SIZE], have different page-directory indices
    [addr / (NUM_PTE * PAGE_SIZE)]: the stacks share no directory entry.
    The constants are those of a two-level layout with [KERNEL_BASE] at the
    start of a directory slot. *)
Theorem stacks_in_distinct_directory_slots `{PF : Platform} :
  0 < PAGE_SIZE -> 0 < NUM_PTE <= 1024 ->
  KERNEL_BASE mod (NUM_PTE * PAGE_SIZE) = 0 ->
  1025 * PAGE_SIZE <= KERNEL_BASE < 2 ^ 32 ->
  let kpage := wrap32 (PROC_KERNEL_STACK - PAGE_SIZE) in
  let upage := wrap32 (PROC_USER_STACK - PAGE_SIZE) in
  kpage = KERNEL_BASE - 17 * PAGE_SIZE /\
  upage = KERNEL_BASE - 1025 * PAGE_SIZE /\
  kpage / (NUM_PTE * PAGE_SIZE) <> upage / (NUM_PTE * PAGE_SIZE) /\
  pde_index kpage <> pde_index upage.
Proof.
  intros HP HN Hal HKB kpage upage.
  destruct (stack_pages_layout HP HN Hal HKB) as (H1 & H2 & H3 & H4 & H5 & H6 & H7).
  fold kpage in H1, H3, H6, H7. fold upage in H2, H4, H5, H6.
  split_and!; auto; lia.
Qed.

Lemma stacks_in_distinct_directory_slots_witness :
  pde_index (PF := demo_platform)
    (wrap32 (PROC_KERNEL_STACK (PF := demo_platform) - 4096)) = 767 /\
  pde_index (PF := demo_platform)
    (wrap32 (PROC_USER_STACK (PF := demo_platform) - 4096)) = 766 /\
  pde_index (PF := demo_platform)
    (wrap32 (PROC_KERNEL_STACK (PF := demo_platform) - 4096))
  <> pde_index (PF := demo_platform)
       (wrap32 (PROC_USER_STACK (PF := demo_platform) - 4096)).
Proof.
  split; [reflexivity|]. split; [reflexivity|].
  apply (stacks_in_distinct_directory_slots (PF := demo_platform));
    [reflexivity | split; [reflexivity | discriminate] | reflexivity
    | split; [discriminate | reflexivity]].
Defined.
(** ** The system-call gate *)

Section Idt.

Context {PF : Platform}.

Lemma idt_of_only_mem r k k' : only_mem r k k' -> idt_of k' = idt_of k.
Proof. intros (_ & _ & _ & H1 & H2 & _). unfold idt_of. now rewrite H1, H2. Qed.

Lemma free_ptes_idt r tab ptes : forall k,
  idt_of (foldl (free_pte r tab) k ptes) = idt_of k.
Proof.
  induction ptes as [|j ptes IH]; intros k; [reflexivity|].
  cbn [foldl]. rewrite IH. unfold free_pte.
  destruct (vmm_unmap_page_index _ _ _) as [a m1]. now destruct (a =? 0).
Qed.

Lemma free_pdes_idt r dir pdes : forall k,
  idt_of (foldl (free_pde r dir) k pdes) = idt_of k.
Proof.
  induction pdes as [|i pdes IH]; intros k; [reflexivity|].
  cbn [foldl]. rewrite IH. unfold free_pde.
  destruct (vmm_unmap_page_table_index _ _ _) as [t m1].
  destruct (t =? 0); [reflexivity|].
  transitivity (idt_of (foldl (free_pte r t) (set_kmem m1 k) (seqZ 0 NUM_PTE)));
    [reflexivity | now rewrite free_ptes_idt].
Qed.

Lemma proc_reclaim_idt r k : idt_of (proc_reclaim r k) = idt_of k.
Proof.
  unfold proc_reclaim.
  transitivity (idt_of (free_vaddr_space r k)).
  { unfold release_pid. now destruct (_ =? _). }
  unfold free_vaddr_space. destruct (_ =? _); [reflexivity|].
  etransitivity; [|apply (free_pdes_idt r (page_dir (get_proc k r)) (seqZ 0 USER_PDES) k)].
  reflexivity.
Qed.

Lemma proc_free_idt r k : idt_of (outcome_state (proc_free r k)) = idt_of k.
Proof.
  unfold proc_free. destruct (_ =? _); cbn [outcome_state].
  - transitivity (idt_of (proc_reclaim r k)); [reflexivity | apply proc_reclaim_idt].
  - apply proc_reclaim_idt.
Qed.

Lemma proc_alloc_idt k : idt_of (outcome_state (proc_alloc k)) = idt_of k.
Proof.
  unfold proc_alloc, slab_alloc.
  destruct (proc_cache k) as [|r rest]; [reflexivity|].
  destruct (r =? 0); [reflexivity|].
  destruct (alloc_pid _) as [p st]. destruct (_ =? -1); [|reflexivity].
  match goal with |- context [proc_free ?r ?k'] =>
    pose proof (proc_free_idt r k') as H; destruct (proc_free r k') end;
    exact H.
Qed.

Lemma alloc_proc_stacks_idt r k : idt_of (alloc_proc_stacks r k).2 = idt_of k.
Proof.
  unfold alloc_proc_stacks.
  destruct (pmm_alloc_page_address _) as [s1 m1]. destruct (s1 =? 0); [reflexivity|].
  destruct (vmm_map _ _ _ _ _) as [e1 m2]. destruct (e1 <? 0); [reflexivity|].
  destruct (pmm_alloc_page_address _) as [s2 m3]. destruct (s2 =? 0); [reflexivity|].
  destruct (vmm_map _ _ _ _ _) as [e2 m4]. now destruct (e2 <? 0).
Qed.

Lemma init_proc_from_elf_idt loader r elf size k :
  idt_of (init_proc_from_elf loader r elf size k).2 = idt_of k.
Proof.
  unfold init_proc_from_elf.
  destruct (vmm_alloc_vaddr_space _) as [d m1]. destruct (_ =? 0); [reflexivity|].
  destruct (loader _ _ _ _) as [[ok p'] m']. destruct ok; [|reflexivity].
  cbn [negb].
  match goal with |- context [alloc_proc_stacks ?r ?k'] =>
    pose proof (alloc_proc_stacks_idt r k') as H; destruct (alloc_proc_stacks r k') as [b k4] end.
  destruct b; exact H.
Qed.

Lemma copy_ptes_idt c st ct ptes : forall k,
  idt_of (copy_ptes c st ct ptes k).2 = idt_of k.
Proof.
  induction ptes as [|j ptes IH]; intros k; [reflexivity|].
  cbn [copy_ptes]. destruct (vmm_get_page_index _ _ _) as [a fl].
  destruct (a =? 0); [apply IH|].
  destruct (pmm_alloc_page_address _) as [a' m1]. destruct (a' =? 0); [reflexivity|].
  now rewrite IH.
Qed.

Lemma copy_pdes_idt c p pdes : forall k,
  idt_of (copy_pdes c p pdes k).2 = idt_of k.
Proof.
  induction pdes as [|i pdes IH]; intros k; [reflexivity|].
  cbn [copy_pdes]. destruct (vmm_get_page_table_index _ _ _) as [t fl].
  destruct (t =? 0); [apply IH|].
  destruct (vmm_alloc_page_table _) as [t' m1]. destruct (t' =? 0); [reflexivity|].
  match goal with |- context [copy_ptes ?a ?b ?c ?d ?k'] =>
    pose proof (copy_ptes_idt a b c d k') as H; destruct (copy_ptes a b c d k') as [ok k3] end.
  destruct ok; cbn [negb]; [now rewrite IH | exact H].
Qed.

Lemma init_proc_from_proc_idt c p k :
  idt_of (init_proc_from_proc c p k).2 = idt_of k.
Proof.
  unfold init_proc_from_proc.
  destruct (vmm_alloc_vaddr_space _) as [d m1]. destruct (_ =? 0); [reflexivity|].
  match goal with |- context [copy_pdes ?a ?b ?c ?k'] =>
    pose proof (copy_pdes_idt a b c k') as H; destruct (copy_pdes a b c k') as [ok k3] end.
  destruct ok; exact H.
Qed.

Lemma proc_exec_idt loader elf size k :
  idt_of (outcome_state (proc_exec loader elf size k)) = idt_of k.
Proof.
  unfold proc_exec. pose proof (proc_alloc_idt k) as Ha.
  destruct (proc_alloc k) as [r k1|k1]; [|exact Ha]. cbn [outcome_state] in Ha.
  destruct (r =? 0); [exact Ha|].
  pose proof (init_proc_from_elf_idt loader r elf size k1) as Hi.
  destruct (init_proc_from_elf loader r elf size k1) as [ok k2]. cbn [snd] in Hi.
  destruct ok; cbn [negb].
  - rewrite <- Ha, <- Hi. reflexivity.
  - pose proof (proc_free_idt r k2) as Hf.
    destruct (proc_free r k2); cbn [outcome_state] in *; congruence.
Qed.

Lemma proc_clone_idt p k :
  idt_of (outcome_state (proc_clone p k)) = idt_of k.
Proof.
  unfold proc_clone. pose proof (proc_alloc_idt k) as Ha.
  destruct (proc_alloc k) as [r k1|k1]; [|exact Ha]. cbn [outcome_state] in Ha.
  destruct (r =? 0); [exact Ha|].
  pose proof (init_proc_from_proc_idt r p k1) as Hi.
  destruct (init_proc_from_proc r p k1) as [ok k2]. cbn [snd] in Hi.
  destruct ok; cbn [negb].
  - destruct (negb _); cbn [outcome_state]; rewrite <- Ha, <- Hi; reflexivity.
  - pose proof (proc_free_idt r k2) as Hf.
    destruct (proc_free r k2); cbn [outcome_state] in *; congruence.
Qed.

End Idt.

(** C9, as the code has it: the gate for the system-call interrupt
    (vector [0x80]) is installed by [proc_initialize], once per call, with
    the kernel code selector, [syscall_entry], an interrupt gate and
    privilege level 3.  Creating a process, by [proc_exec] or by
    [proc_clone], writes no IDT entry, the first time or later. *)
Theorem syscall_gate_installed_by_proc_initialize `{PF : Platform}
    (loader : list Z -> Z -> process -> mem -> bool * process * mem)
    (elf : list Z) (size proc : Z) (k : kernel) :
  idt_log (proc_initialize k) = SYSCALL_INT_NUM :: idt_log k /\
  idt (proc_initialize k) !! SYSCALL_INT_NUM
  = Some (IdtGate KERNEL_CODE_SELECTOR syscall_entry IDT_TYPE_INT DPL_3) /\
  idt_of (outcome_state (proc_exec loader elf size k)) = idt_of k /\
  idt_of (outcome_state (proc_clone proc k)) = idt_of k.
Proof.
  split_and!.
  - reflexivity.
  - unfold proc_initialize, slab_create_kmem_cache, idt_set_entry. simpl.
    apply lookup_insert_eq.
  - apply proc_exec_idt.
  - apply proc_clone_idt.
Qed.

(** C9 as stated fails.  [proc_initialize] has written the gate while no
    process exists; the [proc_exec] that follows creates the first process
    and writes no IDT entry. *)
Lemma syscall_gate_not_installed_at_first_creation :
  let k0 := proc_initialize (PF := demo_platform) demo_boot in
  procs k0 = ∅ /\ run_queue k0 = [] /\ idt_log k0 = [128] /\
  exists k1, proc_exec (PF := demo_platform) demo_loader [127; 69] 2 k0 = Ok true k1 /\
             run_queue k1 = [3225419776] /\ idt_log k1 = idt_log k0.
Proof.
  split; [reflexivity|]. split; [reflexivity|]. split; [reflexivity|].
  eexists. split; [vm_compute; reflexivity|]. split; reflexivity.
Qed.
(** ** The builder: [alloc_proc_stacks], [init_proc_from_elf], [proc_exec] *)

Lemma slot_addrs_inj (tb : gmap Z pte) slots i i' a fl a' fl' :
  NoDup (slot_addrs tb slots) -> i ∈ slots -> i' ∈ slots -> i <> i' ->
  tb !! i = Some (a, fl) -> tb !! i' = Some (a', fl') -> a <> a'.
Proof.
  intros Hnd Hi Hi' Hne Hl Hl'.
  induction slots as [|x slots IH]; [inversion Hi|].
  rewrite slot_addrs_cons in Hnd.
  apply elem_of_cons in Hi as [->|Hi]; apply elem_of_cons in Hi' as [->|Hi'].
  - congruence.
  - rewrite Hl in Hnd. apply NoDup_cons in Hnd as [Hnin _]. intros ->.
    apply Hnin. apply slot_addrs_elem. eauto.
  - rewrite Hl' in Hnd. apply NoDup_cons in Hnd as [Hnin _]. intros ->.
    apply Hnin. apply slot_addrs_elem. eauto.
  - apply IH; auto. destruct (tb !! x); [now apply NoDup_cons in Hnd as [_ ?] | assumption].
Qed.

Section Builder.

Context {PF : Platform}.

Variable F0 : list Z.
Hypothesis F0_NoDup : NoDup F0.
Hypothesis F0_nonzero : 0 ∉ F0.

(** The count stays right when [k'] has taken the frames [news] from the
    allocator, mapped them and counted them. *)
Lemma accounted_grow r k k' news :
  accounted F0 r k ->
  page_dir (get_proc k' r) = page_dir (get_proc k r) ->
  space_frames (kmem k') (page_dir (get_proc k r))
  ≡ₚ news ++ space_frames (kmem k) (page_dir (get_proc k r)) ->
  pmm_free (kmem k) ≡ₚ news ++ pmm_free (kmem k') ->
  mem_pages (get_proc k' r)
  = wrap32 (mem_pages (get_proc k r) + Z.of_nat (length news)) ->
  accounted F0 r k'.
Proof.
  intros (Hd & Hperm & Hcnt) Hpd Hsp Hfree Hmp. unfold accounted.
  rewrite Hpd. split_and!.
  - assumption.
  - rewrite Hsp, <- Hperm, Hfree. solve_Permutation.
  - rewrite Hmp, Hcnt, wrap32_add_l, Hsp, length_app. f_equal. lia.
Qed.

Lemma accounted_user_table r k i t fl :
  accounted F0 r k -> 0 <= i < USER_PDES ->
  dir_of (kmem k) (page_dir (get_proc k r)) !! i = Some (t, fl) ->
  t ∈ user_tables (kmem k) (page_dir (get_proc k r)) /\ t <> 0 /\
  t ∉ pmm_free (kmem k).
Proof.
  intros Hacc Hi Hl.
  assert (Hin : t ∈ user_tables (kmem k) (page_dir (get_proc k r))).
  { apply slot_addrs_elem. exists i, fl. split; [apply elem_of_seqZ; lia | assumption]. }
  split_and!; [assumption | |].
  - intros ->. apply F0_nonzero, (accounted_space_in F0 r k); [assumption|].
    now apply user_tables_space.
  - intros Hfree. apply (accounted_disjoint F0 r F0_NoDup k t Hacc); [|assumption].
    now apply user_tables_space.
Qed.

(** [vmm_map] of a frame just taken from the allocator, at a page that is
    not mapped. *)
Lemma vmm_map_accounted r k vaddr flag a rest :
  accounted F0 r k ->
  pmm_free (kmem k) = a :: rest ->
  0 <= pde_index vaddr < USER_PDES -> 0 <= pte_index vaddr < NUM_PTE ->
  page_mapped (kmem k) (page_dir (get_proc k r)) vaddr = false ->
  let res := vmm_map (page_dir (get_proc k r)) vaddr a flag
                     (set_pmm_free rest (kmem k)) in
  ((res.1 <? 0) = true ->
   accounted F0 r (set_kmem (pmm_free_page_address a res.2) k)) /\
  ((res.1 <? 0) = false ->
   accounted F0 r (add_mem_pages r (res.1 + 1) (set_kmem res.2 k)) /\
   forall v, 0 <= pde_index v < USER_PDES -> pde_index v <> pde_index vaddr ->
     page_mapped (kmem k) (page_dir (get_proc k r)) v = false ->
     page_mapped res.2 (page_dir (get_proc k r)) v = false).
Proof.
  intros Hacc Hfree Hpde Hpte Hunm res. subst res.
  set (d := page_dir (get_proc k r)) in *.
  set (m1 := set_pmm_free rest (kmem k)).
  pose proof (accounted_NoDup F0 r F0_NoDup k Hacc) as Hnd. fold d in Hnd.
  assert (Hut : NoDup (user_tables (kmem k) d)).
  { apply NoDup_app in Hnd as (Hnd & _). now apply space_frames_tables_NoDup. }
  unfold vmm_map, vmm_get_page_table_index.
  change (dir_of m1 d) with (dir_of (kmem k) d).
  unfold page_mapped in Hunm.
  destruct (dir_of (kmem k) d !! pde_index vaddr) as [[t fl]|] eqn:Hd;
    cbn [default from_option id].
  - destruct (table_of (kmem k) t !! pte_index vaddr) eqn:Ht; [discriminate|].
    destruct (accounted_user_table r k _ t fl Hacc Hpde Hd) as (Htin & Ht0 & _).
    fold d in Htin.
    rewrite (proj2 (Z.eqb_neq t 0) Ht0). cbn [fst snd Z.ltb Z.compare].
    split; [discriminate|]. intros _.
    set (m2 := vmm_map_page_index t (pte_index vaddr) a flag m1).
    split.
    + apply (accounted_grow r k _ [a]); auto.
      * now rewrite page_dir_add, get_proc_set_kmem.
      * fold d. change (kmem (add_mem_pages r (0 + 1) (set_kmem m2 k))) with m2.
        apply (space_frames_map_page _ _ _ t (pte_index vaddr) a flag); auto.
      * now rewrite Hfree.
      * now rewrite mem_pages_add, get_proc_set_kmem.
    + intros v Hv Hne Hvun. unfold page_mapped in *.
      change (dir_of m2 d) with (dir_of (kmem k) d).
      destruct (dir_of (kmem k) d !! pde_index v) as [[t2 fl2]|] eqn:Hd2; [|reflexivity].
      assert (Hne2 : t2 <> t).
      { apply (slot_addrs_inj (dir_of (kmem k) d) (seqZ 0 USER_PDES)
                 (pde_index v) (pde_index vaddr) t2 fl2 t fl); auto;
          apply elem_of_seqZ; lia. }
      replace (table_of m2 t2) with (table_of (kmem k) t2); [exact Hvun|].
      unfold table_of. cbn. now rewrite lookup_insert_ne by congruence.
  - cbn [Z.eqb]. unfold vmm_alloc_page_table, pmm_alloc_page_address.
    change (pmm_free m1) with rest.
    destruct rest as [|t' rest'].
    { cbn [Z.eqb fst snd Z.ltb Z.compare Z.opp]. split; [|discriminate]. intros _.
      destruct Hacc as (B1 & B2 & B3). unfold accounted. split_and!; auto.
      cbn. fold d. fold d in B2. now rewrite <- B2, Hfree. }
    assert (Ht'F : t' ∈ pmm_free (kmem k)) by (rewrite Hfree; right; left).
    assert (Ht'0 : t' <> 0).
    { intros ->. now apply F0_nonzero, (accounted_free_in F0 r k). }
    repeat first [rewrite (proj2 (Z.eqb_neq t' 0) Ht'0) | progress cbn beta iota zeta].
    cbn [fst snd Z.ltb Z.compare].
    split; [discriminate|]. intros _.
    set (m1' := set_page_tabs (<[t' := ∅]> (page_tabs (set_pmm_free rest' m1)))
                              (set_pmm_free rest' m1)).
    set (mt := vmm_map_page_table_index d (pde_index vaddr) t' flag m1').
    set (m2 := vmm_map_page_index t' (pte_index vaddr) a flag mt).
    assert (Hfresh : t' ∉ user_tables (kmem k) d).
    { intros Hin. apply (accounted_disjoint F0 r F0_NoDup k t' Hacc); [|assumption].
      now apply user_tables_space. }
    destruct (space_frames_map_table (kmem k) mt d (pde_index vaddr) t' flag)
      as (Hsp & Hutt & Hempty); auto.
    assert (Hsp2 : space_frames m2 d ≡ₚ a :: space_frames mt d).
    { apply (space_frames_map_page _ _ _ t' (pte_index vaddr) a flag); auto.
      - rewrite Hutt. left.
      - rewrite Hutt. now constructor.
      - rewrite Hempty. apply lookup_empty. }
    split.
    + apply (accounted_grow r k _ [a; t']); auto.
      * now rewrite page_dir_add, get_proc_set_kmem.
      * fold d. change (kmem (add_mem_pages r (1 + 1) (set_kmem m2 k))) with m2.
        rewrite Hsp2, Hsp. reflexivity.
      * now rewrite Hfree.
      * now rewrite mem_pages_add, get_proc_set_kmem.
    + intros v Hv Hne Hvun. unfold page_mapped in *.
      replace (dir_of m2 d !! pde_index v) with (dir_of (kmem k) d !! pde_index v).
      2: { unfold dir_of at 2. cbn. rewrite lookup_insert_eq. cbn.
           now rewrite lookup_insert_ne by congruence. }
      destruct (dir_of (kmem k) d !! pde_index v) as [[t2 fl2]|] eqn:Hd2; [|reflexivity].
      destruct (accounted_user_table r k _ t2 fl2 Hacc Hv Hd2) as (_ & _ & Hnf).
      assert (Hne2 : t2 <> t') by (intros ->; contradiction).
      replace (table_of m2 t2) with (table_of (kmem k) t2); [exact Hvun|].
      unfold table_of. cbn. now rewrite !lookup_insert_ne by congruence.
Qed.

Lemma accounted_set_kmem_same r k :
  accounted F0 r k -> accounted F0 r (set_kmem (kmem k) k).
Proof. intros (B1 & B2 & B3). unfold accounted. split_and!; assumption. Qed.

Lemma pte_index_range v : 0 < PAGE_SIZE -> 0 < NUM_PTE -> 0 <= v -> 0 <= pte_index v < NUM_PTE.
Proof.
  intros HP HN Hv. unfold pte_index.
  rewrite Z.quot_div_nonneg by lia.
  assert (0 <= v / PAGE_SIZE) by (apply Z.div_pos; lia).
  rewrite Z.rem_mod_nonneg by lia. apply Z.mod_pos_bound. lia.
Qed.

Lemma alloc_proc_stacks_accounted r k :
  layout_ok -> accounted F0 r k ->
  stack_pages_free (kmem k) (page_dir (get_proc k r)) ->
  accounted F0 r (alloc_proc_stacks r k).2.
Proof.
  intros (HP & HN & Hal & HKB) Hacc [Hkfree Hufree].
  destruct (stack_pages_layout HP HN Hal HKB) as (L1 & L2 & L3 & L4 & L5 & L6 & L7).
  set (kpage := wrap32 (PROC_KERNEL_STACK - PAGE_SIZE)) in *.
  set (upage := wrap32 (PROC_USER_STACK - PAGE_SIZE)) in *.
  assert (Hkpte : 0 <= pte_index kpage < NUM_PTE) by (apply pte_index_range; lia).
  assert (Hupte : 0 <= pte_index upage < NUM_PTE) by (apply pte_index_range; lia).
  unfold alloc_proc_stacks, pmm_alloc_page_address at 1.
  destruct (pmm_free (kmem k)) as [|s1 rest1] eqn:Hfree1.
  { cbn [Z.eqb fst snd]. now apply accounted_set_kmem_same. }
  assert (Hs1 : s1 <> 0).
  { intros ->. apply F0_nonzero, (accounted_free_in F0 r k); [assumption|].
    rewrite Hfree1. left. }
  rewrite (proj2 (Z.eqb_neq s1 0) Hs1).
  fold kpage.
  destruct (vmm_map_accounted r k kpage VMM_WRITABLE s1 rest1 Hacc Hfree1)
    as [A1 A2]; auto; [lia|].
  destruct (vmm_map (page_dir (get_proc k r)) kpage s1 VMM_WRITABLE
                    (set_pmm_free rest1 (kmem k))) as [e1 m2].
  cbn [fst snd] in A1, A2.
  destruct (e1 <? 0) eqn:He1; [exact (A1 eq_refl)|].
  destruct (A2 eq_refl) as [Hacc2 Hkeep]. clear A1 A2.
  set (k2 := add_mem_pages r (e1 + 1) (set_kmem m2 k)) in *.
  assert (Hpd2 : page_dir (get_proc k2 r) = page_dir (get_proc k r)).
  { subst k2. now rewrite page_dir_add, get_proc_set_kmem. }
  assert (Hufree2 : page_mapped (kmem k2) (page_dir (get_proc k2 r)) upage = false).
  { rewrite Hpd2. apply Hkeep; auto; lia. }
  unfold pmm_alloc_page_address.
  destruct (pmm_free (kmem k2)) as [|s2 rest2] eqn:Hfree2.
  { cbn [Z.eqb fst snd]. now apply accounted_set_kmem_same. }
  assert (Hs2 : s2 <> 0).
  { intros ->. apply F0_nonzero, (accounted_free_in F0 r k2); [assumption|].
    rewrite Hfree2. left. }
  rewrite (proj2 (Z.eqb_neq s2 0) Hs2).
  fold upage.
  destruct (vmm_map_accounted r k2 upage (Z.lor VMM_WRITABLE VMM_USER) s2 rest2
              Hacc2 Hfree2) as [A1 A2]; auto; [rewrite L4 in *; lia|].
  destruct (vmm_map (page_dir (get_proc k2 r)) upage s2 (Z.lor VMM_WRITABLE VMM_USER)
                    (set_pmm_free rest2 (kmem k2))) as [e2 m4].
  cbn [fst snd] in A1, A2.
  destruct (e2 <? 0) eqn:He2; [exact (A1 eq_refl)|].
  destruct (A2 eq_refl) as [Hacc4 _]. cbn [snd].
  destruct Hacc4 as (B1 & B2 & B3). unfold accounted.
  rewrite get_proc_upd. cbn [page_dir mem_pages set_user_stack set_kernel_stack kmem upd_proc set_procs].
  split_and!; assumption.
Qed.

Variable loader : list Z -> Z -> process -> mem -> bool * process * mem.
Hypothesis loader_contract : loader_ok loader.

(** [init_proc_from_elf] on a record fresh from [proc_alloc]: either no
    directory could be had and nothing was taken, or the count is right. *)
Lemma init_proc_from_elf_spec r elf size k :
  layout_ok -> pmm_free (kmem k) = F0 -> mem_pages (get_proc k r) = 0 ->
  let res := init_proc_from_elf loader r elf size k in
  (res.1 = false /\ page_dir (get_proc res.2 r) = 0 /\
   mem_pages (get_proc res.2 r) = 0 /\ kmem res.2 = kmem k)
  \/ accounted F0 r res.2.
Proof.
  intros Hlay Hfree Hmp res. subst res.
  unfold init_proc_from_elf, vmm_alloc_vaddr_space, pmm_alloc_page_address.
  destruct (pmm_free (kmem k)) as [|d rest] eqn:Hf.
  { cbn beta iota zeta. cbn [Z.eqb]. rewrite get_proc_upd.
    cbn [page_dir set_page_dir Z.eqb fst snd]. left.
    rewrite get_proc_upd, get_proc_set_kmem. cbn. auto. }
  right.
  assert (Hd0 : d <> 0) by (intros ->; apply F0_nonzero; rewrite <- Hfree; left).
  repeat first [rewrite (proj2 (Z.eqb_neq d 0) Hd0) | progress cbn beta iota zeta].
  set (m1 := set_page_dirs (<[d := ∅]> (page_dirs (set_pmm_free rest (kmem k))))
                           (set_pmm_free rest (kmem k))).
  set (k1 := upd_proc r (set_page_dir d) (set_kmem m1 k)).
  assert (Hpd1 : page_dir (get_proc k1 r) = d) by (subst k1; now rewrite get_proc_upd).
  rewrite Hpd1.
  repeat first [rewrite (proj2 (Z.eqb_neq d 0) Hd0) | progress cbn beta iota zeta].
  set (k2 := add_mem_pages r 1 k1).
  assert (Hpd2 : page_dir (get_proc k2 r) = d) by (subst k2; now rewrite page_dir_add).
  assert (Hdir2 : dir_of (kmem k2) d = ∅).
  { unfold dir_of. change (kmem k2) with m1. cbn. now rewrite lookup_insert_eq. }
  assert (Hsp2 : space_frames (kmem k2) d = [d]).
  { unfold space_frames, user_tables. now rewrite Hdir2, slot_addrs_empty. }
  assert (Hmp2 : mem_pages (get_proc k2 r) = wrap32 1).
  { subst k2. rewrite mem_pages_add. subst k1.
    rewrite get_proc_upd, get_proc_set_kmem. cbn [mem_pages set_page_dir].
    now rewrite Hmp. }
  assert (Hstk2 : stack_pages_free (kmem k2) d).
  { unfold stack_pages_free, page_mapped. now rewrite Hdir2, !lookup_empty. }
  pose proof (loader_contract F0 elf size (get_proc k2 r) (kmem k2) F0_NoDup F0_nonzero)
    as Hload.
  rewrite Hpd2, Hsp2 in Hload.
  specialize (Hload Hd0).
  destruct Hload as (C1 & C2 & C3 & C4); auto.
  { now rewrite <- Hfree. }
  destruct (loader elf size (get_proc k2 r) (kmem k2)) as [[ok p'] m'].
  cbn [fst snd] in C1, C2, C3, C4.
  set (k3 := set_kmem m' (upd_proc r (fun _ => p') k2)).
  assert (Hg3 : get_proc k3 r = p') by (subst k3; now rewrite get_proc_set_kmem, get_proc_upd).
  assert (Hacc3 : accounted F0 r k3).
  { unfold accounted. rewrite Hg3, C1. split_and!; assumption. }
  destruct ok; cbn [negb]; [|exact Hacc3].
  pose proof (alloc_proc_stacks_accounted r k3 Hlay Hacc3) as Hst.
  rewrite Hg3, C1 in Hst. specialize (Hst (C4 eq_refl)).
  destruct (alloc_proc_stacks r k3) as [st k4]. cbn [snd] in Hst.
  destruct st; cbn [negb snd]; [|exact Hst].
  destruct Hst as (B1 & B2 & B3). unfold accounted.
  rewrite get_proc_set_kmem. cbn [kmem set_kmem].
  rewrite pg_copy_kernel_space_frames. split_and!; assumption.
Qed.

End Builder.
(** C5: once [proc_exec] holds a record, a failure of any step of
    [init_proc_from_elf] (no directory, the image rejected, no frame or no
    page table for the kernel stack or for the user stack) is followed by a
    [proc_free] that does not panic and gives every frame taken so far back
    to the frame allocator, and [proc_exec] reports the failure.  The loader
    is any that honours its contract with [process.c]. *)
Theorem exec_failure_reclaims_frames `{PF : Platform}
    (loader : list Z -> Z -> process -> mem -> bool * process * mem)
    (elf : list Z) (size : Z) (k : kernel) :
  layout_ok -> loader_ok loader ->
  NoDup (pmm_free (kmem k)) -> 0 ∉ pmm_free (kmem k) ->
  (forall r k1 k2,
     proc_alloc k = Ok r k1 -> r <> 0 ->
     init_proc_from_elf loader r elf size k1 = (false, k2) ->
     exists k3, proc_free r k2 = Ok tt k3 /\
                pmm_free (kmem k3) ≡ₚ pmm_free (kmem k) /\
                proc_exec loader elf size k = Ok false k3) /\
  (forall k', proc_exec loader elf size k <> Panic k') /\
  (forall k', proc_exec loader elf size k = Ok false k' ->
              pmm_free (kmem k') ≡ₚ pmm_free (kmem k)).
Proof.
  intros Hlay Hload Hnd H0.
  destruct (proc_alloc_cases k) as (r & k1 & Halloc & Hmem1 & Hprocs1 & Hr).
  assert (Hfail : forall k2,
            r <> 0 -> init_proc_from_elf loader r elf size k1 = (false, k2) ->
            exists k3, proc_free r k2 = Ok tt k3 /\
                       pmm_free (kmem k3) ≡ₚ pmm_free (kmem k) /\
                       proc_exec loader elf size k = Ok false k3).
  { intros k2 Hr0 Hinit. destruct (Hr Hr0) as (_ & pd & Hrec).
    assert (Hexec : forall k3, proc_free r k2 = Ok tt k3 ->
                               proc_exec loader elf size k = Ok false k3).
    { intros k3 Hfree. unfold proc_exec. rewrite Halloc.
      rewrite (proj2 (Z.eqb_neq r 0) Hr0), Hinit. cbn [negb]. now rewrite Hfree. }
    pose proof (init_proc_from_elf_spec (pmm_free (kmem k)) Hnd H0 loader Hload
                  r elf size k1 Hlay) as Hspec.
    rewrite Hinit in Hspec. cbn [fst snd] in Hspec.
    destruct Hspec as [(_ & B1 & B2 & B3)|Hacc].
    - now rewrite Hmem1.
    - now rewrite Hrec.
    - exists (slab_free r (release_pid r k2)).
      pose proof (proc_free_no_space r k2 B1 B2) as Hfree.
      split_and!; [exact Hfree | | now apply Hexec].
      cbn [kmem slab_free set_proc_cache]. now rewrite kmem_release_pid, B3, Hmem1.
    - destruct (proc_free_accounted _ r k2 Hnd H0 Hacc) as (k3 & Hfree & C1 & _).
      exists k3. split_and!; [exact Hfree | exact C1 | now apply Hexec]. }
  split_and!.
  - intros r' k1' k2 Halloc' Hr0 Hinit.
    rewrite Halloc in Halloc'. injection Halloc' as <- <-. now apply Hfail.
  - intros k' Hpanic. unfold proc_exec in Hpanic. rewrite Halloc in Hpanic.
    destruct (Z.eqb_spec r 0) as [|Hr0]; [discriminate|].
    destruct (init_proc_from_elf loader r elf size k1) as [ok k2] eqn:Hinit.
    destruct ok; cbn [negb] in Hpanic; [discriminate|].
    destruct (Hfail k2 Hr0 eq_refl) as (k3 & Hfree & _).
    rewrite Hfree in Hpanic. discriminate.
  - intros k' Hexec. unfold proc_exec in Hexec. rewrite Halloc in Hexec.
    destruct (Z.eqb_spec r 0) as [|Hr0].
    { injection Hexec as <-. now rewrite Hmem1. }
    destruct (init_proc_from_elf loader r elf size k1) as [ok k2] eqn:Hinit.
    destruct ok; cbn [negb] in Hexec; [discriminate|].
    destruct (Hfail k2 Hr0 eq_refl) as (k3 & Hfree & Hperm & _).
    rewrite Hfree in Hexec. injection Hexec as <-. exact Hperm.
Qed.

Lemma demo_layout_ok : layout_ok (PF := demo_platform).
Proof. unfold layout_ok. cbn. split_and!; first [lia | reflexivity]. Qed.

Lemma demo_loader_ok : loader_ok (PF := demo_platform) demo_loader.
Proof.
  intros F0 elf size p m Hnd H0 Hd Hperm Hmp Hstk r. subst r. unfold demo_loader.
  destruct (size =? 0); cbn [fst snd page_dir mem_pages set_entry];
    split_and!; auto; discriminate.
Qed.

(** Four free frames: the directory, the kernel stack and its page table
    and the user stack get one each, none is left for the second page
    table, and [proc_exec] fails. *)
Lemma demo_exec_fails :
  exists k', proc_exec (PF := demo_platform) demo_loader [127; 69] 2 demo_kernel_low
             = Ok false k'.
Proof. eexists. vm_compute. reflexivity. Qed.

Lemma exec_failure_reclaims_frames_witness :
  exists k', proc_exec (PF := demo_platform) demo_loader [127; 69] 2 demo_kernel_low
             = Ok false k' /\
             pmm_free (kmem k') ≡ₚ pmm_free (kmem demo_kernel_low).
Proof.
  destruct demo_exec_fails as [k' Hexec]. exists k'. split; [exact Hexec|].
  assert (Hnd : NoDup (pmm_free (kmem demo_kernel_low))) by by_compute.
  assert (H0 : 0 ∉ pmm_free (kmem demo_kernel_low)) by by_compute.
  exact (proj2 (proj2 (exec_failure_reclaims_frames (PF := demo_platform)
                         demo_loader [127; 69] 2 demo_kernel_low
                         demo_layout_ok demo_loader_ok Hnd H0)) k' Hexec).
Defined.
(** * Part IV: further properties of the code *)

(** ** [free_pid] and [alloc_pid] together *)

Lemma to_char_land_twice b n :
  to_char (Z.land (to_char (Z.land b n)) n) = to_char (Z.land b n).
Proof.
  unfold to_char. apply Z.bits_inj'. intros i Hi. rewrite !Z.land_spec.
  destruct (Z.testbit b i), (Z.testbit n i), (Z.testbit 255 i); reflexivity.
Qed.

(** X1: [free_pid] clears the bit of its PID and no other, and leaves the
    cursor alone.  It makes no check: releasing a PID that is not assigned
    changes nothing the allocator can see, and releasing twice is releasing
    once. *)
Theorem free_pid_releases_one_pid (st : pid_state) (p : Z) :
  0 <= p < 8 * Z.of_nat (length (pid_map st)) ->
  pid_gen (free_pid p st) = pid_gen st /\
  pid_in_use (pid_map (free_pid p st)) p = false /\
  (forall q, 0 <= q -> q <> p ->
     pid_in_use (pid_map (free_pid p st)) q = pid_in_use (pid_map st) q) /\
  (pid_in_use (pid_map st) p = false ->
   forall q, 0 <= q ->
     pid_in_use (pid_map (free_pid p st)) q = pid_in_use (pid_map st) q) /\
  free_pid p (free_pid p st) = free_pid p st.
Proof.
  intros Hp. split_and!.
  - reflexivity.
  - cbn. rewrite pid_in_use_clear by lia. now case_decide.
  - intros q Hq Hne. cbn. rewrite pid_in_use_clear by lia. now case_decide.
  - intros Hfree q Hq. cbn. rewrite pid_in_use_clear by lia.
    case_decide; [now subst|reflexivity].
  - unfold free_pid. cbn. f_equal.
    pose proof (pid_slot_lt (pid_map st) p Hp) as Hlt.
    unfold pid_clear at 1. unfold pid_byte at 1.
    unfold pid_clear at 1 2. rewrite list_lookup_insert_eq by assumption.
    cbn [default from_option id]. rewrite list_insert_insert_eq.
    now rewrite to_char_land_twice.
Qed.

Lemma free_pid_releases_one_pid_witness :
  let st := PidState [28; 0] 3 in
  pid_in_use (pid_map (free_pid 3 st)) 3 = false /\
  pid_in_use (pid_map (free_pid 3 st)) 2 = true /\
  free_pid 3 (free_pid 3 st) = free_pid 3 st.
Proof.
  intros st.
  assert (Hp : 0 <= 3 < 8 * Z.of_nat (length (pid_map st))) by (simpl; lia).
  destruct (free_pid_releases_one_pid st 3 Hp) as (_ & H2 & _ & _ & H5).
  split; [exact H2|]. split; [reflexivity | exact H5].
Defined.

(** X2: a PID handed out by [alloc_pid] and released at once by [free_pid]
    leaves every PID as it was, in use or free; only the cursor has moved,
    one past that PID. *)
Theorem alloc_then_free_restores_pids `{PF : Platform} (st : pid_state) :
  pid_wf st ->
  let r := alloc_pid st in
  r.1 <> -1 ->
  0 <= r.1 < PROC_MAX_NUM /\
  (forall q, 0 <= q < PROC_MAX_NUM ->
     pid_in_use (pid_map (free_pid r.1 r.2)) q = pid_in_use (pid_map st) q) /\
  pid_gen (free_pid r.1 r.2) = (r.1 + 1) mod PROC_MAX_NUM.
Proof.
  intros Hwf r Hok. pose proof Hwf as [Hg Hlen].
  destruct (alloc_pid_loop_spec (Z.to_nat PROC_MAX_NUM) st Hwf)
    as [(H1 & _)|(i & Hi & H1 & H2 & H3 & H4 & H5)];
    fold (alloc_pid st) in *; fold r in H1; [contradiction|].
  fold r in H3, H4, H5.
  assert (Hr : 0 <= r.1 < PROC_MAX_NUM) by (rewrite H1; apply Z.mod_pos_bound; lia).
  split_and!; [lia | lia | | exact H5].
  intros q Hq. cbn. rewrite H4.
  rewrite pid_in_use_clear by (rewrite ?pid_mark_length; lia).
  case_decide as Hd; [now subst q|].
  rewrite pid_in_use_mark by lia. now case_decide.
Qed.

Lemma alloc_then_free_restores_pids_witness :
  let st := PidState [28; 0] 3 in
  pid_in_use (pid_map (free_pid 5 (alloc_pid (PF := demo_platform) st).2)) 5 = false /\
  pid_gen (free_pid 5 (alloc_pid (PF := demo_platform) st).2) = 6.
Proof.
  intros st.
  assert (Hwf : pid_wf (PF := demo_platform) st) by (split; simpl; lia).
  assert (Hok : (alloc_pid (PF := demo_platform) st).1 <> -1) by discriminate.
  destruct (alloc_then_free_restores_pids (PF := demo_platform) st Hwf Hok)
    as (_ & H2 & H3).
  split; [|exact H3].
  exact (H2 5 ltac:(split; [discriminate | reflexivity])).
Defined.

Section FirstPids.

Context {PF : Platform}.

Lemma pid_run_snoc cs c s :
  pid_run (cs ++ [c]) s
  = match pid_run cs s with Some s' => pid_step c s' | None => None end.
Proof.
  revert s. induction cs as [|c0 cs IH]; intros s; simpl.
  - now destruct (pid_step c s).
  - destruct (pid_step c0 s); [apply IH | reflexivity].
Qed.

(** After [n] allocations from the zeroed statics: PIDs [0] to [n - 1] are
    taken, in the order they were handed out, and the cursor is at [n]. *)
Lemma first_pids_inv (n : nat) :
  0 < PROC_MAX_NUM -> PROC_MAX_NUM mod 8 = 0 -> Z.of_nat n <= PROC_MAX_NUM ->
  exists st,
    pid_run (replicate n AllocPid) (pid_init, [])
    = Some (st, reverse (seqZ 0 (Z.of_nat n))) /\
    pid_wf st /\ pid_gen st = Z.of_nat n mod PROC_MAX_NUM /\
    forall q, 0 <= q < PROC_MAX_NUM ->
              pid_in_use (pid_map st) q = bool_decide (q < Z.of_nat n).
Proof.
  intros Hpos H8. induction n as [|n IH]; intros Hn.
  - exists pid_init. destruct (pid_init_inv Hpos H8) as (Hwf & _ & _ & Hbits).
    split_and!; auto.
    intros q Hq. cbn [fst snd] in Hbits.
    destruct (pid_in_use (pid_map pid_init) q) eqn:He.
    + apply Hbits in He; [inversion He | assumption].
    + symmetry. apply bool_decide_eq_false. simpl. lia.
  - destruct IH as (st & Hrun & Hwf & Hgen & Hbits); [lia|].
    pose proof Hwf as [Hg Hlen].
    assert (Hgn : pid_gen st = Z.of_nat n) by (rewrite Hgen; apply Z.mod_small; lia).
    assert (Hfree : pid_in_use (pid_map st) (Z.of_nat n) = false).
    { rewrite Hbits by lia. apply bool_decide_eq_false. lia. }
    assert (Halloc : (alloc_pid st).1 = Z.of_nat n /\
                     pid_map (alloc_pid st).2 = pid_mark (pid_map st) (Z.of_nat n) /\
                     pid_gen (alloc_pid st).2 = (Z.of_nat n + 1) mod PROC_MAX_NUM).
    { destruct (alloc_pid_loop_spec (Z.to_nat PROC_MAX_NUM) st Hwf)
        as [(_ & _ & _ & H4)|(i & Hi & H1 & H2 & H3 & H4 & H5)];
        fold (alloc_pid st) in *.
      - specialize (H4 0 ltac:(lia)).
        rewrite Z.add_0_r, Z.mod_small, Hgn in H4 by lia. congruence.
      - destruct (decide (i = 0)) as [->|Hi0].
        + rewrite Z.add_0_r, Z.mod_small, Hgn in H1 by lia.
          rewrite H1 in H4, H5. auto.
        + specialize (H2 0 ltac:(lia)).
          rewrite Z.add_0_r, Z.mod_small, Hgn in H2 by lia. congruence. }
    destruct Halloc as (A1 & A2 & A3).
    exists (alloc_pid st).2. split_and!.
    + replace (replicate (S n) AllocPid) with (replicate n AllocPid ++ [AllocPid]).
      2: { symmetry. apply replicate_S_end. }
      rewrite pid_run_snoc, Hrun. cbn [pid_step fst snd].
      destruct (alloc_pid st) as [p st'] eqn:He. cbn [fst snd] in *. subst p.
      destruct (Z.eqb_spec (Z.of_nat n) (-1)); [lia|].
      now rewrite seqZ_S, reverse_snoc, Z.add_0_l.
    + now apply alloc_pid_wf.
    + rewrite A3. f_equal. lia.
    + intros q Hq. rewrite A2, pid_in_use_mark by lia.
      case_decide as Hd.
      * subst q. symmetry. apply bool_decide_eq_true. lia.
      * rewrite Hbits by assumption. apply bool_decide_ext. lia.
Qed.

End FirstPids.

(** X3: from the zeroed statics the first allocations hand out the PIDs
    [0], [1], [2], ... in this order, the cursor following; after
    [PROC_MAX_NUM] of them the next [alloc_pid] fails. *)
Theorem first_pids_in_order `{PF : Platform} (n : nat) :
  0 < PROC_MAX_NUM -> PROC_MAX_NUM mod 8 = 0 -> Z.of_nat n <= PROC_MAX_NUM ->
  exists st,
    pid_run (replicate n AllocPid) (pid_init, [])
    = Some (st, reverse (seqZ 0 (Z.of_nat n))) /\
    pid_gen st = Z.of_nat n mod PROC_MAX_NUM /\
    (Z.of_nat n < PROC_MAX_NUM -> (alloc_pid st).1 = Z.of_nat n) /\
    (Z.of_nat n = PROC_MAX_NUM -> (alloc_pid st).1 = -1).
Proof.
  intros Hpos H8 Hn.
  destruct (first_pids_inv n Hpos H8 Hn) as (st & Hrun & Hwf & Hgen & Hbits).
  exists st. split_and!; auto.
  - intros Hlt.
    destruct (first_pids_inv (S n) Hpos H8 ltac:(lia)) as (st' & Hrun' & _).
    replace (replicate (S n) AllocPid) with (replicate n AllocPid ++ [AllocPid]) in Hrun'.
    2: { symmetry. apply replicate_S_end. }
    rewrite pid_run_snoc, Hrun in Hrun'. cbn [pid_step fst snd] in Hrun'.
    destruct (alloc_pid st) as [p st2]. cbn [fst].
    rewrite seqZ_S, reverse_snoc, Z.add_0_l in Hrun'.
    destruct (Z.eqb_spec p (-1)) as [Hp|Hp].
    + injection Hrun' as _ Hl. apply (f_equal length) in Hl.
      cbn [length] in Hl. lia.
    + injection Hrun' as _ Hl. exact Hl.
  - intros Heq. assert (Hfull : pid_full st).
    { apply pid_full_spec. intros q Hq. rewrite Hbits by assumption.
      apply bool_decide_eq_true. lia. }
    now rewrite (alloc_pid_full st Hwf Hfull).
Qed.

Lemma first_pids_in_order_witness :
  exists st,
    pid_run (PF := demo_platform) (replicate 16 AllocPid)
            (pid_init (PF := demo_platform), [])
    = Some (st, reverse (seqZ 0 16)) /\
    (alloc_pid (PF := demo_platform) st).1 = -1.
Proof.
  destruct (first_pids_in_order (PF := demo_platform) 16)
    as (st & H1 & _ & _ & H4); [reflexivity | reflexivity | cbn; lia |].
  exists st. split; [exact H1 | apply H4; reflexivity].
Defined.

(** ** The record pool *)

(** X4: with no record left in the pool [proc_alloc] returns [NULL] before
    it touches anything: no PID is taken, and [proc_exec] and [proc_clone]
    report failure with the kernel state as it was. *)
Theorem empty_pool_fails_cleanly `{PF : Platform}
    (loader : list Z -> Z -> process -> mem -> bool * process * mem)
    (elf : list Z) (size proc : Z) (k : kernel) :
  proc_cache k = [] ->
  proc_alloc k = Ok 0 k /\
  proc_exec loader elf size k = Ok false k /\
  proc_clone proc k = Ok 0 k.
Proof.
  intros Hc.
  assert (Ha : proc_alloc k = Ok 0 k).
  { unfold proc_alloc, slab_alloc. now rewrite Hc. }
  split; [exact Ha|]. unfold proc_exec, proc_clone. now rewrite Ha.
Qed.

Lemma empty_pool_fails_cleanly_witness :
  proc_exec (PF := demo_platform) demo_loader [127; 69] 2 demo_boot = Ok false demo_boot /\
  proc_clone (PF := demo_platform) 100 demo_boot = Ok 0 demo_boot.
Proof.
  exact (proj2 (empty_pool_fails_cleanly (PF := demo_platform) demo_loader
                  [127; 69] 2 100 demo_boot eq_refl)).
Defined.

(** X5: a record [proc_alloc] returns was the first of the pool and is no
    longer in it; its PID is the one [alloc_pid] gave, free before the call
    and taken after it.  Memory, the run queue and the other records are
    not touched. *)
Theorem proc_alloc_takes_record_and_pid `{PF : Platform} (k : kernel) (r : Z) (k' : kernel) :
  pid_wf (pids k) -> proc_alloc k = Ok r k' -> r <> 0 ->
  proc_cache k = r :: proc_cache k' /\
  alloc_pid (pids k) = (pid (get_proc k' r), pids k') /\
  pid_in_use (pid_map (pids k)) (pid (get_proc k' r)) = false /\
  pid_in_use (pid_map (pids k')) (pid (get_proc k' r)) = true /\
  kmem k' = kmem k /\ run_queue k' = run_queue k /\
  (forall r', r' <> r -> procs k' !! r' = procs k !! r').
Proof.
  intros Hwf Halloc Hr. pose proof Hwf as [Hg Hlen].
  unfold proc_alloc, slab_alloc in Halloc.
  destruct (proc_cache k) as [|r0 rest] eqn:Hc.
  { inversion Halloc. congruence. }
  destruct (Z.eqb_spec r0 0) as [->|Hr0].
  { inversion Halloc. congruence. }
  cbn [pids set_procs set_proc_cache] in Halloc.
  destruct (alloc_pid_loop_spec (Z.to_nat PROC_MAX_NUM) (pids k) Hwf)
    as [(H1 & _)|(i & Hi & H1 & _ & H3 & H4 & _)]; fold (alloc_pid (pids k)) in *;
    destruct (alloc_pid (pids k)) as [p st]; cbn [fst snd] in *;
    rewrite get_proc_upd in Halloc; cbn [pid set_pid] in Halloc.
  - rewrite H1 in Halloc. cbn [Z.eqb Pos.eqb] in Halloc.
    destruct (proc_free _ _); inversion Halloc; congruence.
  - assert (Hp : 0 <= p < PROC_MAX_NUM)
      by (rewrite H1; apply Z.mod_pos_bound; lia).
    destruct (Z.eqb_spec p (-1)); [lia|].
    injection Halloc as <- <-.
    rewrite get_proc_upd. cbn [pid set_pid pids upd_proc set_procs set_pids
                               proc_cache set_proc_cache kmem run_queue procs].
    split_and!; auto.
    + rewrite H4. rewrite pid_in_use_mark by lia. now case_decide.
    + intros r' Hne. now rewrite !lookup_insert_ne by congruence.
Qed.

Lemma proc_alloc_takes_record_and_pid_witness :
  exists k', proc_alloc (PF := demo_platform) demo_kernel = Ok 200 k' /\
             proc_cache demo_kernel = 200 :: proc_cache k' /\
             pid (get_proc k' 200) = 1.
Proof.
  assert (Hwf : pid_wf (PF := demo_platform) (pids demo_kernel)) by (split; simpl; lia).
  eexists. split; [reflexivity|].
  split; [|reflexivity].
  apply (proc_alloc_takes_record_and_pid (PF := demo_platform) demo_kernel 200 _ Hwf eq_refl).
  discriminate.
Defined.

(** X6: [proc_free] of a record whose count is right puts the record at the
    head of the pool and releases its PID unless the PID is [-1].  It does
    not take the record off the run queue, does not change another record,
    does not write a byte of a data frame, and leaves every directory and
    page table outside the record's own frames as it is. *)
Theorem proc_free_releases_pid_and_record `{PF : Platform} (F0 : list Z) (r : Z) (k : kernel) :
  NoDup F0 -> 0 ∉ F0 -> accounted F0 r k ->
  exists k',
    proc_free r k = Ok tt k' /\
    proc_cache k' = r :: proc_cache k /\
    pids k' = (if pid (get_proc k r) =? -1 then pids k
               else free_pid (pid (get_proc k r)) (pids k)) /\
    (0 <= pid (get_proc k r) < 8 * Z.of_nat (length (pid_map (pids k))) ->
     pid_in_use (pid_map (pids k')) (pid (get_proc k r)) = false) /\
    run_queue k' = run_queue k /\
    (forall r', r' <> r -> get_proc k' r' = get_proc k r') /\
    phys (kmem k') = phys (kmem k) /\
    frames_kept (space_frames (kmem k) (page_dir (get_proc k r))) (kmem k) (kmem k').
Proof.
  intros Hnd H0 Hacc.
  destruct (proc_free_accounted F0 r k Hnd H0 Hacc)
    as (k' & Hfree & C1 & C2 & C3 & C4 & C5 & C6).
  exists k'. pose proof Hfree as Hk'.
  unfold proc_free in Hk'. destruct (_ =? 0) in Hk'; [|discriminate].
  injection Hk' as Hk'.
  assert (Hpids : pids k' = (if pid (get_proc k r) =? -1 then pids k
                             else free_pid (pid (get_proc k r)) (pids k))).
  { subst k'. cbn [pids slab_free set_proc_cache]. unfold proc_reclaim, release_pid.
    rewrite (only_mem_pid r r k _ C4).
    destruct C4 as (E1 & _). destruct (_ =? -1); cbn [pids set_pids]; now rewrite ?E1. }
  split_and!; auto.
  - intros Hp. rewrite Hpids.
    destruct (Z.eqb_spec (pid (get_proc k r)) (-1)) as [|_]; [lia|].
    cbn. rewrite pid_in_use_clear by lia. now case_decide.
  - intros r' Hne. unfold get_proc at 1. rewrite C3.
    fold (get_proc (free_vaddr_space r k) r'). now apply (only_mem_get_ne r r' k).
  - subst k'. cbn [kmem slab_free set_proc_cache]. unfold proc_reclaim.
    rewrite kmem_release_pid.
    assert (Hown : owned_frames k r = space_frames (kmem k) (page_dir (get_proc k r))).
    { destruct Hacc as (Hd & _). unfold owned_frames.
      now destruct (Z.eqb_spec (page_dir (get_proc k r)) 0). }
    destruct Hacc as (Hd & Hperm & _).
    destruct (free_vaddr_space_spec r k) as (_ & _ & A3 & _).
    + rewrite Hown. rewrite <- Hperm in Hnd. now apply NoDup_app in Hnd as (? & _).
    + rewrite Hown. intros Hin. apply H0. rewrite <- Hperm. apply elem_of_app. now left.
    + exact A3.
Qed.

Lemma demo_accounted :
  accounted (PF := demo_platform)
    ([4096; 8192; 12288; 16384; 20480; 24576] ++ pmm_free (kmem demo_kernel))
    100 demo_kernel.
Proof.
  unfold accounted. split_and!.
  - discriminate.
  - change (page_dir (get_proc demo_kernel 100)) with 4096.
    replace (space_frames (PF := demo_platform) (kmem demo_kernel) 4096)
      with [4096; 8192; 12288; 16384; 20480; 24576]; [reflexivity|].
    vm_compute. reflexivity.
  - vm_compute. reflexivity.
Qed.

Lemma proc_free_releases_pid_and_record_witness :
  exists k', proc_free (PF := demo_platform) 100 demo_kernel = Ok tt k' /\
             proc_cache k' = 100 :: proc_cache demo_kernel /\
             run_queue k' = run_queue demo_kernel.
Proof.
  destruct (proc_free_releases_pid_and_record (PF := demo_platform)
              ([4096; 8192; 12288; 16384; 20480; 24576] ++ pmm_free (kmem demo_kernel))
              100 demo_kernel)
    as (k' & H1 & H2 & _ & _ & H5 & _).
  - by_compute.
  - by_compute.
  - exact demo_accounted.
  - exists k'. auto.
Defined.

(** ** The builder, when it succeeds *)

Lemma only_record_refl r k : only_record r k k.
Proof. unfold only_record. tauto. Qed.

Lemma only_record_trans r k1 k2 k3 :
  only_record r k1 k2 -> only_record r k2 k3 -> only_record r k1 k3.
Proof.
  unfold only_record. intros (A1 & A2 & A3 & A4) (B1 & B2 & B3 & B4).
  split_and!; try congruence. intros r' Hr. rewrite B4, A4; auto.
Qed.

Lemma only_record_upd r f k : only_record r k (upd_proc r f k).
Proof.
  unfold only_record. split_and!; try reflexivity.
  intros r' Hr. cbn. now rewrite lookup_insert_ne.
Qed.

Lemma only_record_set_kmem r m k : only_record r k (set_kmem m k).
Proof. unfold only_record. cbn. tauto. Qed.

Lemma only_mem_only_record r k k' : only_mem r k k' -> only_record r k k'.
Proof. unfold only_mem, only_record. tauto. Qed.

Lemma only_space_only_record r k k' : only_space r k k' -> only_record r k k'.
Proof. unfold only_space, only_record. tauto. Qed.

Lemma get_proc_set_run_queue_upd q r f k :
  get_proc (set_run_queue q (upd_proc r f k)) r = f (get_proc k r).
Proof. unfold get_proc. cbn. now rewrite lookup_insert_eq. Qed.

Section BuilderSuccess.

Context {PF : Platform}.

Lemma alloc_proc_stacks_only_record r k : only_record r k (alloc_proc_stacks r k).2.
Proof.
  unfold alloc_proc_stacks.
  destruct (pmm_alloc_page_address _) as [s1 m1].
  destruct (s1 =? 0); [apply only_record_set_kmem|].
  destruct (vmm_map _ _ _ _ _) as [e1 m2].
  destruct (e1 <? 0); [apply only_record_set_kmem|].
  set (k2 := add_mem_pages r (e1 + 1) (set_kmem m2 k)).
  assert (H2 : only_record r k k2).
  { eapply only_record_trans; [apply only_record_set_kmem | apply only_record_upd]. }
  destruct (pmm_alloc_page_address _) as [s2 m3].
  destruct (s2 =? 0).
  { eapply only_record_trans; [exact H2 | apply only_record_set_kmem]. }
  destruct (vmm_map _ _ _ _ _) as [e2 m4].
  destruct (e2 <? 0).
  { eapply only_record_trans; [exact H2 | apply only_record_set_kmem]. }
  cbn [snd]. eapply only_record_trans; [exact H2|].
  eapply only_record_trans; [apply only_record_set_kmem|].
  eapply only_record_trans; apply only_record_upd.
Qed.

Lemma init_proc_from_elf_only_record loader r elf size k :
  only_record r k (init_proc_from_elf loader r elf size k).2.
Proof.
  unfold init_proc_from_elf.
  destruct (vmm_alloc_vaddr_space _) as [d m1].
  set (k1 := upd_proc r (set_page_dir d) (set_kmem m1 k)).
  assert (H1 : only_record r k k1).
  { eapply only_record_trans; [apply only_record_set_kmem | apply only_record_upd]. }
  destruct (_ =? 0); [exact H1|].
  destruct (loader _ _ _ _) as [[ok p'] m'].
  set (k3 := set_kmem m' (upd_proc r (fun _ => p') (add_mem_pages r 1 k1))).
  assert (H3 : only_record r k k3).
  { eapply only_record_trans; [exact H1|].
    eapply only_record_trans; [apply only_record_upd|].
    eapply only_record_trans; [apply only_record_upd | apply only_record_set_kmem]. }
  destruct ok; cbn [negb]; [|exact H3].
  pose proof (alloc_proc_stacks_only_record r k3) as H4.
  destruct (alloc_proc_stacks r k3) as [st k4]. cbn [snd] in H4.
  destruct st; cbn [negb snd].
  - eapply only_record_trans; [exact H3|].
    eapply only_record_trans; [exact H4 | apply only_record_set_kmem].
  - eapply only_record_trans; eauto.
Qed.

Lemma translate_in_space m d v a fl :
  translate m d v = Some (a, fl) ->
  0 <= pde_index v < USER_PDES -> 0 <= pte_index v < NUM_PTE ->
  a ∈ space_frames m d.
Proof.
  unfold translate. intros Ht Hpde Hpte.
  destruct (dir_of m d !! pde_index v) as [[t flt]|] eqn:Hd; [|discriminate].
  right. apply (tables_frames_page _ _ t (pte_index v) a fl); auto.
  apply slot_addrs_elem. exists (pde_index v), flt.
  split; [apply elem_of_seqZ; lia | assumption].
Qed.

Lemma translate_pg_copy_kernel_space d m v :
  pde_index v < USER_PDES ->
  translate (pg_copy_kernel_space d m) d v = translate m d v.
Proof.
  intros Hv. unfold translate. now rewrite pg_copy_kernel_space_user.
Qed.

Variable F0 : list Z.
Hypothesis F0_NoDup : NoDup F0.
Hypothesis F0_nonzero : 0 ∉ F0.

(** Where [vmm_map] leaves the page it maps, and the pages of the other
    directory slots. *)
Lemma vmm_map_translate r k vaddr flag a rest :
  accounted F0 r k ->
  pmm_free (kmem k) = a :: rest ->
  0 <= pde_index vaddr < USER_PDES ->
  let res := vmm_map (page_dir (get_proc k r)) vaddr a flag
                     (set_pmm_free rest (kmem k)) in
  (res.1 <? 0) = false ->
  translate res.2 (page_dir (get_proc k r)) vaddr = Some (a, flag) /\
  forall v, 0 <= pde_index v < USER_PDES -> pde_index v <> pde_index vaddr ->
    translate res.2 (page_dir (get_proc k r)) v
    = translate (kmem k) (page_dir (get_proc k r)) v.
Proof.
  intros Hacc Hfree Hpde res. subst res.
  set (d := page_dir (get_proc k r)) in *.
  set (m1 := set_pmm_free rest (kmem k)).
  pose proof (accounted_NoDup F0 r F0_NoDup k Hacc) as Hnd. fold d in Hnd.
  assert (Hut : NoDup (user_tables (kmem k) d)).
  { apply NoDup_app in Hnd as (Hnd & _). now apply space_frames_tables_NoDup. }
  unfold vmm_map, vmm_get_page_table_index.
  change (dir_of m1 d) with (dir_of (kmem k) d).
  destruct (dir_of (kmem k) d !! pde_index vaddr) as [[t fl]|] eqn:Hd;
    cbn [default from_option id].
  - destruct (accounted_user_table F0 F0_NoDup F0_nonzero r k _ t fl Hacc Hpde Hd)
      as (Htin & Ht0 & _).
    rewrite (proj2 (Z.eqb_neq t 0) Ht0). cbn [fst snd]. intros _.
    set (m2 := vmm_map_page_index t (pte_index vaddr) a flag m1).
    split.
    + unfold translate. change (dir_of m2 d) with (dir_of (kmem k) d). rewrite Hd.
      unfold table_of. cbn. rewrite lookup_insert_eq. cbn. apply lookup_insert_eq.
    + intros v Hv Hne. unfold translate.
      change (dir_of m2 d) with (dir_of (kmem k) d).
      destruct (dir_of (kmem k) d !! pde_index v) as [[t2 fl2]|] eqn:Hd2; [|reflexivity].
      assert (Hne2 : t2 <> t).
      { apply (slot_addrs_inj (dir_of (kmem k) d) (seqZ 0 USER_PDES)
                 (pde_index v) (pde_index vaddr) t2 fl2 t fl); auto;
          apply elem_of_seqZ; lia. }
      replace (table_of m2 t2) with (table_of (kmem k) t2); [reflexivity|].
      unfold table_of. cbn. now rewrite lookup_insert_ne by congruence.
  - cbn [Z.eqb]. unfold vmm_alloc_page_table, pmm_alloc_page_address.
    change (pmm_free m1) with rest.
    destruct rest as [|t' rest'].
    { cbn [Z.eqb fst snd Z.ltb Z.compare Z.opp]. discriminate. }
    assert (Ht'F : t' ∈ pmm_free (kmem k)) by (rewrite Hfree; right; left).
    assert (Ht'0 : t' <> 0).
    { intros ->. now apply F0_nonzero, (accounted_free_in F0 r k). }
    repeat first [rewrite (proj2 (Z.eqb_neq t' 0) Ht'0) | progress cbn beta iota zeta].
    cbn [fst snd]. intros _.
    set (m1' := set_page_tabs (<[t' := ∅]> (page_tabs (set_pmm_free rest' m1)))
                              (set_pmm_free rest' m1)).
    set (mt := vmm_map_page_table_index d (pde_index vaddr) t' flag m1').
    set (m2 := vmm_map_page_index t' (pte_index vaddr) a flag mt).
    assert (Hdir2 : dir_of m2 d = <[pde_index vaddr := (t', flag)]> (dir_of (kmem k) d)).
    { unfold dir_of at 1. cbn. now rewrite lookup_insert_eq. }
    split.
    + unfold translate. rewrite Hdir2, lookup_insert_eq.
      unfold table_of. cbn. rewrite lookup_insert_eq. cbn. apply lookup_insert_eq.
    + intros v Hv Hne. unfold translate.
      rewrite Hdir2, lookup_insert_ne by congruence.
      destruct (dir_of (kmem k) d !! pde_index v) as [[t2 fl2]|] eqn:Hd2; [|reflexivity].
      destruct (accounted_user_table F0 F0_NoDup F0_nonzero r k _ t2 fl2 Hacc Hv Hd2)
        as (_ & _ & Hnf).
      assert (Hne2 : t2 <> t') by (intros ->; contradiction).
      replace (table_of m2 t2) with (table_of (kmem k) t2); [reflexivity|].
      unfold table_of. cbn. now rewrite !lookup_insert_ne by congruence.
Qed.


(** What a successful [alloc_proc_stacks] leaves: each stack page resolves
    to a frame of its own, with the flags of the call. *)
Lemma alloc_proc_stacks_maps r k k' :
  layout_ok -> accounted F0 r k ->
  stack_pages_free (kmem k) (page_dir (get_proc k r)) ->
  alloc_proc_stacks r k = (true, k') ->
  exists s1 s2,
    s1 ∈ F0 /\ s2 ∈ F0 /\ s1 <> s2 /\
    page_dir (get_proc k' r) = page_dir (get_proc k r) /\
    translate (kmem k') (page_dir (get_proc k r))
              (wrap32 (PROC_KERNEL_STACK - PAGE_SIZE)) = Some (s1, VMM_WRITABLE) /\
    translate (kmem k') (page_dir (get_proc k r))
              (wrap32 (PROC_USER_STACK - PAGE_SIZE))
    = Some (s2, Z.lor VMM_WRITABLE VMM_USER) /\
    kernel_stack (get_proc k' r) = PROC_KERNEL_STACK /\
    user_stack (get_proc k' r) = PROC_USER_STACK /\
    (forall v, 0 <= pde_index v < USER_PDES ->
       pde_index v <> pde_index (wrap32 (PROC_KERNEL_STACK - PAGE_SIZE)) ->
       pde_index v <> pde_index (wrap32 (PROC_USER_STACK - PAGE_SIZE)) ->
       translate (kmem k') (page_dir (get_proc k r)) v
       = translate (kmem k) (page_dir (get_proc k r)) v).
Proof.
  intros (HP & HN & Hal & HKB) Hacc [Hkfree Hufree].
  destruct (stack_pages_layout HP HN Hal HKB) as (L1 & L2 & L3 & L4 & L5 & L6 & L7).
  set (kpage := wrap32 (PROC_KERNEL_STACK - PAGE_SIZE)) in *.
  set (upage := wrap32 (PROC_USER_STACK - PAGE_SIZE)) in *.
  assert (Hkpte : 0 <= pte_index kpage < NUM_PTE) by (apply pte_index_range; lia).
  assert (Hupte : 0 <= pte_index upage < NUM_PTE) by (apply pte_index_range; lia).
  unfold alloc_proc_stacks, pmm_alloc_page_address at 1.
  destruct (pmm_free (kmem k)) as [|s1 rest1] eqn:Hfree1.
  { cbn [Z.eqb fst snd]. discriminate. }
  assert (Hs1F : s1 ∈ F0).
  { apply (accounted_free_in F0 r k); [assumption|]. rewrite Hfree1. left. }
  assert (Hs1 : s1 <> 0) by (intros ->; contradiction).
  rewrite (proj2 (Z.eqb_neq s1 0) Hs1).
  fold kpage.
  destruct (vmm_map_accounted F0 F0_NoDup F0_nonzero r k kpage VMM_WRITABLE s1 rest1
              Hacc Hfree1) as [_ A2]; auto; [lia|].
  pose proof (vmm_map_translate r k kpage VMM_WRITABLE s1 rest1 Hacc Hfree1) as T1.
  destruct (vmm_map (page_dir (get_proc k r)) kpage s1 VMM_WRITABLE
                    (set_pmm_free rest1 (kmem k))) as [e1 m2].
  cbn [fst snd] in A2, T1.
  destruct (e1 <? 0) eqn:He1; [discriminate|].
  destruct (A2 eq_refl) as [Hacc2 Hkeep]. clear A2.
  destruct T1 as [T1 T1']; auto; [lia|].
  set (k2 := add_mem_pages r (e1 + 1) (set_kmem m2 k)) in *.
  assert (Hpd2 : page_dir (get_proc k2 r) = page_dir (get_proc k r)).
  { subst k2. now rewrite page_dir_add, get_proc_set_kmem. }
  assert (Hufree2 : page_mapped (kmem k2) (page_dir (get_proc k2 r)) upage = false).
  { rewrite Hpd2. apply Hkeep; auto; lia. }
  unfold pmm_alloc_page_address.
  destruct (pmm_free (kmem k2)) as [|s2 rest2] eqn:Hfree2.
  { cbn [Z.eqb fst snd]. discriminate. }
  assert (Hs2free : s2 ∈ pmm_free (kmem k2)) by (rewrite Hfree2; left).
  assert (Hs2F : s2 ∈ F0) by now apply (accounted_free_in F0 r k2).
  assert (Hs2 : s2 <> 0) by (intros ->; contradiction).
  assert (Hs12 : s1 <> s2).
  { intros <-. apply (accounted_disjoint F0 r F0_NoDup k2 s1 Hacc2); [|assumption].
    rewrite Hpd2. apply (translate_in_space _ _ kpage s1 VMM_WRITABLE); auto. lia. }
  rewrite (proj2 (Z.eqb_neq s2 0) Hs2).
  fold upage.
  pose proof (vmm_map_translate r k2 upage (Z.lor VMM_WRITABLE VMM_USER) s2 rest2
                Hacc2 Hfree2) as T2.
  destruct (vmm_map (page_dir (get_proc k2 r)) upage s2 (Z.lor VMM_WRITABLE VMM_USER)
                    (set_pmm_free rest2 (kmem k2))) as [e2 m4].
  cbn [fst snd] in T2.
  destruct (e2 <? 0) eqn:He2; [discriminate|].
  destruct T2 as [T2 T2']; auto; [lia|].
  rewrite Hpd2 in T2, T2'. change (kmem k2) with m2 in T2'.
  intros Hrun. injection Hrun as <-.
  exists s1, s2. rewrite get_proc_upd.
  cbn [page_dir kernel_stack user_stack set_user_stack set_kernel_stack kmem upd_proc
       set_procs].
  rewrite page_dir_add, get_proc_set_kmem, Hpd2.
  change (kmem (add_mem_pages r (e2 + 1) (set_kmem m4 k2))) with m4.
  split_and!; auto.
  - rewrite T2' by lia. exact T1.
  - intros v Hv Hnk Hnu. rewrite T2' by auto. now apply T1'.
Qed.

(** [proc_alloc] when it hands out a record. *)
Lemma proc_alloc_success k r k' :
  proc_alloc k = Ok r k' -> r <> 0 ->
  proc_cache k = r :: proc_cache k' /\
  kmem k' = kmem k /\ run_queue k' = run_queue k /\
  pids k' = (alloc_pid (pids k)).2 /\
  get_proc k' r = set_pid (alloc_pid (pids k)).1 zero_process /\
  (alloc_pid (pids k)).1 <> -1 /\
  (forall r', r' <> r -> procs k' !! r' = procs k !! r').
Proof.
  intros Halloc Hr. unfold proc_alloc, slab_alloc in Halloc.
  destruct (proc_cache k) as [|r0 rest] eqn:Hc.
  { inversion Halloc. congruence. }
  destruct (Z.eqb_spec r0 0) as [->|Hr0].
  { inversion Halloc. congruence. }
  cbn [pids set_procs set_proc_cache] in Halloc.
  destruct (alloc_pid (pids k)) as [p st]; cbn [fst snd] in *.
  rewrite get_proc_upd in Halloc. cbn [pid set_pid] in Halloc.
  destruct (Z.eqb_spec p (-1)) as [|Hp].
  { destruct (proc_free _ _); inversion Halloc; congruence. }
  injection Halloc as <- <-.
  rewrite get_proc_upd. cbn [pid set_pid pids upd_proc set_procs set_pids
                             proc_cache set_proc_cache kmem run_queue procs].
  split_and!; auto.
  - unfold get_proc. cbn. now rewrite lookup_insert_eq.
  - intros r' Hne. now rewrite !lookup_insert_ne by congruence.
Qed.

Variable loader : list Z -> Z -> process -> mem -> bool * process * mem.
Hypothesis loader_contract : loader_ok loader.

(** A successful [init_proc_from_elf] on a record fresh from [proc_alloc]. *)
Lemma init_proc_from_elf_maps r elf size k k' :
  layout_ok -> pmm_free (kmem k) = F0 -> mem_pages (get_proc k r) = 0 ->
  init_proc_from_elf loader r elf size k = (true, k') ->
  accounted F0 r k' /\ only_record r k k' /\
  page_dir (get_proc k' r) ∈ F0 /\
  kernel_stack (get_proc k' r) = PROC_KERNEL_STACK /\
  user_stack (get_proc k' r) = PROC_USER_STACK /\
  exists s1 s2,
    s1 ∈ F0 /\ s2 ∈ F0 /\ s1 <> s2 /\
    translate (kmem k') (page_dir (get_proc k' r))
              (wrap32 (PROC_KERNEL_STACK - PAGE_SIZE)) = Some (s1, VMM_WRITABLE) /\
    translate (kmem k') (page_dir (get_proc k' r))
              (wrap32 (PROC_USER_STACK - PAGE_SIZE))
    = Some (s2, Z.lor VMM_WRITABLE VMM_USER).
Proof.
  intros Hlay Hfree Hmp Hrun.
  pose proof (init_proc_from_elf_spec F0 F0_NoDup F0_nonzero loader loader_contract
                r elf size k Hlay Hfree Hmp) as Hspec.
  pose proof (init_proc_from_elf_only_record loader r elf size k) as Hrec.
  rewrite Hrun in Hspec, Hrec. cbn [fst snd] in Hspec, Hrec.
  destruct Hspec as [(? & _)|Hacc]; [discriminate|].
  split; [exact Hacc|]. split; [exact Hrec|].
  assert (HdF : page_dir (get_proc k' r) ∈ F0).
  { apply (accounted_space_in F0 r k' _ Hacc). left. }
  split; [exact HdF|].
  revert Hrun.
  unfold init_proc_from_elf, vmm_alloc_vaddr_space, pmm_alloc_page_address.
  destruct (pmm_free (kmem k)) as [|d rest] eqn:Hf.
  { cbn beta iota zeta. cbn [Z.eqb]. rewrite get_proc_upd.
    cbn [page_dir set_page_dir Z.eqb fst snd]. discriminate. }
  assert (Hd0 : d <> 0) by (intros ->; apply F0_nonzero; rewrite <- Hfree; left).
  repeat first [rewrite (proj2 (Z.eqb_neq d 0) Hd0) | progress cbn beta iota zeta].
  set (m1 := set_page_dirs (<[d := ∅]> (page_dirs (set_pmm_free rest (kmem k))))
                           (set_pmm_free rest (kmem k))).
  set (k1 := upd_proc r (set_page_dir d) (set_kmem m1 k)).
  assert (Hpd1 : page_dir (get_proc k1 r) = d) by (subst k1; now rewrite get_proc_upd).
  rewrite Hpd1.
  repeat first [rewrite (proj2 (Z.eqb_neq d 0) Hd0) | progress cbn beta iota zeta].
  set (k2 := add_mem_pages r 1 k1).
  assert (Hpd2 : page_dir (get_proc k2 r) = d) by (subst k2; now rewrite page_dir_add).
  assert (Hdir2 : dir_of (kmem k2) d = ∅).
  { unfold dir_of. change (kmem k2) with m1. cbn. now rewrite lookup_insert_eq. }
  assert (Hsp2 : space_frames (kmem k2) d = [d]).
  { unfold space_frames, user_tables. now rewrite Hdir2, slot_addrs_empty. }
  assert (Hmp2 : mem_pages (get_proc k2 r) = wrap32 1).
  { subst k2. rewrite mem_pages_add. subst k1.
    rewrite get_proc_upd, get_proc_set_kmem. cbn [mem_pages set_page_dir].
    now rewrite Hmp. }
  assert (Hstk2 : stack_pages_free (kmem k2) d).
  { unfold stack_pages_free, page_mapped. now rewrite Hdir2, !lookup_empty. }
  pose proof (loader_contract F0 elf size (get_proc k2 r) (kmem k2) F0_NoDup F0_nonzero)
    as Hload.
  rewrite Hpd2, Hsp2 in Hload.
  specialize (Hload Hd0).
  destruct Hload as (C1 & C2 & C3 & C4); auto.
  { now rewrite <- Hfree. }
  destruct (loader elf size (get_proc k2 r) (kmem k2)) as [[ok p'] m'].
  cbn [fst snd] in C1, C2, C3, C4.
  set (k3 := set_kmem m' (upd_proc r (fun _ => p') k2)).
  assert (Hg3 : get_proc k3 r = p') by (subst k3; now rewrite get_proc_set_kmem, get_proc_upd).
  assert (Hacc3 : accounted F0 r k3).
  { unfold accounted. rewrite Hg3, C1. split_and!; assumption. }
  destruct ok; cbn [negb]; [|discriminate].
  pose proof (alloc_proc_stacks_maps r k3) as Hst.
  rewrite Hg3, C1 in Hst.
  destruct (alloc_proc_stacks r k3) as [st k4].
  destruct st; cbn [negb]; [|discriminate].
  destruct (Hst k4 Hlay Hacc3 (C4 eq_refl) eq_refl)
    as (s1 & s2 & Hs1 & Hs2 & Hne & Hpd4 & T1 & T2 & Hks & Hus & _).
  destruct Hlay as (HP & HN & Hal & HKB).
  destruct (stack_pages_layout HP HN Hal HKB) as (L1 & L2 & L3 & L4 & L5 & L6 & L7).
  intros Hrun. injection Hrun as <-.
  rewrite get_proc_set_kmem, Hpd4. cbn [kmem set_kmem].
  split; [exact Hks|]. split; [exact Hus|].
  exists s1, s2. split_and!; auto.
  - rewrite translate_pg_copy_kernel_space by lia. exact T1.
  - rewrite translate_pg_copy_kernel_space by lia. exact T2.
Qed.

(** A successful [proc_exec]. *)
Lemma proc_exec_success_spec elf size k k' :
  layout_ok -> pmm_free (kmem k) = F0 ->
  proc_exec loader elf size k = Ok true k' ->
  exists r,
    r <> 0 /\ proc_cache k = r :: proc_cache k' /\
    run_queue k' = run_queue k ++ [r] /\
    pids k' = (alloc_pid (pids k)).2 /\
    (forall r', r' <> r -> procs k' !! r' = procs k !! r') /\
    state (get_proc k' r) = PROC_STATE_RUNNING /\
    kernel_stack (get_proc k' r) = PROC_KERNEL_STACK /\
    user_stack (get_proc k' r) = PROC_USER_STACK /\
    accounted F0 r k' /\
    exists s1 s2,
      s1 ∈ F0 /\ s2 ∈ F0 /\ s1 <> s2 /\
      translate (kmem k') (page_dir (get_proc k' r))
                (wrap32 (PROC_KERNEL_STACK - PAGE_SIZE)) = Some (s1, VMM_WRITABLE) /\
      translate (kmem k') (page_dir (get_proc k' r))
                (wrap32 (PROC_USER_STACK - PAGE_SIZE))
      = Some (s2, Z.lor VMM_WRITABLE VMM_USER).
Proof.
  intros Hlay Hfree Hexec. unfold proc_exec in Hexec.
  destruct (proc_alloc k) as [r k1|] eqn:Halloc; [|discriminate].
  destruct (Z.eqb_spec r 0) as [|Hr]; [discriminate|].
  destruct (proc_alloc_success k r k1 Halloc Hr)
    as (Hc & Hm & Hq & Hp & Hg & _ & Hothers).
  destruct (init_proc_from_elf loader r elf size k1) as [ok k2] eqn:Hinit.
  destruct ok; cbn [negb] in Hexec.
  2: { destruct (proc_free r k2); discriminate. }
  injection Hexec as <-.
  destruct (init_proc_from_elf_maps r elf size k1 k2 Hlay) as
    (Hacc & (R1 & R2 & R3 & R4) & HdF & Hks & Hus & s1 & s2 & Hs); auto.
  { now rewrite Hm. }
  { now rewrite Hg. }
  exists r. unfold sched_add.
  rewrite get_proc_set_run_queue_upd.
  cbn [state kernel_stack user_stack page_dir set_state].
  split_and!; auto.
  - cbn. congruence.
  - cbn. congruence.
  - cbn. congruence.
  - intros r' Hne. cbn. rewrite lookup_insert_ne by congruence.
    rewrite R4 by assumption. now apply Hothers.
  - destruct Hacc as (B1 & B2 & B3). unfold accounted.
    rewrite get_proc_set_run_queue_upd. cbn [page_dir mem_pages set_state].
    split_and!; assumption.
  - exists s1, s2. exact Hs.
Qed.

End BuilderSuccess.

(** X7: when [alloc_proc_stacks] succeeds on a record whose count is right
    and whose two stack pages are not mapped, the page below
    [PROC_KERNEL_STACK] resolves to one frame with flag [VMM_WRITABLE], the
    page below [PROC_USER_STACK] to another frame with flags
    [VMM_WRITABLE | VMM_USER], the record holds the two stack addresses, its
    directory is the same, its count is still right, and the pages in the
    other directory slots resolve as before. *)
Theorem alloc_proc_stacks_maps_both_stacks `{PF : Platform}
    (F0 : list Z) (r : Z) (k k' : kernel) :
  layout_ok -> NoDup F0 -> 0 ∉ F0 -> accounted F0 r k ->
  stack_pages_free (kmem k) (page_dir (get_proc k r)) ->
  alloc_proc_stacks r k = (true, k') ->
  accounted F0 r k' /\
  exists s1 s2,
    s1 ∈ F0 /\ s2 ∈ F0 /\ s1 <> s2 /\
    page_dir (get_proc k' r) = page_dir (get_proc k r) /\
    translate (kmem k') (page_dir (get_proc k r))
              (wrap32 (PROC_KERNEL_STACK - PAGE_SIZE)) = Some (s1, VMM_WRITABLE) /\
    translate (kmem k') (page_dir (get_proc k r))
              (wrap32 (PROC_USER_STACK - PAGE_SIZE))
    = Some (s2, Z.lor VMM_WRITABLE VMM_USER) /\
    kernel_stack (get_proc k' r) = PROC_KERNEL_STACK /\
    user_stack (get_proc k' r) = PROC_USER_STACK /\
    (forall v, 0 <= pde_index v < USER_PDES ->
       pde_index v <> pde_index (wrap32 (PROC_KERNEL_STACK - PAGE_SIZE)) ->
       pde_index v <> pde_index (wrap32 (PROC_USER_STACK - PAGE_SIZE)) ->
       translate (kmem k') (page_dir (get_proc k r)) v
       = translate (kmem k) (page_dir (get_proc k r)) v).
Proof.
  intros Hlay Hnd H0 Hacc Hstk Hrun. split.
  - pose proof (alloc_proc_stacks_accounted F0 Hnd H0 r k Hlay Hacc Hstk) as H.
    now rewrite Hrun in H.
  - now apply alloc_proc_stacks_maps.
Qed.

Lemma demo_dir_accounted :
  accounted (PF := demo_platform) (pmm_free (kmem demo_kernel)) 200 demo_kernel_dir.
Proof.
  unfold accounted. split_and!.
  - discriminate.
  - change (page_dir (get_proc demo_kernel_dir 200)) with 28672.
    replace (space_frames (PF := demo_platform) (kmem demo_kernel_dir) 28672)
      with [28672]; [reflexivity|].
    vm_compute. reflexivity.
  - vm_compute. reflexivity.
Qed.

Lemma demo_dir_stacks_free :
  stack_pages_free (PF := demo_platform) (kmem demo_kernel_dir)
                   (page_dir (get_proc demo_kernel_dir 200)).
Proof. split; vm_compute; reflexivity. Qed.

Lemma demo_dir_stacks_succeed :
  exists k', alloc_proc_stacks (PF := demo_platform) 200 demo_kernel_dir = (true, k').
Proof. eexists. vm_compute. reflexivity. Qed.

Lemma alloc_proc_stacks_maps_both_stacks_witness :
  exists k' s1 s2,
    alloc_proc_stacks (PF := demo_platform) 200 demo_kernel_dir = (true, k') /\
    s1 <> s2 /\
    translate (PF := demo_platform) (kmem k') 28672 3221155840 = Some (s1, 2) /\
    translate (PF := demo_platform) (kmem k') 28672 3217027072 = Some (s2, 6).
Proof.
  destruct demo_dir_stacks_succeed as [k' Hrun].
  assert (Hnd : NoDup (pmm_free (kmem demo_kernel))) by by_compute.
  assert (H0 : 0 ∉ pmm_free (kmem demo_kernel)) by by_compute.
  destruct (alloc_proc_stacks_maps_both_stacks (PF := demo_platform)
              (pmm_free (kmem demo_kernel)) 200 demo_kernel_dir k'
              demo_layout_ok Hnd H0 demo_dir_accounted demo_dir_stacks_free Hrun)
    as (_ & s1 & s2 & _ & _ & Hne & _ & T1 & T2 & _).
  exists k', s1, s2. split_and!; [exact Hrun | exact Hne | exact T1 | exact T2].
Defined.

(** X8: a [proc_exec] that reports success took the record at the head of
    the pool, gave it the PID [alloc_pid] found, put it in state
    [PROC_STATE_RUNNING] and appended it to the run queue; the record holds
    the two stack addresses, each stack page resolves to a frame of its own
    with the flags of its mapping, the record's count of pages is the number
    of frames of its address space, and every other record is as before.
    The loader is any that honours its contract with [process.c]. *)
Theorem exec_success_builds_process `{PF : Platform}
    (loader : list Z -> Z -> process -> mem -> bool * process * mem)
    (elf : list Z) (size : Z) (k k' : kernel) :
  layout_ok -> loader_ok loader ->
  NoDup (pmm_free (kmem k)) -> 0 ∉ pmm_free (kmem k) ->
  proc_exec loader elf size k = Ok true k' ->
  exists r,
    r <> 0 /\ proc_cache k = r :: proc_cache k' /\
    run_queue k' = run_queue k ++ [r] /\
    pids k' = (alloc_pid (pids k)).2 /\
    (forall r', r' <> r -> procs k' !! r' = procs k !! r') /\
    state (get_proc k' r) = PROC_STATE_RUNNING /\
    kernel_stack (get_proc k' r) = PROC_KERNEL_STACK /\
    user_stack (get_proc k' r) = PROC_USER_STACK /\
    accounted (pmm_free (kmem k)) r k' /\
    exists s1 s2,
      s1 ∈ pmm_free (kmem k) /\ s2 ∈ pmm_free (kmem k) /\ s1 <> s2 /\
      translate (kmem k') (page_dir (get_proc k' r))
                (wrap32 (PROC_KERNEL_STACK - PAGE_SIZE)) = Some (s1, VMM_WRITABLE) /\
      translate (kmem k') (page_dir (get_proc k' r))
                (wrap32 (PROC_USER_STACK - PAGE_SIZE))
      = Some (s2, Z.lor VMM_WRITABLE VMM_USER).
Proof.
  intros Hlay Hload Hnd H0 Hexec.
  now apply (proc_exec_success_spec _ Hnd H0 loader Hload elf size k k').
Qed.

(** Eight free frames are enough: [proc_exec] succeeds. *)
Lemma demo_exec_succeeds :
  exists k', proc_exec (PF := demo_platform) demo_loader [127; 69] 2 demo_kernel
             = Ok true k'.
Proof. eexists. vm_compute. reflexivity. Qed.

Lemma exec_success_builds_process_witness :
  exists k' r,
    proc_exec (PF := demo_platform) demo_loader [127; 69] 2 demo_kernel = Ok true k' /\
    proc_cache demo_kernel = r :: proc_cache k' /\
    run_queue k' = run_queue demo_kernel ++ [r] /\
    state (get_proc k' r) = PROC_STATE_RUNNING (Platform := demo_platform).
Proof.
  destruct demo_exec_succeeds as [k' Hexec].
  assert (Hnd : NoDup (pmm_free (kmem demo_kernel))) by by_compute.
  assert (H0 : 0 ∉ pmm_free (kmem demo_kernel)) by by_compute.
  destruct (exec_success_builds_process (PF := demo_platform) demo_loader [127; 69] 2
              demo_kernel k' demo_layout_ok demo_loader_ok Hnd H0 Hexec)
    as (r & _ & Hc & Hq & _ & _ & Hs & _).
  exists k', r. split_and!; [exact Hexec | exact Hc | exact Hq | exact Hs].
Defined.

(** X9: [proc_free] of the record a successful [proc_exec] has built does
    not panic; afterwards the free frames are those from before the
    [proc_exec], and the record is back at the head of the pool, which is as
    it was before.  [proc_free] leaves the record on the run queue. *)
Theorem exec_then_free_restores_frames `{PF : Platform}
    (loader : list Z -> Z -> process -> mem -> bool * process * mem)
    (elf : list Z) (size : Z) (k k' : kernel) :
  layout_ok -> loader_ok loader ->
  NoDup (pmm_free (kmem k)) -> 0 ∉ pmm_free (kmem k) ->
  proc_exec loader elf size k = Ok true k' ->
  exists r k'',
    run_queue k' = run_queue k ++ [r] /\
    proc_free r k' = Ok tt k'' /\
    pmm_free (kmem k'') ≡ₚ pmm_free (kmem k) /\
    proc_cache k'' = proc_cache k /\
    run_queue k'' = run_queue k ++ [r] /\
    (forall r', r' <> r -> get_proc k'' r' = get_proc k r').
Proof.
  intros Hlay Hload Hnd H0 Hexec.
  destruct (proc_exec_success_spec _ Hnd H0 loader Hload elf size k k' Hlay eq_refl Hexec)
    as (r & Hr & Hc & Hq & _ & Hothers & _ & _ & _ & Hacc & _).
  destruct (proc_free_accounted _ r k' Hnd H0 Hacc)
    as (k'' & Hfree & Hperm & _ & Hprocs & Honly & Hq' & Hc').
  exists r, k''. split_and!; auto.
  - congruence.
  - congruence.
  - intros r' Hne. unfold get_proc at 1. rewrite Hprocs.
    fold (get_proc (free_vaddr_space r k') r').
    rewrite (only_mem_get_ne _ _ _ _ Honly) by assumption.
    unfold get_proc. now rewrite Hothers.
Qed.

Lemma exec_then_free_restores_frames_witness :
  exists k' r k'',
    proc_exec (PF := demo_platform) demo_loader [127; 69] 2 demo_kernel = Ok true k' /\
    proc_free (PF := demo_platform) r k' = Ok tt k'' /\
    pmm_free (kmem k'') ≡ₚ pmm_free (kmem demo_kernel) /\
    proc_cache k'' = proc_cache demo_kernel.
Proof.
  destruct demo_exec_succeeds as [k' Hexec].
  assert (Hnd : NoDup (pmm_free (kmem demo_kernel))) by by_compute.
  assert (H0 : 0 ∉ pmm_free (kmem demo_kernel)) by by_compute.
  destruct (exec_then_free_restores_frames (PF := demo_platform) demo_loader [127; 69] 2
              demo_kernel k' demo_layout_ok demo_loader_ok Hnd H0 Hexec)
    as (r & k'' & _ & Hfree & Hperm & Hc & _).
  exists k', r, k''. split_and!; [exact Hexec | exact Hfree | exact Hperm | exact Hc].
Defined.

(** ** The clone, its source and the pool *)

Section CloneFacts.

Context {PF : Platform}.

(** What a right count says of a record's frames and of the free frames. *)
Lemma accounted_source FA p k :
  NoDup FA -> 0 ∉ FA -> accounted FA p k ->
  NoDup (pmm_free (kmem k)) /\ (0 ∉ pmm_free (kmem k)) /\
  NoDup (space_frames (kmem k) (page_dir (get_proc k p))) /\
  (0 ∉ space_frames (kmem k) (page_dir (get_proc k p))) /\
  (forall a, a ∈ space_frames (kmem k) (page_dir (get_proc k p)) ->
             a ∉ pmm_free (kmem k)).
Proof.
  intros Hnd H0 Hacc.
  pose proof (accounted_NoDup FA p Hnd k Hacc) as Hnd2.
  apply NoDup_app in Hnd2 as (N1 & N2 & N3).
  split_and!; auto.
  - intros Hin. apply H0. now apply (accounted_free_in FA p k).
  - intros Hin. apply H0. now apply (accounted_space_in FA p k).
Qed.

Lemma frames_kept_space F m m' d :
  frames_kept F m m' -> (forall a, a ∈ space_frames m d -> a ∉ F) ->
  space_frames m' d = space_frames m d.
Proof.
  intros Hk Hout. apply space_frames_ext.
  - apply Hk, Hout. left.
  - intros t Ht. apply Hk, Hout. now apply user_tables_space.
Qed.

(** A PID released right after [alloc_pid] handed it out. *)
Lemma alloc_free_bits st :
  pid_wf st -> (alloc_pid st).1 <> -1 ->
  0 <= (alloc_pid st).1 < PROC_MAX_NUM /\
  pid_in_use (pid_map st) (alloc_pid st).1 = false /\
  (forall q, 0 <= q < PROC_MAX_NUM ->
     pid_in_use (pid_map (alloc_pid st).2) q
     = if decide (q = (alloc_pid st).1) then true else pid_in_use (pid_map st) q) /\
  (forall q, 0 <= q < PROC_MAX_NUM ->
     pid_in_use (pid_map (free_pid (alloc_pid st).1 (alloc_pid st).2)) q
     = pid_in_use (pid_map st) q).
Proof.
  intros Hwf Hok. pose proof Hwf as [Hg Hlen].
  destruct (alloc_pid_loop_spec (Z.to_nat PROC_MAX_NUM) st Hwf)
    as [(H1 & _)|(i & Hi & H1 & H2 & H3 & H4 & H5)];
    fold (alloc_pid st) in *; [contradiction|].
  assert (Hr : 0 <= (alloc_pid st).1 < PROC_MAX_NUM)
    by (rewrite H1; apply Z.mod_pos_bound; lia).
  split_and!; [lia | lia | exact H3 | |].
  - intros q Hq. rewrite H4. apply pid_in_use_mark; lia.
  - intros q Hq. cbn. rewrite H4.
    rewrite pid_in_use_clear by (rewrite ?pid_mark_length; lia).
    case_decide as Hd; [now subst q|].
    rewrite pid_in_use_mark by lia. now case_decide.
Qed.

(** [proc_alloc] when it hands out nothing. *)
Lemma proc_alloc_none k k' :
  pid_wf (pids k) -> 0 ∉ proc_cache k -> proc_alloc k = Ok 0 k' ->
  proc_cache k' = proc_cache k /\ kmem k' = kmem k /\ pids k' = pids k /\
  run_queue k' = run_queue k /\
  (forall r, r ∉ proc_cache k -> procs k' !! r = procs k !! r).
Proof.
  intros Hwf H0 Halloc.
  destruct (proc_alloc_cases k) as (c & k1 & Halloc' & _ & Hothers & _).
  rewrite Halloc in Halloc'. injection Halloc' as <- <-.
  split_and!; [| | | |exact Hothers];
    destruct (Z.eq_dec (alloc_pid (pids k)).1 (-1)) as [Hfail|Hok].
  1,3,5,7: destruct (proc_alloc_exhausted k Hwf H0 Hfail) as (k2 & E & ? & ? & ? & ?);
    rewrite Halloc in E; injection E as <-; assumption.
  all: unfold proc_alloc, slab_alloc in Halloc;
    destruct (proc_cache k) as [|r0 rest] eqn:Hc; [now injection Halloc as <-|];
    exfalso;
    destruct (Z.eqb_spec r0 0) as [->|Hr0]; [apply H0; left|];
    cbn [pids set_procs set_proc_cache] in Halloc;
    destruct (alloc_pid (pids k)) as [pd st]; cbn [fst] in Hok;
    rewrite get_proc_upd in Halloc; cbn [pid set_pid] in Halloc;
    destruct (Z.eqb_spec pd (-1)); [contradiction|];
    injection Halloc as E _; contradiction.
Qed.

(** The PIDs and the pool after a [proc_free] that does not panic. *)
Lemma proc_free_pids FA r k k' :
  NoDup FA -> 0 ∉ FA -> accounted FA r k -> proc_free r k = Ok tt k' ->
  pids k' = (if pid (get_proc k r) =? -1 then pids k
             else free_pid (pid (get_proc k r)) (pids k)).
Proof.
  intros Hnd H0 Hacc Hfree.
  destruct (proc_free_accounted FA r k Hnd H0 Hacc) as (k2 & E & _ & _ & _ & C4 & _).
  rewrite Hfree in E. injection E as <-.
  unfold proc_free in Hfree. destruct (_ =? 0) in Hfree; [|discriminate].
  injection Hfree as <-.
  cbn [pids slab_free set_proc_cache]. unfold proc_reclaim, release_pid.
  rewrite (only_mem_pid r r k _ C4).
  destruct C4 as (E1 & _). destruct (_ =? -1); cbn [pids set_pids]; now rewrite ?E1.
Qed.

(** The record of a clone. *)
Lemma proc_clone_record FA p k c k' :
  NoDup FA -> 0 ∉ FA -> accounted FA p k -> p ∉ proc_cache k ->
  proc_clone p k = Ok c k' -> c <> 0 ->
  proc_cache k = c :: proc_cache k' /\
  run_queue k' = run_queue k ++ [c] /\
  pids k' = (alloc_pid (pids k)).2 /\
  (forall r', r' <> c -> procs k' !! r' = procs k !! r') /\
  pid (get_proc k' c) = (alloc_pid (pids k)).1 /\
  (alloc_pid (pids k)).1 <> -1 /\
  state (get_proc k' c) = PROC_STATE_RUNNING /\
  status (get_proc k' c) = 0 /\
  context (get_proc k' c) = context (get_proc k p) /\
  entry (get_proc k' c) = entry (get_proc k p) /\
  kernel_stack (get_proc k' c) = kernel_stack (get_proc k p) /\
  user_stack (get_proc k' c) = user_stack (get_proc k p) /\
  parent (get_proc k' c) = p.
Proof.
  intros Hnd H0 Hacc Hlive Hclone Hc0.
  destruct (accounted_source FA p k Hnd H0 Hacc) as (N1 & N2 & N3 & N4 & N5).
  unfold proc_clone in Hclone.
  destruct (proc_alloc k) as [c1 k1|] eqn:Halloc; [|discriminate].
  destruct (Z.eqb_spec c1 0) as [->|Hc1].
  { injection Hclone as E _. congruence. }
  destruct (proc_alloc_success k c1 k1 Halloc Hc1)
    as (Hc & Hm & Hq & Hp & Hg & Hpd & Hothers).
  assert (Hpc : p <> c1).
  { intros ->. apply Hlive. rewrite Hc. left. }
  assert (Hp1 : get_proc k1 p = get_proc k p).
  { unfold get_proc. now rewrite Hothers. }
  destruct (init_proc_from_proc_spec (pmm_free (kmem k)) (page_dir (get_proc k p)) c1 p k1)
    as (A1 & _); auto.
  { now rewrite Hm. }
  { now rewrite Hp1. }
  { now rewrite Hg. }
  { now rewrite Hm. }
  { now rewrite Hm. }
  destruct (init_proc_from_proc c1 p k1) as [ok k2]. cbn [snd] in A1.
  assert (Hp2 : get_proc k2 p = get_proc k p).
  { now rewrite (only_space_get_ne c1 p k1 k2 A1 Hpc). }
  destruct ok; cbn [negb] in Hclone.
  2: { destruct (proc_free c1 k2); [injection Hclone as E _; congruence | discriminate]. }
  destruct (negb _); [discriminate|].
  injection Hclone as <- <-.
  unfold sched_add. rewrite get_proc_set_run_queue_upd, Hp2.
  cbn [pid state status context entry kernel_stack user_stack parent
       set_parent set_user_stack set_kernel_stack set_entry set_context set_state].
  destruct A1 as (E1 & E2 & E3 & _ & _ & E6 & E7).
  split_and!; auto.
  - cbn. congruence.
  - cbn. congruence.
  - cbn. congruence.
  - intros r' Hne. cbn. rewrite lookup_insert_ne by congruence.
    rewrite E6 by assumption. now apply Hothers.
  - apply (f_equal pid) in E7. cbn in E7. rewrite E7, Hg. reflexivity.
  - apply (f_equal status) in E7. cbn in E7. rewrite E7, Hg. reflexivity.
Qed.

(** [proc_clone] of a source whose count is right. *)
Lemma proc_clone_total FA p k :
  NoDup FA -> 0 ∉ FA -> accounted FA p k -> p ∉ proc_cache k ->
  exists c k',
    proc_clone p k = Ok c k' /\
    get_proc k' p = get_proc k p /\
    frames_kept (pmm_free (kmem k)) (kmem k) (kmem k') /\
    space_frames (kmem k') (page_dir (get_proc k p))
    = space_frames (kmem k) (page_dir (get_proc k p)) /\
    (c = 0 -> pmm_free (kmem k') ≡ₚ pmm_free (kmem k)) /\
    (c <> 0 -> accounted (pmm_free (kmem k)) c k').
Proof.
  intros Hnd H0 Hacc Hlive.
  destruct (accounted_source FA p k Hnd H0 Hacc) as (N1 & N2 & N3 & N4 & N5).
  pose proof (proc_clone_spec (pmm_free (kmem k)) (page_dir (get_proc k p)) p k
                eq_refl eq_refl N1 N2 Hlive N4) as Hspec.
  rewrite Forall_forall in Hspec. specialize (Hspec N5).
  destruct (proc_clone p k) as [c k'|k'].
  - destruct Hspec as (S1 & S2 & S3 & S4).
    exists c, k'. split_and!; auto.
    + now apply (frames_kept_space (pmm_free (kmem k))).
    + intros Hc. now destruct (S4 Hc) as (_ & _ & _ & ? & _).
  - destruct Hacc as (_ & _ & Hcnt). contradiction.
Qed.

End CloneFacts.

(** X10: the record of a clone.  [proc_clone] takes the record at the head
    of the pool and appends it to the run queue; the clone is in state
    [PROC_STATE_RUNNING] with exit status 0, has the source's saved
    context, entry address and two stack addresses, and the source as
    parent; its directory is not the source's; its PID is the one
    [alloc_pid] found, free before the call and in use after it, and no
    other PID changes; every other record is as before. *)
Theorem clone_inherits_context_with_new_pid `{PF : Platform}
    (FA : list Z) (p : Z) (k : kernel) (c : Z) (k' : kernel) :
  NoDup FA -> 0 ∉ FA -> accounted FA p k -> p ∉ proc_cache k ->
  pid_wf (pids k) ->
  proc_clone p k = Ok c k' -> c <> 0 ->
  proc_cache k = c :: proc_cache k' /\
  run_queue k' = run_queue k ++ [c] /\
  (forall r', r' <> c -> procs k' !! r' = procs k !! r') /\
  state (get_proc k' c) = PROC_STATE_RUNNING /\
  status (get_proc k' c) = 0 /\
  context (get_proc k' c) = context (get_proc k p) /\
  entry (get_proc k' c) = entry (get_proc k p) /\
  kernel_stack (get_proc k' c) = kernel_stack (get_proc k p) /\
  user_stack (get_proc k' c) = user_stack (get_proc k p) /\
  parent (get_proc k' c) = p /\
  page_dir (get_proc k' c) <> page_dir (get_proc k' p) /\
  0 <= pid (get_proc k' c) < PROC_MAX_NUM /\
  pid_in_use (pid_map (pids k)) (pid (get_proc k' c)) = false /\
  (forall q, 0 <= q < PROC_MAX_NUM ->
     pid_in_use (pid_map (pids k')) q
     = if decide (q = pid (get_proc k' c)) then true
       else pid_in_use (pid_map (pids k)) q).
Proof.
  intros Hnd H0 Hacc Hlive Hwf Hclone Hc0.
  destruct (proc_clone_record FA p k c k' Hnd H0 Hacc Hlive Hclone Hc0)
    as (R1 & R2 & R3 & R4 & R5 & R6 & R7 & R8 & R9 & R10 & R11 & R12 & R13).
  destruct (alloc_free_bits (pids k) Hwf R6) as (B1 & B2 & B3 & _).
  destruct (proc_clone_total FA p k Hnd H0 Hacc Hlive)
    as (c' & k2 & E & T1 & T2 & T3 & _ & T5).
  rewrite Hclone in E. injection E as <- <-.
  destruct (accounted_source FA p k Hnd H0 Hacc) as (_ & _ & _ & _ & N5).
  rewrite R5, R3. split_and!; auto; try lia.
  rewrite T1. intros Heq. apply (N5 (page_dir (get_proc k p))); [left|].
  rewrite <- Heq.
  apply (accounted_space_in (pmm_free (kmem k)) c k'); [now apply T5 | left].
Qed.

Lemma demo_clone_succeeds :
  exists k', proc_clone (PF := demo_platform) 100 demo_kernel = Ok 200 k'.
Proof. eexists. vm_compute. reflexivity. Qed.

Lemma clone_inherits_context_with_new_pid_witness :
  exists k',
    proc_clone (PF := demo_platform) 100 demo_kernel = Ok 200 k' /\
    run_queue k' = run_queue demo_kernel ++ [200] /\
    context (get_proc k' 200) = context (get_proc demo_kernel 100) /\
    pid_in_use (pid_map (pids demo_kernel)) (pid (get_proc k' 200)) = false.
Proof.
  destruct demo_clone_succeeds as [k' Hclone].
  assert (Hnd : NoDup ([4096; 8192; 12288; 16384; 20480; 24576]
                       ++ pmm_free (kmem demo_kernel))) by by_compute.
  assert (H0 : 0 ∉ [4096; 8192; 12288; 16384; 20480; 24576]
                   ++ pmm_free (kmem demo_kernel)) by by_compute.
  assert (Hlive : 100 ∉ proc_cache demo_kernel) by by_compute.
  assert (Hwf : pid_wf (PF := demo_platform) (pids demo_kernel)) by (split; simpl; lia).
  assert (Hc : 200 <> 0) by discriminate.
  destruct (clone_inherits_context_with_new_pid (PF := demo_platform) _ 100 demo_kernel
              200 k' Hnd H0 demo_accounted Hlive Hwf Hclone Hc)
    as (_ & Hq & _ & _ & _ & Hctx & _ & _ & _ & _ & _ & _ & Hfree & _).
  exists k'. split_and!; [exact Hclone | exact Hq | exact Hctx | exact Hfree].
Defined.

(** ** A clone and its source, released in either order *)

Section Lifetimes.

Context {PF : Platform}.

(** The count of a record is a matter of physical memory and of two
    fields of the record. *)
Lemma accounted_agree F r k k' :
  kmem k' = kmem k ->
  page_dir (get_proc k' r) = page_dir (get_proc k r) ->
  mem_pages (get_proc k' r) = mem_pages (get_proc k r) ->
  accounted F r k -> accounted F r k'.
Proof.
  intros Hm Hd Hc (A1 & A2 & A3). unfold accounted. rewrite Hm, Hd, Hc.
  split_and!; assumption.
Qed.

(** After a clone, the source's count is right for its own frames and the
    frames still free. *)
Lemma source_accounted_after_clone FA p k c k' :
  NoDup FA -> 0 ∉ FA -> accounted FA p k -> p ∉ proc_cache k ->
  proc_clone p k = Ok c k' -> c <> 0 ->
  let F1 := space_frames (kmem k) (page_dir (get_proc k p)) ++ pmm_free (kmem k') in
  NoDup F1 /\ (0 ∉ F1) /\ accounted F1 p k' /\
  accounted (pmm_free (kmem k)) c k' /\ c <> p /\
  (forall a, a ∈ space_frames (kmem k') (page_dir (get_proc k' c)) ->
             a ∉ space_frames (kmem k) (page_dir (get_proc k p))).
Proof.
  intros Hnd H0 Hacc Hlive Hclone Hc0 F1. subst F1.
  destruct (accounted_source FA p k Hnd H0 Hacc) as (N1 & N2 & N3 & N4 & N5).
  destruct (proc_clone_total FA p k Hnd H0 Hacc Hlive)
    as (c' & k2 & E & T1 & T2 & T3 & _ & T5).
  rewrite Hclone in E. injection E as <- <-. specialize (T5 Hc0).
  destruct (proc_clone_record FA p k c k' Hnd H0 Hacc Hlive Hclone Hc0) as (R1 & _).
  destruct (accounted_source _ c k' N1 N2 T5) as (M1 & M2 & M3 & M4 & M5).
  assert (Hsub : forall a, a ∈ pmm_free (kmem k') -> a ∈ pmm_free (kmem k)).
  { intros a Ha. now apply (accounted_free_in _ c k'). }
  split_and!.
  - apply NoDup_app. split_and!; auto. intros a Ha Hf. apply (N5 a Ha), Hsub, Hf.
  - intros Hin. apply elem_of_app in Hin as [Hin|Hin]; [contradiction|].
    apply N2, Hsub, Hin.
  - destruct Hacc as (A1 & A2 & A3). unfold accounted. rewrite T1, T3.
    split_and!; auto.
  - exact T5.
  - intros ->. apply Hlive. rewrite R1. left.
  - intros a Ha Hs. apply (N5 a Hs). now apply (accounted_space_in _ c k').
Qed.

End Lifetimes.

(** X11: [proc_free] of a clone just made does not panic and undoes the
    clone: the free frames are those from before [proc_clone], the pool is
    as it was, every PID is in use or free as it was, the source keeps its
    record and its count is still right, and every frame that was not free
    before the clone holds what it held. *)
Theorem clone_then_free_restores `{PF : Platform}
    (FA : list Z) (p : Z) (k : kernel) (c : Z) (k' : kernel) :
  NoDup FA -> 0 ∉ FA -> accounted FA p k -> p ∉ proc_cache k ->
  pid_wf (pids k) ->
  proc_clone p k = Ok c k' -> c <> 0 ->
  exists k'',
    proc_free c k' = Ok tt k'' /\
    pmm_free (kmem k'') ≡ₚ pmm_free (kmem k) /\
    proc_cache k'' = proc_cache k /\
    (forall q, 0 <= q < PROC_MAX_NUM ->
       pid_in_use (pid_map (pids k'')) q = pid_in_use (pid_map (pids k)) q) /\
    get_proc k'' p = get_proc k p /\
    accounted FA p k'' /\
    frames_kept (pmm_free (kmem k)) (kmem k) (kmem k'').
Proof.
  intros Hnd H0 Hacc Hlive Hwf Hclone Hc0.
  destruct (accounted_source FA p k Hnd H0 Hacc) as (N1 & N2 & N3 & N4 & N5).
  destruct (proc_clone_total FA p k Hnd H0 Hacc Hlive)
    as (c' & k2 & E & T1 & T2 & T3 & _ & T5).
  rewrite Hclone in E. injection E as <- <-. specialize (T5 Hc0).
  destruct (proc_clone_record FA p k c k' Hnd H0 Hacc Hlive Hclone Hc0)
    as (R1 & R2 & R3 & R4 & R5 & R6 & _).
  destruct (source_accounted_after_clone FA p k c k' Hnd H0 Hacc Hlive Hclone Hc0)
    as (_ & _ & _ & _ & Hcp & _).
  destruct (proc_free_accounted _ c k' N1 N2 T5)
    as (k'' & Hfree & C1 & C2 & C3 & C4 & C5 & C6).
  pose proof (proc_free_pids _ c k' k'' N1 N2 T5 Hfree) as Hpids.
  rewrite R5, (proj2 (Z.eqb_neq _ _) R6), R3 in Hpids.
  destruct (alloc_free_bits (pids k) Hwf R6) as (_ & _ & _ & B4).
  assert (Hkept : frames_kept (pmm_free (kmem k)) (kmem k) (kmem k'')).
  { eapply frames_kept_trans; [exact T2|].
    eapply frames_kept_mono; [|exact C2].
    intros a Ha. now apply (accounted_space_in _ c k'). }
  assert (Hp : get_proc k'' p = get_proc k p).
  { rewrite <- T1. unfold get_proc at 1. rewrite C3.
    fold (get_proc (free_vaddr_space c k') p).
    apply (only_mem_get_ne c p k'); [assumption | congruence]. }
  exists k''. split_and!; auto.
  - congruence.
  - intros q Hq. rewrite Hpids. now apply B4.
  - destruct Hacc as (A1 & A2 & A3). unfold accounted. rewrite Hp.
    rewrite (frames_kept_space (pmm_free (kmem k)) (kmem k) (kmem k'')) by assumption.
    split_and!; auto. rewrite C1. exact A2.
Qed.

Lemma clone_then_free_restores_witness :
  exists k' k'',
    proc_clone (PF := demo_platform) 100 demo_kernel = Ok 200 k' /\
    proc_free (PF := demo_platform) 200 k' = Ok tt k'' /\
    pmm_free (kmem k'') ≡ₚ pmm_free (kmem demo_kernel) /\
    proc_cache k'' = proc_cache demo_kernel.
Proof.
  destruct demo_clone_succeeds as [k' Hclone].
  assert (Hnd : NoDup ([4096; 8192; 12288; 16384; 20480; 24576]
                       ++ pmm_free (kmem demo_kernel))) by by_compute.
  assert (H0 : 0 ∉ [4096; 8192; 12288; 16384; 20480; 24576]
                   ++ pmm_free (kmem demo_kernel)) by by_compute.
  assert (Hlive : 100 ∉ proc_cache demo_kernel) by by_compute.
  assert (Hwf : pid_wf (PF := demo_platform) (pids demo_kernel)) by (split; simpl; lia).
  assert (Hc : 200 <> 0) by discriminate.
  destruct (clone_then_free_restores (PF := demo_platform) _ 100 demo_kernel
              200 k' Hnd H0 demo_accounted Hlive Hwf Hclone Hc)
    as (k'' & Hfree & Hperm & Hpool & _).
  exists k', k''. split_and!; [exact Hclone | exact Hfree | exact Hperm | exact Hpool].
Defined.

(** X12: the clone outlives its source.  When the source of a clone is
    released by [proc_free], [proc_free] does not panic; the clone keeps
    its record, its directory, its page tables and the bytes of its pages,
    and its count is still right.  The clone's [parent] still names the
    source's record, which is back in the pool. *)
Theorem clone_survives_release_of_source `{PF : Platform}
    (FA : list Z) (p : Z) (k : kernel) (c : Z) (k' : kernel) :
  NoDup FA -> 0 ∉ FA -> accounted FA p k -> p ∉ proc_cache k ->
  proc_clone p k = Ok c k' -> c <> 0 ->
  exists k'',
    proc_free p k' = Ok tt k'' /\
    get_proc k'' c = get_proc k' c /\
    parent (get_proc k'' c) = p /\
    p ∈ proc_cache k'' /\
    accounted FA c k'' /\
    (forall a, a ∈ space_frames (kmem k') (page_dir (get_proc k' c)) ->
       page_dirs (kmem k'') !! a = page_dirs (kmem k') !! a /\
       page_tabs (kmem k'') !! a = page_tabs (kmem k') !! a /\
       phys (kmem k'') !! a = phys (kmem k') !! a).
Proof.
  intros Hnd H0 Hacc Hlive Hclone Hc0.
  destruct (source_accounted_after_clone FA p k c k' Hnd H0 Hacc Hlive Hclone Hc0)
    as (F1 & F2 & F3 & F4 & Hcp & Hdisj).
  destruct (proc_clone_record FA p k c k' Hnd H0 Hacc Hlive Hclone Hc0)
    as (_ & _ & _ & _ & _ & _ & _ & _ & _ & _ & _ & _ & R13).
  destruct (proc_clone_total FA p k Hnd H0 Hacc Hlive)
    as (c' & k2 & E & T1 & T2 & T3 & _).
  rewrite Hclone in E. injection E as <- <-.
  destruct (proc_free_accounted _ p k' F1 F2 F3)
    as (k'' & Hfree & C1 & C2 & C3 & C4 & C5 & C6).
  rewrite T1, T3 in C2.
  assert (Hc : get_proc k'' c = get_proc k' c).
  { unfold get_proc at 1. rewrite C3. fold (get_proc (free_vaddr_space p k') c).
    now apply (only_mem_get_ne p c k'). }
  exists k''. split_and!.
  - exact Hfree.
  - exact Hc.
  - now rewrite Hc.
  - rewrite C6. left.
  - destruct F4 as (A1 & A2 & A3). destruct Hacc as (_ & B2 & _).
    unfold accounted. rewrite Hc.
    rewrite (frames_kept_space _ (kmem k') (kmem k'') _ C2) by assumption.
    split_and!; auto.
    rewrite C1, <- B2, <- A2. solve_Permutation.
  - intros a Ha. apply C2. now apply Hdisj.
Qed.

Lemma clone_survives_release_of_source_witness :
  exists k' k'',
    proc_clone (PF := demo_platform) 100 demo_kernel = Ok 200 k' /\
    proc_free (PF := demo_platform) 100 k' = Ok tt k'' /\
    get_proc k'' 200 = get_proc k' 200 /\
    parent (get_proc k'' 200) = 100.
Proof.
  destruct demo_clone_succeeds as [k' Hclone].
  assert (Hnd : NoDup ([4096; 8192; 12288; 16384; 20480; 24576]
                       ++ pmm_free (kmem demo_kernel))) by by_compute.
  assert (H0 : 0 ∉ [4096; 8192; 12288; 16384; 20480; 24576]
                   ++ pmm_free (kmem demo_kernel)) by by_compute.
  assert (Hlive : 100 ∉ proc_cache demo_kernel) by by_compute.
  assert (Hc : 200 <> 0) by discriminate.
  destruct (clone_survives_release_of_source (PF := demo_platform) _ 100 demo_kernel
              200 k' Hnd H0 demo_accounted Hlive Hclone Hc)
    as (k'' & Hfree & Hrec & Hpar & _).
  exists k', k''. split_and!; [exact Hclone | exact Hfree | exact Hrec | exact Hpar].
Defined.

Section Failure.

Context {PF : Platform}.

Lemma proc_cache_release_pid r k : proc_cache (release_pid r k) = proc_cache k.
Proof. unfold release_pid. now destruct (_ =? _). Qed.

Lemma run_queue_release_pid r k : run_queue (release_pid r k) = run_queue k.
Proof. unfold release_pid. now destruct (_ =? _). Qed.

End Failure.

(** X13: a [proc_clone] that returns [NULL] (no record, no PID, or no frame
    for some step of the copy) has undone what it did: the pool is as it
    was, the run queue is as it was, every PID is in use or free as it was,
    the free frames are those from before, and the source keeps its record
    with a count that is still right. *)
Theorem clone_failure_restores `{PF : Platform}
    (FA : list Z) (p : Z) (k k' : kernel) :
  NoDup FA -> 0 ∉ FA -> accounted FA p k -> p ∉ proc_cache k ->
  pid_wf (pids k) -> 0 ∉ proc_cache k ->
  proc_clone p k = Ok 0 k' ->
  proc_cache k' = proc_cache k /\
  run_queue k' = run_queue k /\
  pmm_free (kmem k') ≡ₚ pmm_free (kmem k) /\
  (forall q, 0 <= q < PROC_MAX_NUM ->
     pid_in_use (pid_map (pids k')) q = pid_in_use (pid_map (pids k)) q) /\
  get_proc k' p = get_proc k p /\
  accounted FA p k'.
Proof.
  intros Hnd H0 Hacc Hlive Hwf Hpool Hclone.
  destruct (accounted_source FA p k Hnd H0 Hacc) as (N1 & N2 & N3 & N4 & N5).
  destruct (proc_clone_total FA p k Hnd H0 Hacc Hlive)
    as (c' & k2 & E & T1 & T2 & T3 & T4 & _).
  rewrite Hclone in E. injection E as <- <-. specialize (T4 eq_refl).
  assert (Hacc' : accounted FA p k').
  { destruct Hacc as (A1 & A2 & A3). unfold accounted. rewrite T1, T3.
    split_and!; auto. now rewrite T4. }
  assert (Hrest : proc_cache k' = proc_cache k /\ run_queue k' = run_queue k /\
                  forall q, 0 <= q < PROC_MAX_NUM ->
                    pid_in_use (pid_map (pids k')) q = pid_in_use (pid_map (pids k)) q).
  { unfold proc_clone in Hclone.
    destruct (proc_alloc k) as [c1 k1|] eqn:Halloc; [|discriminate].
    destruct (Z.eqb_spec c1 0) as [->|Hc1].
    { injection Hclone as <-.
      destruct (proc_alloc_none k k1 Hwf Hpool Halloc) as (P1 & _ & P3 & P4 & _).
      split_and!; auto. intros q _. now rewrite P3. }
    destruct (proc_alloc_success k c1 k1 Halloc Hc1)
      as (Hc & Hm & Hrq & Hp & Hg & Hpd & Hothers).
    assert (Hpc : p <> c1).
    { intros ->. apply Hlive. rewrite Hc. left. }
    assert (Hp1 : get_proc k1 p = get_proc k p).
    { unfold get_proc. now rewrite Hothers. }
    destruct (init_proc_from_proc_spec (pmm_free (kmem k)) (page_dir (get_proc k p))
                c1 p k1) as (A1 & _ & A3 & _); auto.
    { now rewrite Hm. }
    { now rewrite Hp1. }
    { now rewrite Hg. }
    { now rewrite Hm. }
    { now rewrite Hm. }
    destruct (init_proc_from_proc c1 p k1) as [ok k3]. cbn [fst snd] in A1, A3.
    destruct ok; cbn [negb] in Hclone.
    { destruct (negb _); [discriminate | injection Hclone as E _; congruence]. }
    pose proof (only_space_pid c1 k1 k3 A1) as Hpid. rewrite Hg in Hpid.
    cbn [pid set_pid] in Hpid.
    destruct A1 as (E1 & E2 & E3 & _).
    destruct (alloc_free_bits (pids k) Hwf Hpd) as (_ & _ & _ & B4).
    destruct (A3 eq_refl) as [(B1 & B2 & B3 & _)|Hacc3].
    - rewrite (proc_free_no_space c1 k3 B1 B2) in Hclone. injection Hclone as <-.
      cbn [proc_cache run_queue pids slab_free set_proc_cache].
      rewrite proc_cache_release_pid, run_queue_release_pid.
      split_and!; [congruence | congruence |].
      intros q Hq. unfold release_pid. rewrite Hpid, (proj2 (Z.eqb_neq _ _) Hpd).
      cbn [pids set_pids]. rewrite E1, Hp. now apply B4.
    - destruct (proc_free_accounted _ c1 k3 N1 N2 Hacc3)
        as (k4 & Hfree & _ & _ & _ & _ & C5 & C6).
      pose proof (proc_free_pids _ c1 k3 k4 N1 N2 Hacc3 Hfree) as Hpids.
      rewrite Hfree in Hclone. injection Hclone as <-.
      split_and!; [congruence | congruence |].
      intros q Hq. rewrite Hpids, Hpid, (proj2 (Z.eqb_neq _ _) Hpd), E1, Hp.
      now apply B4. }
  destruct Hrest as (P1 & P2 & P3). split_and!; auto.
Qed.

(** Six free frames pay for the clone's directory, its two page tables and
    its three pages; with four the copy stops short and [proc_clone]
    returns [NULL]. *)
Lemma demo_clone_fails :
  exists k', proc_clone (PF := demo_platform) 100 demo_kernel_low = Ok 0 k'.
Proof. eexists. vm_compute. reflexivity. Qed.

Lemma demo_low_accounted :
  accounted (PF := demo_platform)
    ([4096; 8192; 12288; 16384; 20480; 24576] ++ pmm_free (kmem demo_kernel_low))
    100 demo_kernel_low.
Proof.
  unfold accounted. split_and!.
  - discriminate.
  - change (page_dir (get_proc demo_kernel_low 100)) with 4096.
    replace (space_frames (PF := demo_platform) (kmem demo_kernel_low) 4096)
      with [4096; 8192; 12288; 16384; 20480; 24576]; [reflexivity|].
    vm_compute. reflexivity.
  - vm_compute. reflexivity.
Qed.

Lemma clone_failure_restores_witness :
  exists k',
    proc_clone (PF := demo_platform) 100 demo_kernel_low = Ok 0 k' /\
    proc_cache k' = proc_cache demo_kernel_low /\
    pmm_free (kmem k') ≡ₚ pmm_free (kmem demo_kernel_low) /\
    pid_in_use (pid_map (pids k')) 1 = pid_in_use (pid_map (pids demo_kernel_low)) 1.
Proof.
  destruct demo_clone_fails as [k' Hclone].
  assert (Hnd : NoDup ([4096; 8192; 12288; 16384; 20480; 24576]
                       ++ pmm_free (kmem demo_kernel_low))) by by_compute.
  assert (H0 : 0 ∉ [4096; 8192; 12288; 16384; 20480; 24576]
                   ++ pmm_free (kmem demo_kernel_low)) by by_compute.
  assert (Hlive : 100 ∉ proc_cache demo_kernel_low) by by_compute.
  assert (Hpool : 0 ∉ proc_cache demo_kernel_low) by by_compute.
  assert (Hwf : pid_wf (PF := demo_platform) (pids demo_kernel_low))
    by (split; simpl; lia).
  destruct (clone_failure_restores (PF := demo_platform) _ 100 demo_kernel_low k'
              Hnd H0 demo_low_accounted Hlive Hwf Hpool Hclone)
    as (Hc & _ & Hperm & Hbits & _).
  exists k'. split_and!; [exact Hclone | exact Hc | exact Hperm |].
  apply Hbits. split; [discriminate | reflexivity].
Defined.

(** ** The kernel half of a new directory, failure of [proc_exec], exit *)

Section KernelHalf.

Context {PF : Platform}.

Lemma pg_copy_kernel_space_kernel d m i :
  USER_PDES <= i ->
  dir_of (pg_copy_kernel_space d m) d !! i
  = dir_of (pg_copy_kernel_space d m) KERNEL_PAGE_DIR !! i.
Proof.
  intros Hi. destruct (Z.eq_dec d KERNEL_PAGE_DIR) as [<-|Hne]; [reflexivity|].
  unfold pg_copy_kernel_space. rewrite !dir_of_insert.
  case_decide; [|congruence]. case_decide; [congruence|].
  rewrite lookup_union_l.
  - destruct (dir_of m KERNEL_PAGE_DIR !! i) as [e|] eqn:He.
    + apply map_lookup_filter_Some. split; [assumption | simpl; lia].
    + apply map_lookup_filter_None. left. assumption.
  - apply map_lookup_filter_None. right. intros e _. simpl. lia.
Qed.

Lemma init_proc_from_proc_kernel_half c p k k' i :
  init_proc_from_proc c p k = (true, k') -> USER_PDES <= i ->
  dir_of (kmem k') (page_dir (get_proc k' c)) !! i
  = dir_of (kmem k') KERNEL_PAGE_DIR !! i.
Proof.
  unfold init_proc_from_proc. intros Hrun Hi.
  destruct (vmm_alloc_vaddr_space _) as [d m1].
  destruct (_ =? 0); [discriminate|].
  destruct (copy_pdes _ _ _ _) as [ok k3].
  destruct ok; cbn [negb] in Hrun; [|discriminate].
  injection Hrun as <-. rewrite get_proc_set_kmem. cbn [kmem set_kmem].
  now apply pg_copy_kernel_space_kernel.
Qed.

Lemma init_proc_from_elf_kernel_half loader r elf size k k' i :
  init_proc_from_elf loader r elf size k = (true, k') -> USER_PDES <= i ->
  dir_of (kmem k') (page_dir (get_proc k' r)) !! i
  = dir_of (kmem k') KERNEL_PAGE_DIR !! i.
Proof.
  unfold init_proc_from_elf. intros Hrun Hi.
  destruct (vmm_alloc_vaddr_space _) as [d m1].
  destruct (_ =? 0); [discriminate|].
  destruct (loader _ _ _ _) as [[ok p'] m'].
  destruct ok; cbn [negb] in Hrun; [|discriminate].
  destruct (alloc_proc_stacks _ _) as [st k4].
  destruct st; cbn [negb] in Hrun; [|discriminate].
  injection Hrun as <-. rewrite get_proc_set_kmem. cbn [kmem set_kmem].
  now apply pg_copy_kernel_space_kernel.
Qed.

End KernelHalf.

(** X14: in the directory of a process [proc_exec] has built, every slot of
    the kernel half holds what the kernel's own directory holds there: the
    copy of the kernel space is the last step of the construction, and
    nothing after it writes the directory. *)
Theorem exec_space_shares_kernel_half `{PF : Platform}
    (loader : list Z -> Z -> process -> mem -> bool * process * mem)
    (elf : list Z) (size : Z) (k k' : kernel) :
  proc_exec loader elf size k = Ok true k' ->
  exists r,
    run_queue k' = run_queue k ++ [r] /\
    forall i, USER_PDES <= i ->
      dir_of (kmem k') (page_dir (get_proc k' r)) !! i
      = dir_of (kmem k') KERNEL_PAGE_DIR !! i.
Proof.
  intros Hexec. unfold proc_exec in Hexec.
  destruct (proc_alloc k) as [r k1|] eqn:Halloc; [|discriminate].
  destruct (Z.eqb_spec r 0) as [|Hr]; [discriminate|].
  destruct (proc_alloc_success k r k1 Halloc Hr) as (_ & _ & Hq & _).
  destruct (init_proc_from_elf loader r elf size k1) as [ok k2] eqn:Hinit.
  destruct ok; cbn [negb] in Hexec.
  2: { destruct (proc_free r k2); discriminate. }
  injection Hexec as <-.
  pose proof (init_proc_from_elf_only_record loader r elf size k1) as Hrec.
  rewrite Hinit in Hrec. cbn [snd] in Hrec. destruct Hrec as (_ & _ & R3 & _).
  exists r. split.
  - cbn. congruence.
  - intros i Hi. unfold sched_add. rewrite get_proc_set_run_queue_upd.
    cbn [page_dir set_state kmem set_run_queue upd_proc set_procs].
    now apply (init_proc_from_elf_kernel_half loader r elf size k1).
Qed.

Lemma demo_kdir_exec_succeeds :
  exists k', proc_exec (PF := demo_platform) demo_loader [127; 69] 2 demo_kernel_kdir
             = Ok true k'.
Proof. eexists. vm_compute. reflexivity. Qed.

Lemma exec_space_shares_kernel_half_witness :
  exists k' r,
    proc_exec (PF := demo_platform) demo_loader [127; 69] 2 demo_kernel_kdir
    = Ok true k' /\
    dir_of (kmem k') (page_dir (get_proc k' r)) !! 768
    = dir_of (kmem k') 1048576 !! 768.
Proof.
  destruct demo_kdir_exec_succeeds as [k' Hexec].
  destruct (exec_space_shares_kernel_half (PF := demo_platform) demo_loader [127; 69] 2
              demo_kernel_kdir k' Hexec) as (r & _ & Hhalf).
  exists k', r. split; [exact Hexec|].
  apply (Hhalf 768). discriminate.
Defined.

(** X15: in the directory of a clone, every slot of the kernel half holds
    what the kernel's own directory held there before the call; the kernel's
    directory is not a free frame. *)
Theorem clone_space_shares_kernel_half `{PF : Platform}
    (FA : list Z) (p : Z) (k : kernel) (c : Z) (k' : kernel) :
  NoDup FA -> 0 ∉ FA -> accounted FA p k -> p ∉ proc_cache k ->
  KERNEL_PAGE_DIR ∉ pmm_free (kmem k) ->
  proc_clone p k = Ok c k' -> c <> 0 ->
  forall i, USER_PDES <= i ->
    dir_of (kmem k') (page_dir (get_proc k' c)) !! i
    = dir_of (kmem k) KERNEL_PAGE_DIR !! i.
Proof.
  intros Hnd H0 Hacc Hlive Hkd Hclone Hc0 i Hi.
  destruct (proc_clone_total FA p k Hnd H0 Hacc Hlive)
    as (c' & k2 & E & _ & T2 & _).
  rewrite Hclone in E. injection E as <- <-.
  rewrite <- (frames_kept_dir _ _ _ _ T2 Hkd).
  unfold proc_clone in Hclone.
  destruct (proc_alloc k) as [c1 k1|]; [|discriminate].
  destruct (Z.eqb_spec c1 0) as [->|Hc1].
  { injection Hclone as E _. congruence. }
  destruct (init_proc_from_proc c1 p k1) as [ok k3] eqn:Hinit.
  destruct ok; cbn [negb] in Hclone.
  2: { destruct (proc_free c1 k3); [injection Hclone as E _; congruence | discriminate]. }
  destruct (negb _); [discriminate|].
  injection Hclone as <- <-.
  unfold sched_add. rewrite get_proc_set_run_queue_upd.
  cbn [page_dir set_parent set_user_stack set_kernel_stack set_entry set_context
       set_state kmem set_run_queue upd_proc set_procs].
  now apply (init_proc_from_proc_kernel_half c1 p k1).
Qed.

Lemma demo_kdir_clone_succeeds :
  exists k', proc_clone (PF := demo_platform) 100 demo_kernel_kdir = Ok 200 k'.
Proof. eexists. vm_compute. reflexivity. Qed.

Lemma demo_kdir_accounted :
  accounted (PF := demo_platform)
    ([4096; 8192; 12288; 16384; 20480; 24576] ++ pmm_free (kmem demo_kernel_kdir))
    100 demo_kernel_kdir.
Proof.
  unfold accounted. split_and!.
  - discriminate.
  - change (page_dir (get_proc demo_kernel_kdir 100)) with 4096.
    replace (space_frames (PF := demo_platform) (kmem demo_kernel_kdir) 4096)
      with [4096; 8192; 12288; 16384; 20480; 24576]; [reflexivity|].
    vm_compute. reflexivity.
  - vm_compute. reflexivity.
Qed.

Lemma clone_space_shares_kernel_half_witness :
  exists k',
    proc_clone (PF := demo_platform) 100 demo_kernel_kdir = Ok 200 k' /\
    dir_of (kmem k') (page_dir (get_proc k' 200)) !! 768 = Some (2097152, 3).
Proof.
  destruct demo_kdir_clone_succeeds as [k' Hclone].
  assert (Hnd : NoDup ([4096; 8192; 12288; 16384; 20480; 24576]
                       ++ pmm_free (kmem demo_kernel_kdir))) by by_compute.
  assert (H0 : 0 ∉ [4096; 8192; 12288; 16384; 20480; 24576]
                   ++ pmm_free (kmem demo_kernel_kdir)) by by_compute.
  assert (Hlive : 100 ∉ proc_cache demo_kernel_kdir) by by_compute.
  assert (Hkd : KERNEL_PAGE_DIR (Platform := demo_platform)
                ∉ pmm_free (kmem demo_kernel_kdir)) by by_compute.
  assert (Hc : 200 <> 0) by discriminate.
  exists k'. split; [exact Hclone|].
  apply (clone_space_shares_kernel_half (PF := demo_platform) _ 100 demo_kernel_kdir
           200 k' Hnd H0 demo_kdir_accounted Hlive Hkd Hclone Hc 768).
  discriminate.
Defined.

(** X16: a [proc_exec] that reports failure, whatever the cause (no record,
    no PID, no directory, the image rejected, no frame for a stack), leaves
    the pool and the run queue as they were and changes no record that was
    not in the pool. *)
Theorem exec_failure_restores_pool `{PF : Platform}
    (loader : list Z -> Z -> process -> mem -> bool * process * mem)
    (elf : list Z) (size : Z) (k k' : kernel) :
  layout_ok -> loader_ok loader ->
  NoDup (pmm_free (kmem k)) -> 0 ∉ pmm_free (kmem k) ->
  pid_wf (pids k) -> 0 ∉ proc_cache k ->
  proc_exec loader elf size k = Ok false k' ->
  proc_cache k' = proc_cache k /\
  run_queue k' = run_queue k /\
  (forall r, r ∉ proc_cache k -> get_proc k' r = get_proc k r).
Proof.
  intros Hlay Hload Hnd H0 Hwf Hpool Hexec. unfold proc_exec in Hexec.
  destruct (proc_alloc k) as [r k1|] eqn:Halloc; [|discriminate].
  destruct (Z.eqb_spec r 0) as [->|Hr].
  { injection Hexec as <-.
    destruct (proc_alloc_none k k1 Hwf Hpool Halloc) as (P1 & _ & _ & P4 & P5).
    split_and!; auto. intros r Hr. unfold get_proc. now rewrite P5. }
  destruct (proc_alloc_success k r k1 Halloc Hr)
    as (Hc & Hm & Hrq & Hp & Hg & Hpd & Hothers).
  pose proof (init_proc_from_elf_spec (pmm_free (kmem k)) Hnd H0 loader Hload
                r elf size k1 Hlay) as Hspec.
  pose proof (init_proc_from_elf_only_record loader r elf size k1) as Hrec.
  destruct (init_proc_from_elf loader r elf size k1) as [ok k2].
  cbn [fst snd] in Hspec, Hrec.
  destruct ok; cbn [negb] in Hexec; [discriminate|].
  destruct Hrec as (_ & R2 & R3 & R4).
  assert (Hne : forall r', r' ∉ proc_cache k -> r' <> r).
  { intros r' Hr' ->. apply Hr'. rewrite Hc. left. }
  destruct Hspec as [(_ & B1 & B2 & _)|Hacc].
  - now rewrite Hm.
  - now rewrite Hg.
  - rewrite (proc_free_no_space r k2 B1 B2) in Hexec. injection Hexec as <-.
    cbn [proc_cache run_queue slab_free set_proc_cache].
    rewrite proc_cache_release_pid, run_queue_release_pid.
    split_and!; [congruence | congruence |].
    intros r' Hr'. unfold get_proc. cbn. rewrite procs_release_pid.
    rewrite R4, Hothers; auto.
  - destruct (proc_free_accounted _ r k2 Hnd H0 Hacc)
      as (k3 & Hfree & _ & _ & C3 & C4 & C5 & C6).
    rewrite Hfree in Hexec. injection Hexec as <-.
    split_and!; [congruence | congruence |].
    intros r' Hr'. unfold get_proc at 1. rewrite C3.
    fold (get_proc (free_vaddr_space r k2) r').
    rewrite (only_mem_get_ne r r' k2 _ C4) by auto.
    unfold get_proc. rewrite R4, Hothers; auto.
Qed.

Lemma exec_failure_restores_pool_witness :
  exists k',
    proc_exec (PF := demo_platform) demo_loader [127; 69] 2 demo_kernel_low
    = Ok false k' /\
    proc_cache k' = proc_cache demo_kernel_low /\
    run_queue k' = run_queue demo_kernel_low.
Proof.
  destruct demo_exec_fails as [k' Hexec].
  assert (Hnd : NoDup (pmm_free (kmem demo_kernel_low))) by by_compute.
  assert (H0 : 0 ∉ pmm_free (kmem demo_kernel_low)) by by_compute.
  assert (Hpool : 0 ∉ proc_cache demo_kernel_low) by by_compute.
  assert (Hwf : pid_wf (PF := demo_platform) (pids demo_kernel_low))
    by (split; simpl; lia).
  destruct (exec_failure_restores_pool (PF := demo_platform) demo_loader [127; 69] 2
              demo_kernel_low k' demo_layout_ok demo_loader_ok Hnd H0 Hwf Hpool Hexec)
    as (Hc & Hq & _).
  exists k'. split_and!; [exact Hexec | exact Hc | exact Hq].
Defined.

Section ExitFacts.

Context {PF : Platform}.

Lemma sched_ok_fields sched k r :
  sched_ok sched ->
  pid (get_proc (sched k) r) = pid (get_proc k r) /\
  status (get_proc (sched k) r) = status (get_proc k r) /\
  page_dir (get_proc (sched k) r) = page_dir (get_proc k r) /\
  mem_pages (get_proc (sched k) r) = mem_pages (get_proc k r).
Proof.
  intros Hs. destruct (Hs k) as (_ & _ & _ & Hrec). specialize (Hrec r).
  split_and!.
  - apply (f_equal pid) in Hrec. exact Hrec.
  - apply (f_equal status) in Hrec. exact Hrec.
  - apply (f_equal page_dir) in Hrec. exact Hrec.
  - apply (f_equal mem_pages) in Hrec. exact Hrec.
Qed.

End ExitFacts.

(** X17: [proc_exit] stores the exit status, marks the record dead and
    enters the scheduler; it frees nothing.  For a scheduler that leaves
    the frames, the PIDs, the pool and the fields of a record other than
    state and context alone, the process comes out of [proc_exit] with its
    exit status, its PID, and a count that is still right, so that the
    [proc_free] that follows does not panic, hands every frame of the
    process back to the frame allocator and releases the PID. *)
Theorem exit_keeps_frames_until_free `{PF : Platform}
    (sched : kernel -> kernel) (FA : list Z) (p st : Z) (k : kernel) :
  sched_ok sched ->
  NoDup FA -> 0 ∉ FA -> accounted FA p k ->
  0 <= pid (get_proc k p) < 8 * Z.of_nat (length (pid_map (pids k))) ->
  (exists k0, proc_exit sched p st k = sched k0 /\
              state (get_proc k0 p) = PROC_STATE_DEAD /\
              status (get_proc k0 p) = st /\
              accounted FA p k0) /\
  let kx := proc_exit sched p st k in
  status (get_proc kx p) = st /\
  pid (get_proc kx p) = pid (get_proc k p) /\
  kmem kx = kmem k /\ pids kx = pids k /\
  accounted FA p kx /\
  exists k',
    proc_free p kx = Ok tt k' /\
    pmm_free (kmem k') ≡ₚ FA /\
    pid_in_use (pid_map (pids k')) (pid (get_proc k p)) = false /\
    (forall r, r <> p -> get_proc k' r = get_proc kx r).
Proof.
  intros Hs Hnd H0 Hacc Hpid.
  set (k0 := upd_proc p (set_state PROC_STATE_DEAD) (upd_proc p (set_status st) k)).
  assert (Hg0 : get_proc k0 p = set_state PROC_STATE_DEAD (set_status st (get_proc k p))).
  { subst k0. now rewrite !get_proc_upd. }
  assert (Hacc0 : accounted FA p k0).
  { apply (accounted_agree FA p k k0); [reflexivity | | | assumption];
      now rewrite Hg0. }
  assert (Hx : proc_exit sched p st k = sched k0) by reflexivity.
  split.
  { exists k0. rewrite Hg0. split_and!; auto. }
  cbn zeta. rewrite Hx.
  destruct (sched_ok_fields sched k0 p Hs) as (S1 & S2 & S3 & S4).
  destruct (Hs k0) as (P1 & P2 & P3 & _).
  rewrite Hg0 in S1, S2, S3, S4. cbn [pid status page_dir mem_pages set_state set_status]
    in S1, S2, S3, S4.
  assert (Haccx : accounted FA p (sched k0)).
  { apply (accounted_agree FA p k0 (sched k0)); [exact P3 | | | exact Hacc0];
      rewrite Hg0; assumption. }
  split_and!.
  - exact S2.
  - exact S1.
  - exact P3.
  - exact P1.
  - exact Haccx.
  - destruct (proc_free_accounted FA p (sched k0) Hnd H0 Haccx)
      as (k' & Hfree & C1 & _ & C3 & C4 & _).
    pose proof (proc_free_pids FA p (sched k0) k' Hnd H0 Haccx Hfree) as Hpids.
    rewrite S1, P1 in Hpids. change (pids k0) with (pids k) in Hpids.
    exists k'. split_and!.
    + exact Hfree.
    + exact C1.
    + rewrite Hpids. destruct (Z.eqb_spec (pid (get_proc k p)) (-1)) as [|_]; [lia|].
      cbn. rewrite pid_in_use_clear by lia. now case_decide.
    + intros r Hr. unfold get_proc at 1. rewrite C3.
      fold (get_proc (free_vaddr_space p (sched k0)) r).
      now apply (only_mem_get_ne p r (sched k0)).
Qed.

Lemma demo_sched_ok : sched_ok demo_sched.
Proof. intros k. unfold demo_sched. cbn. auto. Qed.

Lemma exit_keeps_frames_until_free_witness :
  exists k',
    proc_free (PF := demo_platform) 100
      (proc_exit (PF := demo_platform) demo_sched 100 3 demo_kernel) = Ok tt k' /\
    pid_in_use (pid_map (pids k')) 0 = false /\
    status (get_proc (proc_exit (PF := demo_platform) demo_sched 100 3 demo_kernel) 100)
    = 3.
Proof.
  assert (Hnd : NoDup ([4096; 8192; 12288; 16384; 20480; 24576]
                       ++ pmm_free (kmem demo_kernel))) by by_compute.
  assert (H0 : 0 ∉ [4096; 8192; 12288; 16384; 20480; 24576]
                   ++ pmm_free (kmem demo_kernel)) by by_compute.
  assert (Hpid : 0 <= pid (get_proc demo_kernel 100)
                 < 8 * Z.of_nat (length (pid_map (pids demo_kernel))))
    by (split; [discriminate | reflexivity]).
  destruct (exit_keeps_frames_until_free (PF := demo_platform) demo_sched _ 100 3
              demo_kernel demo_sched_ok Hnd H0 demo_accounted Hpid)
    as (_ & Hst & _ & _ & _ & _ & k' & Hfree & _ & Hbit & _).
  exists k'. split_and!; [exact Hfree | exact Hbit | exact Hst].
Defined.

(** ** The two self-checks *)

(** X18: [proc_free] of a record that has no directory walks nothing and
    leaves physical memory as it is.  The PID is released before the leak
    check: with [mem_pages] zero the record goes back to the pool, with any
    other value [proc_free] panics, and either way a PID other than [-1]
    has been released by then. *)
Theorem proc_free_without_directory `{PF : Platform} (r : Z) (k : kernel) :
  page_dir (get_proc k r) = 0 ->
  (mem_pages (get_proc k r) = 0 ->
   proc_free r k = Ok tt (slab_free r (release_pid r k))) /\
  (mem_pages (get_proc k r) <> 0 -> proc_free r k = Panic (release_pid r k)) /\
  kmem (outcome_state (proc_free r k)) = kmem k /\
  (pid (get_proc k r) <> -1 ->
   pids (outcome_state (proc_free r k)) = free_pid (pid (get_proc k r)) (pids k)).
Proof.
  intros Hd.
  assert (Hrec : proc_reclaim r k = release_pid r k).
  { unfold proc_reclaim, free_vaddr_space. now rewrite Hd. }
  unfold proc_free. rewrite Hrec, get_proc_release_pid.
  split_and!.
  - intros ->. reflexivity.
  - intros Hne. now rewrite (proj2 (Z.eqb_neq _ _) Hne).
  - destruct (_ =? 0); cbn [outcome_state kmem slab_free set_proc_cache];
      apply kmem_release_pid.
  - intros Hp.
    assert (Hpids : pids (release_pid r k) = free_pid (pid (get_proc k r)) (pids k)).
    { unfold release_pid. now rewrite (proj2 (Z.eqb_neq _ _) Hp). }
    destruct (_ =? 0); cbn [outcome_state pids slab_free set_proc_cache]; exact Hpids.
Qed.

Lemma proc_free_without_directory_witness :
  let k := upd_proc 300 (set_mem_pages 2) (upd_proc 300 (set_pid 1) demo_kernel) in
  proc_free (PF := demo_platform) 300 k = Panic (release_pid 300 k) /\
  pids (release_pid 300 k) = free_pid 1 (pids k).
Proof.
  intros k.
  assert (Hd : page_dir (get_proc k 300) = 0) by reflexivity.
  destruct (proc_free_without_directory (PF := demo_platform) 300 k Hd)
    as (_ & Hpanic & _ & Hpids).
  split.
  - apply Hpanic. discriminate.
  - rewrite Hpanic in Hpids by discriminate. apply Hpids. discriminate.
Defined.

(** X19: the count check of [proc_clone] is not idle.  For a source whose
    [mem_pages] is not the number of its frames, a copy that completes is
    followed by the panic, so [proc_clone] never hands out a clone of such
    a source: it returns [NULL] or it panics. *)
Theorem clone_detects_wrong_count `{PF : Platform} (k : kernel) (p : Z) :
  let F0 := pmm_free (kmem k) in
  let S := space_frames (kmem k) (page_dir (get_proc k p)) in
  NoDup F0 -> 0 ∉ F0 -> p ∉ proc_cache k ->
  0 ∉ S -> Forall (fun a => a ∉ F0) S ->
  mem_pages (get_proc k p) <> wrap32 (Z.of_nat (length S)) ->
  (forall c k1 k2,
     proc_alloc k = Ok c k1 -> c <> 0 ->
     init_proc_from_proc c p k1 = (true, k2) ->
     proc_clone p k = Panic k2) /\
  (forall c k', proc_clone p k = Ok c k' -> c = 0).
Proof.
  intros F0 S Hnd H0 Hlive HS0 HSF Hcnt.
  assert (Hpanic : forall c k1 k2,
             proc_alloc k = Ok c k1 -> c <> 0 ->
             init_proc_from_proc c p k1 = (true, k2) ->
             proc_clone p k = Panic k2).
  { intros c k1 k2 Halloc Hc0 Hinit.
    destruct (proc_alloc_cases k) as (c' & k1' & Halloc' & Hmem1 & Hprocs1 & Hc).
    rewrite Halloc in Halloc'. injection Halloc' as <- <-.
    destruct (Hc Hc0) as (Hcin & pd & Hrec).
    assert (Hpc : p <> c) by (intros ->; contradiction).
    assert (Hp1 : get_proc k1 p = get_proc k p).
    { unfold get_proc. now rewrite Hprocs1. }
    rewrite Forall_forall in HSF.
    destruct (init_proc_from_proc_spec F0 (page_dir (get_proc k p)) c p k1)
      as (A1 & _ & _ & A4); auto.
    { now rewrite Hmem1. }
    { now rewrite Hp1. }
    { now rewrite Hrec. }
    { now rewrite Hmem1. }
    { now rewrite Hmem1. }
    rewrite Hinit in A1, A4. cbn [fst snd] in A1, A4.
    destruct (A4 eq_refl) as (_ & B2 & _). rewrite Hmem1 in B2.
    assert (Hp2 : get_proc k2 p = get_proc k p).
    { now rewrite (only_space_get_ne c p k1 k2 A1 Hpc). }
    unfold proc_clone. rewrite Halloc, (proj2 (Z.eqb_neq c 0) Hc0), Hinit.
    cbn [negb]. rewrite Hp2, B2.
    fold S. destruct (Z.eqb_spec (wrap32 (Z.of_nat (length S))) (mem_pages (get_proc k p)));
      [congruence | reflexivity]. }
  split; [exact Hpanic|].
  intros c k' Hclone. destruct (Z.eq_dec c 0) as [|Hc0]; [assumption|exfalso].
  pose proof Hclone as Hrun. unfold proc_clone in Hrun.
  destruct (proc_alloc k) as [c1 k1|] eqn:Halloc; [|discriminate].
  destruct (Z.eqb_spec c1 0) as [->|Hc1].
  { injection Hrun as E _. congruence. }
  destruct (init_proc_from_proc c1 p k1) as [ok k2] eqn:Hinit.
  destruct ok; cbn [negb] in Hrun.
  - rewrite (Hpanic c1 k1 k2 eq_refl Hc1 Hinit) in Hclone. discriminate.
  - destruct (proc_free c1 k2); [injection Hrun as E _; congruence | discriminate].
Qed.

(** The source of [demo_kernel] with a count of five for its six frames:
    a record is had and the copy completes. *)
Lemma demo_miscounted_alloc :
  proc_alloc (PF := demo_platform) (upd_proc 100 (set_mem_pages 5) demo_kernel)
  = Ok 200 (outcome_state (proc_alloc (PF := demo_platform)
                             (upd_proc 100 (set_mem_pages 5) demo_kernel))).
Proof. vm_compute. reflexivity. Qed.

Lemma demo_miscounted_walk :
  exists k2,
    init_proc_from_proc (PF := demo_platform) 200 100
      (outcome_state (proc_alloc (PF := demo_platform)
                        (upd_proc 100 (set_mem_pages 5) demo_kernel)))
    = (true, k2).
Proof. eexists. vm_compute. reflexivity. Qed.

Lemma clone_detects_wrong_count_witness :
  exists k2,
    proc_clone (PF := demo_platform) 100 (upd_proc 100 (set_mem_pages 5) demo_kernel)
    = Panic k2.
Proof.
  destruct demo_miscounted_walk as (k2 & Hinit).
  pose proof demo_miscounted_alloc as Halloc.
  set (k := upd_proc 100 (set_mem_pages 5) demo_kernel) in *.
  assert (Hnd : NoDup (pmm_free (kmem k))) by by_compute.
  assert (H0 : 0 ∉ pmm_free (kmem k)) by by_compute.
  assert (Hlive : 100 ∉ proc_cache k) by by_compute.
  assert (HS0 : 0 ∉ space_frames (PF := demo_platform) (kmem k) (page_dir (get_proc k 100)))
    by by_compute.
  assert (HSF : Forall (fun a => a ∉ pmm_free (kmem k))
                  (space_frames (PF := demo_platform) (kmem k) (page_dir (get_proc k 100))))
    by by_compute.
  assert (Hcnt : mem_pages (get_proc k 100)
                 <> wrap32 (Z.of_nat (length (space_frames (PF := demo_platform) (kmem k)
                                                (page_dir (get_proc k 100))))))
    by (vm_compute; discriminate).
  assert (Hc : 200 <> 0) by discriminate.
  exists k2.
  exact (proj1 (clone_detects_wrong_count (PF := demo_platform) k 100
                  Hnd H0 Hlive HS0 HSF Hcnt) 200 _ k2 Halloc Hc Hinit).
Defined.
